(** * p5-tool-uploader: the upload worker (src/index.ts and its earlier
    single-endpoint variant), embedded in Rocq.

    The worker receives multipart uploads, derives a file name with
    [sanitizeString] and [generateRandomString], stores the payload through
    GitHub's contents API and prepends an entry to [manifest.json].

    Layout: JavaScript strings and the regular expressions the source uses;
    the sanitizer; JSON values with the property semantics the manifest code
    relies on; zod validation; the effect monad of a request; the handlers;
    base64 and UTF-8; then the theorems. *)

From Stdlib Require Import ZArith NArith Ascii String Lia.
From stdpp Require Import base option list gmap.

Local Open Scope N_scope.

(** ** JavaScript strings

    A JavaScript string is a sequence of UTF-16 code units. *)

Definition jsstr := list N.

Definition js (s : string) : jsstr :=
  map N_of_ascii (list_ascii_of_string s).

Module Ch.
Definition hyphen : N := 45.
Definition dot : N := 46.
Definition slash : N := 47.

Definition is_hyphen (c : N) : bool := c =? hyphen.
Definition is_dot (c : N) : bool := c =? dot.
Definition is_upper (c : N) : bool := (65 <=? c) && (c <=? 90).
Definition is_lower (c : N) : bool := (97 <=? c) && (c <=? 122).
Definition is_digit (c : N) : bool := (48 <=? c) && (c <=? 57).

(** The class [[a-z0-9]]. *)
Definition alnum (c : N) : bool := is_lower c || is_digit c.
(** The class [[^a-z0-9]]. *)
Definition not_alnum (c : N) : bool := negb (alnum c).
(** The class [[^/.]]. *)
Definition not_slash_dot (c : N) : bool := negb ((c =? slash) || (c =? dot)).
(** The characters of a sanitized name, [[a-z0-9-]]. *)
Definition safe (c : N) : bool := alnum c || is_hyphen c.
End Ch.

(** [String.prototype.toLowerCase], one code unit at a time.  The Unicode
    case tables are not part of the repository.  The model is exact on ASCII
    and on the only two other code points whose lower case contains an ASCII
    letter: U+212A KELVIN SIGN, lower case [k], and U+0130, lower case [i]
    followed by U+0307.  Every other code unit has a lower case made of code
    units outside ASCII, and is kept as it is: the sanitizer, the only caller,
    turns each run of them into one hyphen whatever they are. *)
Definition lower_cu (c : N) : jsstr :=
  if Ch.is_upper c then [c + 32]
  else if c =? 8490 then [107]
  else if c =? 304 then [105; 775]
  else [c].

Definition toLowerCase (s : jsstr) : jsstr := concat (map lower_cu s).

(** [s.substring(0, e)]: a negative end counts as 0, an end past the length
    as the length. *)
Definition substring0 (s : jsstr) (e : Z) : jsstr := take (Z.to_nat e) s.

(** [s.endsWith(suffix)]. *)
Definition endsWith (s suffix : jsstr) : bool :=
  bool_decide (drop (length s - length suffix) s = suffix).

(** ** Regular expressions

    The fragment of JavaScript regular expressions the source uses: a
    character class, a greedy [+] on a class, the anchors [^] and [$],
    sequence and alternation.  Matching is the backtracking search of the
    language: [rmatch r bol s k] matches [r] at the head of [s], where [bol]
    tells whether this is index 0 of the subject, and hands what is left to
    the continuation [k]; the result is the number of code units consumed. *)

Inductive regex : Type :=
| Chr (p : N -> bool)
| Plus (p : N -> bool)
| Bol
| Eol
| Seq (r1 r2 : regex)
| Alt (r1 r2 : regex).

Fixpoint plus_loop (p : N -> bool) (s : jsstr) (k : jsstr -> option nat)
  : option nat :=
  match s with
  | c :: s' =>
      if p c then
        S <$> (match plus_loop p s' k with
               | Some n => Some n
               | None => k s'
               end)
      else None
  | [] => None
  end.

Fixpoint rmatch (r : regex) (bol : bool) (s : jsstr)
    (k : bool -> jsstr -> option nat) : option nat :=
  match r with
  | Chr p =>
      match s with
      | c :: s' => if p c then S <$> k false s' else None
      | [] => None
      end
  | Plus p => plus_loop p s (k false)
  | Bol => if bol then k bol s else None
  | Eol => match s with [] => k bol s | _ :: _ => None end
  | Seq r1 r2 => rmatch r1 bol s (fun b t => rmatch r2 b t k)
  | Alt r1 r2 =>
      match rmatch r1 bol s k with
      | Some n => Some n
      | None => rmatch r2 bol s k
      end
  end.

(** The length of the match of [r] at the head of [s], if there is one. *)
Definition exec (r : regex) (bol : bool) (s : jsstr) : option nat :=
  rmatch r bol s (fun _ _ => Some 0%nat).

(** [s.replace(r, rep)], with the [g] flag when [g] is [true].  The subject is
    scanned from the left; [skip] counts the code units of the current match
    that are still to be passed over.  An empty match is followed by a step of
    one code unit, as [lastIndex] is advanced in the language. *)
Fixpoint replace_loop (r : regex) (rep : jsstr) (g : bool) (bol : bool)
    (skip : nat) (s : jsstr) {struct s} : jsstr :=
  match skip with
  | S n =>
      match s with
      | [] => []
      | _ :: s' => replace_loop r rep g false n s'
      end
  | O =>
      match exec r bol s with
      | Some len =>
          if g then
            match len, s with
            | O, c :: s' => rep ++ c :: replace_loop r rep g false 0 s'
            | S n, _ :: s' => rep ++ replace_loop r rep g false n s'
            | _, [] => rep
            end
          else rep ++ drop len s
      | None =>
          match s with
          | [] => []
          | c :: s' => c :: replace_loop r rep g false 0 s'
          end
      end
  end.

Definition str_replace (r : regex) (g : bool) (rep : jsstr) (s : jsstr) : jsstr :=
  replace_loop r rep g true 0 s.

(** [/[^a-z0-9]+/g] *)
Definition re_not_alnum : regex := Plus Ch.not_alnum.
(** [/^-+|-+$/g] *)
Definition re_edge_hyphens : regex :=
  Alt (Seq Bol (Plus Ch.is_hyphen)) (Seq (Plus Ch.is_hyphen) Eol).
(** [/\.js$/] *)
Definition re_js_suffix : regex :=
  Seq (Chr Ch.is_dot) (Seq (Chr (N.eqb 106)) (Seq (Chr (N.eqb 115)) Eol)).
(** [/\.[^/.]+$/] *)
Definition re_extension : regex :=
  Seq (Chr Ch.is_dot) (Seq (Plus Ch.not_slash_dot) Eol).

(** ** The sanitizer *)

Definition sanitizeString (str : jsstr) (maxLength : Z) : jsstr :=
  substring0
    (str_replace re_edge_hyphens true []
       (str_replace re_not_alnum true [Ch.hyphen] (toLowerCase str)))
    maxLength.

(** Auxiliary forms of the two replacements, used to reason about them. *)

Fixpoint take_while (p : N -> bool) (s : jsstr) : jsstr :=
  match s with
  | c :: s' => if p c then c :: take_while p s' else []
  | [] => []
  end.

Fixpoint drop_while (p : N -> bool) (s : jsstr) : jsstr :=
  match s with
  | c :: s' => if p c then drop_while p s' else s
  | [] => []
  end.

(** One pass over the subject; [in_run] tells whether the previous code unit
    was outside [[a-z0-9]]. *)
Fixpoint squeeze (in_run : bool) (s : jsstr) : jsstr :=
  match s with
  | [] => []
  | c :: s' =>
      if Ch.not_alnum c then
        if in_run then squeeze true s' else Ch.hyphen :: squeeze true s'
      else c :: squeeze false s'
  end.

Fixpoint strip_end (s : jsstr) : jsstr :=
  match s with
  | [] => []
  | c :: s' => if forallb Ch.is_hyphen s then [] else c :: strip_end s'
  end.

(** No two hyphens in a row. *)
Fixpoint no_hh (s : jsstr) : bool :=
  match s with
  | c :: s' =>
      match s' with
      | d :: _ => negb (Ch.is_hyphen c && Ch.is_hyphen d) && no_hh s'
      | [] => true
      end
  | [] => true
  end.

Definition starts_hyphen (s : jsstr) : bool :=
  match s with c :: _ => Ch.is_hyphen c | [] => false end.

Definition ends_hyphen (s : jsstr) : bool :=
  match last s with Some c => Ch.is_hyphen c | None => false end.

(** What the sanitizer leaves of a name before truncation, and what
    truncation keeps of it: only [[a-z0-9-]], no two hyphens in a row, no
    hyphen in front. *)
Definition tidy (s : jsstr) : bool :=
  forallb Ch.safe s && no_hh s && negb (starts_hyphen s).

(** ** The sanitizer as the specification words it

    "lowercases, replaces every maximal run of characters outside [a-z0-9]
    with a single hyphen, trims leading/trailing hyphens, truncates to
    maxLength characters". *)
Module Spec.

(** The maximal runs of [s]: each block holds adjacent code units that are
    all outside [[a-z0-9]] (flag [true]) or all inside it. *)
Fixpoint runs (s : jsstr) : list (bool * jsstr) :=
  match s with
  | [] => []
  | c :: s' =>
      match runs s' with
      | (b, blk) :: rest =>
          if Bool.eqb b (Ch.not_alnum c) then (b, c :: blk) :: rest
          else (Ch.not_alnum c, [c]) :: (b, blk) :: rest
      | [] => [(Ch.not_alnum c, [c])]
      end
  end.

Definition collapse_runs (s : jsstr) : jsstr :=
  concat (map (fun r : bool * jsstr => if r.1 then [Ch.hyphen] else r.2) (runs s)).

Definition trim_hyphens (s : jsstr) : jsstr :=
  reverse (drop_while Ch.is_hyphen (reverse (drop_while Ch.is_hyphen s))).

Definition truncate (s : jsstr) (maxLength : Z) : jsstr :=
  take (Z.to_nat maxLength) s.

Definition sanitize (input : jsstr) (maxLength : Z) : jsstr :=
  truncate (trim_hyphens (collapse_runs (toLowerCase input))) maxLength.

End Spec.

(** ** Exceptions and results *)

Inductive exn : Type :=
| TypeError                       (* a property of null, a call of a non-function, ... *)
| SyntaxError                     (* JSON.parse, response.json(), a content that does not decode *)
| NetworkError                    (* fetch() rejects *)
| GitHubApiError (status : Z)     (* Error(`GitHub API error: ...`) *)
| ManifestUpdateError (status : Z). (* Error(`Failed to update manifest: ...`) *)

Inductive outcome (A : Type) : Type :=
| Ok (a : A)
| Throw (e : exn).
Arguments Ok {A} a.
Arguments Throw {A} e.

#[local] Set Warnings "-register-all".

(** ** JSON values, as JavaScript sees them

    An array is an object: besides its items it can hold named properties,
    which [JSON.parse] never produces and [JSON.stringify] does not write.
    The fields of an object are kept in the order [JSON.stringify] writes
    them.  The worker only tests numbers for being zero; integers stand for
    them. *)
Inductive json : Type :=
| JNull
| JBool (b : bool)
| JNum (n : Z)
| JStr (s : jsstr)
| JArr (items : list json) (props : list (jsstr * json))
| JObj (fields : list (jsstr * json)).

(** The first binding of [k], as in a property list without repeated keys. *)
Fixpoint assoc {A : Type} (k : jsstr) (l : list (jsstr * A)) : option A :=
  match l with
  | [] => None
  | (k', v) :: l' => if bool_decide (k' = k) then Some v else assoc k l'
  end.

(** Assignment to a property: an existing property keeps its place, a new one
    goes last. *)
Fixpoint assoc_set {A : Type} (k : jsstr) (v : A) (l : list (jsstr * A))
  : list (jsstr * A) :=
  match l with
  | [] => [(k, v)]
  | (k', v') :: l' =>
      if bool_decide (k' = k) then (k, v) :: l' else (k', v') :: assoc_set k v l'
  end.

(** [v.k], for the names the worker reads ([tools], [outputs], [id], [url]):
    none of them is defined on a prototype, an index or [length].  [None] is
    [undefined]. *)
Definition get_prop (v : json) (k : jsstr) : outcome (option json) :=
  match v with
  | JNull => Throw TypeError
  | JBool _ | JNum _ | JStr _ => Ok None
  | JArr _ props => Ok (assoc k props)
  | JObj fields => Ok (assoc k fields)
  end.

(** [v.k = x] in strict mode, which module code always is: a primitive has no
    properties to create. *)
Definition set_prop (v : json) (k : jsstr) (x : json) : outcome json :=
  match v with
  | JNull | JBool _ | JNum _ | JStr _ => Throw TypeError
  | JArr items props => Ok (JArr items (assoc_set k x props))
  | JObj fields => Ok (JObj (assoc_set k x fields))
  end.

(** [v.k] for a [v] that may be undefined. *)
Definition get_prop_opt (v : option json) (k : jsstr) : outcome (option json) :=
  match v with
  | Some t => get_prop t k
  | None => Throw TypeError
  end.

Definition truthy (v : option json) : bool :=
  match v with
  | None | Some JNull => false
  | Some (JBool b) => b
  | Some (JNum n) => negb (n =? 0)%Z
  | Some (JStr s) => negb (bool_decide (s = []))
  | Some (JArr _ _) | Some (JObj _) => true
  end.

(** [t.unshift(x)]: only an array has the method. *)
Definition unshift (t : option json) (x : json) : outcome json :=
  match t with
  | Some (JArr items props) => Ok (JArr (x :: items) props)
  | _ => Throw TypeError
  end.

(** [v === s] for a string [s]. *)
Definition strict_eq_str (v : option json) (s : jsstr) : bool :=
  match v with
  | Some (JStr s') => bool_decide (s' = s)
  | _ => false
  end.

(** [items.find((t) => t.id === toolId)]: the first item whose [id] is the
    string [toolId]; reading [id] of a null item throws. *)
Fixpoint array_find_id (items : list json) (toolId : jsstr) : outcome (option json) :=
  match items with
  | [] => Ok None
  | t :: items' =>
      match get_prop t (js "id") with
      | Throw e => Throw e
      | Ok id =>
          if strict_eq_str id toolId then Ok (Some t)
          else array_find_id items' toolId
      end
  end.

(** [tools?.find(...)]: [undefined] and [null] short-circuit to [undefined];
    a value that is not an array has no [find] to call. *)
Definition opt_find_id (tools : option json) (toolId : jsstr) : outcome (option json) :=
  match tools with
  | None | Some JNull => Ok None
  | Some (JArr items _) => array_find_id items toolId
  | Some _ => Throw TypeError
  end.

(** ** Multipart forms and their validation *)

Record File := {
  file_name : jsstr;
  file_type : jsstr;
  file_text : jsstr;        (* what text() resolves to *)
  file_bytes : list N;      (* what arrayBuffer() resolves to *)
}.

Inductive entry : Type :=
| FString (s : jsstr)
| FFile (f : File).

Definition FormData := list (jsstr * entry).

(** [formData.get(name)]: the first value of that name, or null. *)
Definition form_get (formData : FormData) (name : jsstr) : option entry :=
  assoc name formData.

(** What [String.prototype.trim] removes: white space and line terminators. *)
Definition is_space (c : N) : bool :=
  ((9 <=? c) && (c <=? 13)) || (c =? 32) || (c =? 160) || (c =? 5760)
  || ((8192 <=? c) && (c <=? 8202)) || (c =? 8232) || (c =? 8233)
  || (c =? 8239) || (c =? 8287) || (c =? 12288) || (c =? 65279).

Definition trim (s : jsstr) : jsstr :=
  reverse (drop_while is_space (reverse (drop_while is_space s))).

(** zod is a dependency of the worker, not part of it.  Its behaviour on the
    two schemas is taken from its documentation: an object schema checks
    every key, in the order of the shape, and gathers the issues of all of
    them; the checks of a string run in the order they are chained, so
    [min(1)] sees the string before [trim()]; a value that fails
    [instanceof] is not passed to [refine].  The message of an issue is the
    one the schema gives; for a value of the wrong type it is zod's own. *)
Inductive issue_code : Type := invalid_type | too_small | custom.

Record issue := {
  issue_path : jsstr;
  issue_code_of : issue_code;
  issue_message : option jsstr;
}.

(** [z.string().min(1, message).trim()] *)
Definition z_string_min1_trim (path : string) (message : string) (v : option entry)
  : list issue + jsstr :=
  match v with
  | Some (FString s) =>
      if (length s <? 1)%nat
      then inl [ {| issue_path := js path; issue_code_of := too_small;
                    issue_message := Some (js message) |} ]
      else inr (trim s)
  | _ => inl [ {| issue_path := js path; issue_code_of := invalid_type;
                  issue_message := None |} ]
  end.

(** [z.string().min(1, message)] *)
Definition z_string_min1 (path : string) (message : string) (v : option entry)
  : list issue + jsstr :=
  match v with
  | Some (FString s) =>
      if (length s <? 1)%nat
      then inl [ {| issue_path := js path; issue_code_of := too_small;
                    issue_message := Some (js message) |} ]
      else inr s
  | _ => inl [ {| issue_path := js path; issue_code_of := invalid_type;
                  issue_message := None |} ]
  end.

(** [z.instanceof(File, { message }).refine(check, message')] *)
Definition z_file (path : string) (message : string) (check : File -> bool)
    (message' : string) (v : option entry) : list issue + File :=
  match v with
  | Some (FFile f) =>
      if check f then inr f
      else inl [ {| issue_path := js path; issue_code_of := custom;
                    issue_message := Some (js message') |} ]
  | _ => inl [ {| issue_path := js path; issue_code_of := custom;
                  issue_message := Some (js message) |} ]
  end.

Definition issues_of {A : Type} (r : list issue + A) : list issue :=
  match r with inl l => l | inr _ => [] end.

Record UploadInput := {
  toolName : jsstr;
  toolDescription : jsstr;
  nickname : jsstr;
  modelUsed : jsstr;
  toolFile : File;
}.

Record UploadOutput := {
  toolId : jsstr;
  outputFile : File;
}.

(** [uploadInputSchema.safeParse(formFields)] with
    [formFields = { toolName: formData.get('toolName'), ... }]. *)
Definition uploadInputSchema (formData : FormData) : list issue + UploadInput :=
  let r1 := z_string_min1_trim "toolName" "Tool name is required"
              (form_get formData (js "toolName")) in
  let r2 := z_string_min1_trim "toolDescription" "Description is required"
              (form_get formData (js "toolDescription")) in
  let r3 := z_string_min1_trim "nickname" "Nickname is required"
              (form_get formData (js "nickname")) in
  let r4 := z_string_min1_trim "modelUsed" "Model used is required"
              (form_get formData (js "modelUsed")) in
  let r5 := z_file "toolFile" "A JavaScript file is required"
              (fun file => endsWith (file_name file) (js ".js"))
              "File must be a JavaScript file (.js)"
              (form_get formData (js "toolFile")) in
  match r1, r2, r3, r4, r5 with
  | inr a, inr b, inr c, inr d, inr e =>
      inr {| toolName := a; toolDescription := b; nickname := c;
             modelUsed := d; toolFile := e |}
  | _, _, _, _, _ =>
      inl (issues_of r1 ++ issues_of r2 ++ issues_of r3 ++ issues_of r4 ++ issues_of r5)
  end.

Definition image_types : list jsstr :=
  [js "image/png"; js "image/jpeg"; js "image/webp"; js "image/gif"].

(** [uploadOutputSchema.safeParse(formFields)] *)
Definition uploadOutputSchema (formData : FormData) : list issue + UploadOutput :=
  let r1 := z_string_min1 "toolId" "Tool ID is required"
              (form_get formData (js "toolId")) in
  let r2 := z_file "outputFile" "An image file is required"
              (fun file => bool_decide (file_type file ∈ image_types))
              "File must be an image (PNG, JPEG, WebP, or GIF)"
              (form_get formData (js "outputFile")) in
  match r1, r2 with
  | inr a, inr b => inr {| toolId := a; outputFile := b |}
  | _, _ => inl (issues_of r1 ++ issues_of r2)
  end.

(** ** GitHub's contents API, as the worker talks to it *)

Inductive method : Type := GET | PUT.

(** The [content] of a PUT, before its base64 encoding. *)
Inductive content : Type :=
| TextContent (text : jsstr)          (* base64Encode(text) *)
| BinaryContent (bytes : list N)      (* btoa of the bytes of an ArrayBuffer *)
| JsonContent (manifest : json).      (* base64Encode(JSON.stringify(manifest, null, 2)) *)

Record put_body := {
  put_message : jsstr;
  put_content : content;
  put_sha : option jsstr;             (* undefined is left out by JSON.stringify *)
  put_branch : jsstr;
}.

Record http_request := {
  rq_method : method;
  rq_url : jsstr;
  rq_token : jsstr;                   (* Authorization: Bearer ... *)
  rq_body : option put_body;
}.

(** What [response.json()] resolves to, as far as the worker looks into it: a
    file object, with the JSON value its [content] decodes to ([None] when
    [atob] or [JSON.parse] throws on it) and its [sha]; a falsy value; or
    another JSON value, which has no [content] that decodes. *)
Inductive ghjson : Type :=
| FileJson (decoded : option json) (sha : option jsstr)
| Falsy
| OtherJson.

Inductive resp_body : Type :=
| JsonBody (j : ghjson)
| NotJson.

Record response := {
  resp_status : Z;
  resp_body_of : resp_body;
}.

Definition ok (r : response) : bool :=
  ((200 <=? resp_status r) && (resp_status r <=? 299))%Z.

(** ** The effects of a request

    A request runs against a remote service in some state of type [W]; what
    it does is recorded in a trace. *)
Inductive event : Type :=
| EvFormData                                          (* request.formData() *)
| EvFetch (rq : http_request) (answer : option response)   (* None: fetch() rejected *)
| EvConsoleError (e : exn).

Record world (W : Type) := {
  store : W;
  trace : list event;
}.
Arguments store {W} w.
Arguments trace {W} w.

Definition M (W A : Type) : Type := world W -> outcome A * world W.

Definition ret {W A : Type} (a : A) : M W A := fun w => (Ok a, w).

Definition bind {W A B : Type} (m : M W A) (k : A -> M W B) : M W B :=
  fun w =>
    match m w with
    | (Ok a, w') => k a w'
    | (Throw e, w') => (Throw e, w')
    end.

Definition throw {W A : Type} (e : exn) : M W A := fun w => (Throw e, w).

Definition lift {W A : Type} (o : outcome A) : M W A := fun w => (o, w).

Definition try_catch {W A : Type} (m : M W A) (handler : exn -> M W A) : M W A :=
  fun w =>
    match m w with
    | (Ok a, w') => (Ok a, w')
    | (Throw e, w') => handler e w'
    end.

Definition log {W : Type} (ev : event) : M W unit :=
  fun w => (Ok tt, {| store := store w; trace := trace w ++ [ev] |}).

Declare Scope js_scope.
Delimit Scope js_scope with js_m.
Notation "x <- m ;; k" := (bind m (fun x => k))
  (at level 100, m at next level, right associativity) : js_scope.
Notation "m ;;; k" := (bind m (fun _ => k))
  (at level 100, right associativity) : js_scope.

(** ** Configuration, requests and replies *)

Record Env := {
  ALLOWED_ORIGIN : jsstr;
  GITHUB_TOKEN : jsstr;
  GITHUB_OWNER : jsstr;
  GITHUB_REPO : jsstr;
  ACTIVE_WORKSHOP_SLUG : jsstr;
}.

(** What a run takes from the platform: the index
    [Math.floor(Math.random() * chars.length)] of the i-th call of
    [Math.random], and [new Date().toISOString()]. *)
Record Runtime := {
  random_index : nat -> nat;
  now_iso : jsstr;
}.

Record Request := {
  req_method : jsstr;
  req_origin : option jsstr;       (* request.headers.get('Origin'): a legal header value *)
  req_pathname : jsstr;            (* new URL(request.url).pathname *)
  req_form : option FormData;      (* None: request.formData() rejects *)
}.

Record CorsHeaders := {
  allow_origin : jsstr;
  allow_methods : jsstr;
  allow_headers : jsstr;
}.

Inductive reply_body : Type :=
| NoBody
| SuccessBody (filename galleryUrl : jsstr)
| MessageBody (message : jsstr)
| IssuesBody (issues : list issue).

Record Reply := {
  reply_status : Z;
  reply_body_of : reply_body;
  reply_headers : CorsHeaders;
}.

Definition jsonResponse (data : reply_body) (status : Z) (headers : CorsHeaders) : Reply :=
  {| reply_status := status; reply_body_of := data; reply_headers := headers |}.

(** What the platform takes as the value of a header: code units up to 255,
    none of them NUL, a line feed or a carriage return. *)
Definition legal_header_value (v : jsstr) : bool :=
  forallb (fun c => (c <=? 255) && negb ((c =? 0) || (c =? 10) || (c =? 13))) v.

Definition legal_headers (headers : CorsHeaders) : bool :=
  legal_header_value (allow_origin headers)
  && legal_header_value (allow_methods headers)
  && legal_header_value (allow_headers headers).

(** [new Response(body, { status, headers })] throws a TypeError when the
    value of a header is not legal.  [jsonResponse] above is the reply it is
    called for. *)
Definition new_Response {W : Type} (reply : Reply) : M W Reply :=
  if legal_headers (reply_headers reply) then ret reply else throw TypeError.

(** ** Random names *)

Definition chars : jsstr := js "abcdefghijklmnopqrstuvwxyz0123456789".

(** [s.charAt(i)]: the empty string out of range. *)
Definition charAt (s : jsstr) (i : nat) : jsstr :=
  match s !! i with Some c => [c] | None => [] end.

(** The loop [for (i = 0; i < length; i++) result += chars.charAt(...)]. *)
Definition generateRandomString (rt : Runtime) (length : nat) : jsstr :=
  foldl (fun result i => result ++ charAt chars (random_index rt i)) [] (seq 0 length).

(** ** Manifest entries *)

Definition ToolManifestEntry (id author name description model url uploadedAt : jsstr) : json :=
  JObj [ (js "id", JStr id); (js "author", JStr author); (js "name", JStr name);
         (js "description", JStr description); (js "model", JStr model);
         (js "url", JStr url); (js "uploadedAt", JStr uploadedAt) ].

(** A [toolUrl] that is undefined is not written by [JSON.stringify]. *)
Definition OutputManifestEntry (id toolId : jsstr) (toolUrl : option json)
    (url createdAt : jsstr) : json :=
  JObj ([ (js "id", JStr id); (js "toolId", JStr toolId) ]
        ++ match toolUrl with Some u => [ (js "toolUrl", u) ] | None => [] end
        ++ [ (js "url", JStr url); (js "createdAt", JStr createdAt) ]).

Definition mimeToExt : list (jsstr * jsstr) :=
  [ (js "image/png", js "png"); (js "image/jpeg", js "jpg");
    (js "image/webp", js "webp"); (js "image/gif", js "gif") ].

(** A value inside a template literal. *)
Definition template (v : option jsstr) : jsstr :=
  match v with Some s => s | None => js "undefined" end.

(** ** The worker (src/index.ts) *)

Section Worker.
Context {W : Type}.
(** The remote service: how it answers a request, and what state it is in
    afterwards. *)
Variable remote : http_request -> W -> option response * W.

Local Open Scope js_scope.

(** The global [fetch(url, init)]. *)
Definition fetch (rq : http_request) : M W response :=
  fun w =>
    let '(answer, st) := remote rq (store w) in
    let w' := {| store := st; trace := trace w ++ [EvFetch rq answer] |} in
    match answer with
    | Some r => (Ok r, w')
    | None => (Throw NetworkError, w')
    end.

Definition response_json (r : response) : M W ghjson :=
  match resp_body_of r with
  | JsonBody j => ret j
  | NotJson => throw SyntaxError
  end.

Definition request_formData (request : Request) : M W FormData :=
  log EvFormData ;;;
  match req_form request with
  | Some formData => ret formData
  | None => throw TypeError
  end.

Definition console_error (e : exn) : M W unit := log (EvConsoleError e).

Definition contents_url (owner repo path : jsstr) : jsstr :=
  js "https://api.github.com/repos/" ++ owner ++ js "/" ++ repo
    ++ js "/contents/" ++ path.

Definition uploadToGitHub (token owner repo path content message : jsstr) : M W ghjson :=
  let url := contents_url owner repo path in
  response <- fetch {| rq_method := PUT; rq_url := url; rq_token := token;
                       rq_body := Some {| put_message := message;
                                          put_content := TextContent content;
                                          put_sha := None;
                                          put_branch := js "main" |} |} ;;
  if negb (ok response) then throw (GitHubApiError (resp_status response))
  else response_json response.

Definition uploadBinaryToGitHub (token owner repo path : jsstr) (content : list N)
    (message : jsstr) : M W ghjson :=
  let url := contents_url owner repo path in
  response <- fetch {| rq_method := PUT; rq_url := url; rq_token := token;
                       rq_body := Some {| put_message := message;
                                          put_content := BinaryContent content;
                                          put_sha := None;
                                          put_branch := js "main" |} |} ;;
  if negb (ok response) then throw (GitHubApiError (resp_status response))
  else response_json response.

(** The result is [Falsy] for [null]. *)
Definition getFromGitHub (token owner repo path : jsstr) : M W ghjson :=
  let url := contents_url owner repo path in
  response <- fetch {| rq_method := GET; rq_url := url; rq_token := token;
                       rq_body := None |} ;;
  if negb (ok response) then
    if (resp_status response =? 404)%Z then ret Falsy
    else throw (GitHubApiError (resp_status response))
  else response_json response.

Definition gh_truthy (j : ghjson) : bool :=
  match j with Falsy => false | _ => true end.

(** [JSON.parse(base64Decode(currentManifest.content))] *)
Definition parse_content (currentManifest : ghjson) : outcome json :=
  match currentManifest with
  | FileJson (Some manifest) _ => Ok manifest
  | FileJson None _ => Throw SyntaxError
  | Falsy | OtherJson => Throw TypeError
  end.

(** [currentManifest.sha] *)
Definition sha_of (currentManifest : ghjson) : option jsstr :=
  match currentManifest with
  | FileJson _ sha => sha
  | _ => None
  end.

Definition empty_array : json := JArr [] [].

(** [if (!manifest[k]) manifest[k] = []] *)
Definition ensure_array (manifest : json) (k : jsstr) : outcome json :=
  match get_prop manifest k with
  | Throw e => Throw e
  | Ok v => if negb (truthy v) then set_prop manifest k empty_array else Ok manifest
  end.

(** [manifest[k].unshift(x)].  The array is the one the manifest holds:
    the manifest sees its new item. *)
Definition unshift_in (manifest : json) (k : jsstr) (x : json) : outcome json :=
  match get_prop manifest k with
  | Throw e => Throw e
  | Ok v =>
      match unshift v x with
      | Throw e => Throw e
      | Ok v' => set_prop manifest k v'
      end
  end.

Definition put_manifest (token owner repo manifestPath message : jsstr)
    (manifest : json) (sha : option jsstr) : M W ghjson :=
  let url := contents_url owner repo manifestPath in
  response <- fetch {| rq_method := PUT; rq_url := url; rq_token := token;
                       rq_body := Some {| put_message := message;
                                          put_content := JsonContent manifest;
                                          put_sha := sha;
                                          put_branch := js "main" |} |} ;;
  if negb (ok response) then throw (ManifestUpdateError (resp_status response))
  else response_json response.

Definition updateManifestWithTool (token owner repo manifestPath : jsstr)
    (newTool : json) : M W ghjson :=
  currentManifest <- getFromGitHub token owner repo manifestPath ;;
  ms <- (if gh_truthy currentManifest then
           manifest <- lift (parse_content currentManifest) ;;
           ret (manifest, sha_of currentManifest)
         else
           ret (JObj [ (js "tools", empty_array); (js "outputs", empty_array) ], None)) ;;
  let '(manifest, sha) := ms in
  manifest <- lift (ensure_array manifest (js "tools")) ;;
  manifest <- lift (unshift_in manifest (js "tools") newTool) ;;
  put_manifest token owner repo manifestPath (js "Update manifest with new tool")
    manifest sha.

Definition updateManifestWithOutput (token owner repo manifestPath : jsstr)
    (newOutput : json) : M W ghjson :=
  currentManifest <- getFromGitHub token owner repo manifestPath ;;
  ms <- (if gh_truthy currentManifest then
           manifest <- lift (parse_content currentManifest) ;;
           ret (manifest, sha_of currentManifest)
         else
           ret (JObj [ (js "tools", empty_array); (js "outputs", empty_array) ], None)) ;;
  let '(manifest, sha) := ms in
  manifest <- lift (ensure_array manifest (js "outputs")) ;;
  manifest <- lift (unshift_in manifest (js "outputs") newOutput) ;;
  put_manifest token owner repo manifestPath (js "Update manifest with new output")
    manifest sha.

Definition galleryUrl_of (env : Env) : jsstr :=
  js "https://" ++ GITHUB_OWNER env ++ js ".github.io/" ++ GITHUB_REPO env
    ++ js "/" ++ ACTIVE_WORKSHOP_SLUG env ++ js "/".

Definition internal_error (corsHeaders : CorsHeaders) (error : exn) : M W Reply :=
  console_error error ;;;
  ret (jsonResponse (MessageBody (js "Internal server error. Please try again."))
         500 corsHeaders).

Definition handleToolUpload (rt : Runtime) (request : Request) (env : Env)
    (corsHeaders : CorsHeaders) : M W Reply :=
  try_catch
    (formData <- request_formData request ;;
     match uploadInputSchema formData with
     | inl issues => ret (jsonResponse (IssuesBody issues) 400 corsHeaders)
     | inr data =>
         let fileContent := file_text (toolFile data) in
         let sanitizedAuthor := sanitizeString (nickname data) 20 in
         let originalFilename :=
           str_replace re_js_suffix false [] (file_name (toolFile data)) in
         let sanitizedFilename := sanitizeString originalFilename 30 in
         let randomString := generateRandomString rt 6 in
         let finalFilename :=
           sanitizedAuthor ++ js "-" ++ sanitizedFilename ++ js "-"
             ++ randomString ++ js ".js" in
         uploadToGitHub (GITHUB_TOKEN env) (GITHUB_OWNER env) (GITHUB_REPO env)
           (ACTIVE_WORKSHOP_SLUG env ++ js "/tools/" ++ finalFilename)
           fileContent (js "Add sketch by " ++ nickname data) ;;;
         let manifestPath := ACTIVE_WORKSHOP_SLUG env ++ js "/manifest.json" in
         updateManifestWithTool (GITHUB_TOKEN env) (GITHUB_OWNER env)
           (GITHUB_REPO env) manifestPath
           (ToolManifestEntry
              (sanitizedAuthor ++ js "-" ++ sanitizedFilename ++ js "-" ++ randomString)
              (nickname data) (toolName data) (toolDescription data)
              (modelUsed data) (js "tools/" ++ finalFilename) (now_iso rt)) ;;;
         ret (jsonResponse (SuccessBody finalFilename (galleryUrl_of env))
                200 corsHeaders)
     end)
    (internal_error corsHeaders).

Definition handleOutputUpload (rt : Runtime) (request : Request) (env : Env)
    (corsHeaders : CorsHeaders) : M W Reply :=
  try_catch
    (formData <- request_formData request ;;
     match uploadOutputSchema formData with
     | inl issues => ret (jsonResponse (IssuesBody issues) 400 corsHeaders)
     | inr data =>
         let manifestPath := ACTIVE_WORKSHOP_SLUG env ++ js "/manifest.json" in
         currentManifest <- getFromGitHub (GITHUB_TOKEN env) (GITHUB_OWNER env)
                              (GITHUB_REPO env) manifestPath ;;
         if negb (gh_truthy currentManifest) then
           ret (jsonResponse (MessageBody (js "Manifest not found")) 404 corsHeaders)
         else
           manifest <- lift (parse_content currentManifest) ;;
           tools <- lift (get_prop manifest (js "tools")) ;;
           tool <- lift (opt_find_id tools (toolId data)) ;;
           if negb (truthy tool) then
             ret (jsonResponse (MessageBody (js "Tool not found")) 404 corsHeaders)
           else
               let randomString := generateRandomString rt 6 in
               let fileExtension :=
                 template (assoc (file_type (outputFile data)) mimeToExt) in
               let baseFilename :=
                 str_replace re_extension false [] (file_name (outputFile data)) in
               let sanitizedFilename := sanitizeString baseFilename 30 in
               let outputId := sanitizedFilename ++ js "-" ++ randomString in
               let finalFilename := outputId ++ js "." ++ fileExtension in
               uploadBinaryToGitHub (GITHUB_TOKEN env) (GITHUB_OWNER env)
                 (GITHUB_REPO env)
                 (ACTIVE_WORKSHOP_SLUG env ++ js "/outputs/" ++ finalFilename)
                 (file_bytes (outputFile data))
                 (js "Add output for " ++ toolId data) ;;;
               toolUrl <- lift (get_prop_opt tool (js "url")) ;;
               updateManifestWithOutput (GITHUB_TOKEN env) (GITHUB_OWNER env)
                 (GITHUB_REPO env) manifestPath
                 (OutputManifestEntry outputId (toolId data) toolUrl
                    (js "outputs/" ++ finalFilename) (now_iso rt)) ;;;
               ret (jsonResponse (SuccessBody finalFilename (galleryUrl_of env))
                      200 corsHeaders)
     end)
    (internal_error corsHeaders).

Definition corsHeaders_of (env : Env) : CorsHeaders :=
  {| allow_origin := ALLOWED_ORIGIN env;
     allow_methods := js "POST, OPTIONS";
     allow_headers := js "Content-Type" |}.

(** The exported [fetch(request, env)].  The first three replies are made
    outside any [try], with headers that hold [ALLOWED_ORIGIN] as it is
    configured: [new Response] throws when that is not a legal header value.
    Past the test of the origin [ALLOWED_ORIGIN] is the value of a header
    the platform has delivered, or the empty string: it is legal, and the
    replies made from there on, in the handlers too, are built without
    failure. *)
Definition default_fetch (rt : Runtime) (request : Request) (env : Env) : M W Reply :=
  let origin := default [] (req_origin request) in   (* get('Origin') || '' *)
  let corsHeaders := corsHeaders_of env in
  if bool_decide (req_method request = js "OPTIONS") then
    new_Response {| reply_status := 204; reply_body_of := NoBody;
                    reply_headers := corsHeaders |}
  else if negb (bool_decide (req_method request = js "POST")) then
    new_Response (jsonResponse (MessageBody (js "Method not allowed")) 405 corsHeaders)
  else if negb (bool_decide (origin = ALLOWED_ORIGIN env)) then
    new_Response (jsonResponse (MessageBody (js "Origin not allowed")) 403 corsHeaders)
  else
    let pathname := req_pathname request in
    if bool_decide (pathname = js "/upload/tool") then
      handleToolUpload rt request env corsHeaders
    else if bool_decide (pathname = js "/upload/output") then
      handleOutputUpload rt request env corsHeaders
    else
      ret (jsonResponse (MessageBody (js "Not found")) 404 corsHeaders).

End Worker.

(** ** The earlier variant of the worker (the second source file)

    One endpoint: every accepted POST is a tool upload.  The sanitizer, the
    random names, [uploadToGitHub] and [getFromGitHub] are the same text as in
    src/index.ts; [updateManifest] has no [outputs] and does not look whether
    [tools] is there.  The first three replies are built as in src/index.ts,
    outside any [try]. *)
Module SingleEndpoint.
Section Worker.
Context {W : Type}.
Variable remote : http_request -> W -> option response * W.

Local Open Scope js_scope.

Definition updateManifest (token owner repo manifestPath : jsstr)
    (newTool : json) : M W ghjson :=
  currentManifest <- getFromGitHub remote token owner repo manifestPath ;;
  ms <- (if gh_truthy currentManifest then
           manifest <- lift (parse_content currentManifest) ;;
           ret (manifest, sha_of currentManifest)
         else
           ret (JObj [ (js "tools", empty_array) ], None)) ;;
  let '(manifest, sha) := ms in
  manifest <- lift (unshift_in manifest (js "tools") newTool) ;;
  put_manifest remote token owner repo manifestPath
    (js "Update manifest with new tool") manifest sha.

Definition default_fetch (rt : Runtime) (request : Request) (env : Env) : M W Reply :=
  let origin := default [] (req_origin request) in
  let corsHeaders := corsHeaders_of env in
  if bool_decide (req_method request = js "OPTIONS") then
    new_Response {| reply_status := 204; reply_body_of := NoBody;
                    reply_headers := corsHeaders |}
  else if negb (bool_decide (req_method request = js "POST")) then
    new_Response (jsonResponse (MessageBody (js "Method not allowed")) 405 corsHeaders)
  else if negb (bool_decide (origin = ALLOWED_ORIGIN env)) then
    new_Response (jsonResponse (MessageBody (js "Origin not allowed")) 403 corsHeaders)
  else
    try_catch
      (formData <- request_formData request ;;
       match uploadInputSchema formData with
       | inl issues => ret (jsonResponse (IssuesBody issues) 400 corsHeaders)
       | inr data =>
           let fileContent := file_text (toolFile data) in
           let sanitizedAuthor := sanitizeString (nickname data) 20 in
           let originalFilename :=
             str_replace re_js_suffix false [] (file_name (toolFile data)) in
           let sanitizedFilename := sanitizeString originalFilename 30 in
           let randomString := generateRandomString rt 6 in
           let finalFilename :=
             sanitizedAuthor ++ js "-" ++ sanitizedFilename ++ js "-"
               ++ randomString ++ js ".js" in
           uploadToGitHub remote (GITHUB_TOKEN env) (GITHUB_OWNER env) (GITHUB_REPO env)
             (ACTIVE_WORKSHOP_SLUG env ++ js "/tools/" ++ finalFilename)
             fileContent (js "Add sketch by " ++ nickname data) ;;;
           let manifestPath := ACTIVE_WORKSHOP_SLUG env ++ js "/manifest.json" in
           updateManifest (GITHUB_TOKEN env) (GITHUB_OWNER env)
             (GITHUB_REPO env) manifestPath
             (ToolManifestEntry
                (sanitizedAuthor ++ js "-" ++ sanitizedFilename ++ js "-" ++ randomString)
                (nickname data) (toolName data) (toolDescription data)
                (modelUsed data) (js "tools/" ++ finalFilename) (now_iso rt)) ;;;
           ret (jsonResponse (SuccessBody finalFilename (galleryUrl_of env))
                  200 corsHeaders)
       end)
      (internal_error corsHeaders).

End Worker.
End SingleEndpoint.

(** ** A content store to run the worker against

    GitHub is not part of the repository.  This store follows what the
    specification says of it: a file has a content and a version token; a
    read of a path without a file is answered 404; a write with a token must
    name the token the file has now and is refused (409) otherwise; a write
    without a token creates the file and is refused (422) when there is one.
    Every commit gets a new token.  [others] lists the commits other clients
    make before each coming request is served. *)
Module GitHub.

(** What [JSON.parse] reads back from what [JSON.stringify] wrote: the
    named properties of arrays are not written. *)
Fixpoint reparse (j : json) : json :=
  match j with
  | JArr items _ => JArr (map reparse items) []
  | JObj fields => JObj (map (fun kv => (kv.1, reparse kv.2)) fields)
  | _ => j
  end.

Record state := {
  files : gmap jsstr (content * jsstr);
  commits : nat;
  others : list (list (jsstr * content));
}.

Definition token_of (n : nat) : jsstr := js "sha" ++ replicate n 39.

Definition commit (url : jsstr) (c : content) (st : state) : state :=
  {| files := <[url := (c, token_of (S (commits st)))]> (files st);
     commits := S (commits st);
     others := others st |}.

Definition deliver_others (st : state) : state :=
  match others st with
  | [] => st
  | ws :: rest =>
      foldl (fun st' w => commit w.1 w.2 st')
        {| files := files st; commits := commits st; others := rest |} ws
  end.

Definition decode (c : content) : option json :=
  match c with
  | JsonContent j => Some (reparse j)
  | _ => None
  end.

Definition answer (status : Z) (body : ghjson) : option response :=
  Some {| resp_status := status; resp_body_of := JsonBody body |}.

Definition serve (rq : http_request) (st0 : state) : option response * state :=
  let st := deliver_others st0 in
  match rq_method rq, rq_body rq with
  | GET, _ =>
      match files st !! rq_url rq with
      | Some (c, sha) => (answer 200 (FileJson (decode c) (Some sha)), st)
      | None => (answer 404 OtherJson, st)
      end
  | PUT, Some b =>
      match files st !! rq_url rq, put_sha b with
      | None, None => (answer 201 OtherJson, commit (rq_url rq) (put_content b) st)
      | Some (_, sha), Some sha' =>
          if bool_decide (sha = sha')
          then (answer 200 OtherJson, commit (rq_url rq) (put_content b) st)
          else (answer 409 OtherJson, st)
      | Some _, None => (answer 422 OtherJson, st)
      | None, Some _ => (answer 409 OtherJson, st)
      end
  | PUT, None => (answer 400 OtherJson, st)
  end.

End GitHub.

(** ** Reading a run

    Names for what the handlers compute on their way, and the notions the
    claims are stated with. *)

Definition get_request (token owner repo path : jsstr) : http_request :=
  {| rq_method := GET; rq_url := contents_url owner repo path; rq_token := token;
     rq_body := None |}.

Definition put_request (token owner repo path message : jsstr) (c : content)
    (sha : option jsstr) : http_request :=
  {| rq_method := PUT; rq_url := contents_url owner repo path; rq_token := token;
     rq_body := Some {| put_message := message; put_content := c; put_sha := sha;
                        put_branch := js "main" |} |}.

(** What [getFromGitHub] returns or throws, by the answer to its request. *)
Definition get_result (answer : option response) : outcome ghjson :=
  match answer with
  | None => Throw NetworkError
  | Some r =>
      if ok r then
        match resp_body_of r with
        | JsonBody j => Ok j
        | NotJson => Throw SyntaxError
        end
      else if (resp_status r =? 404)%Z then Ok Falsy
      else Throw (GitHubApiError (resp_status r))
  end.

(** The same for the three functions that PUT. *)
Definition put_result (error : Z -> exn) (answer : option response) : outcome ghjson :=
  match answer with
  | None => Throw NetworkError
  | Some r =>
      if ok r then
        match resp_body_of r with
        | JsonBody j => Ok j
        | NotJson => Throw SyntaxError
        end
      else Throw (error (resp_status r))
  end.

(** What [updateManifestWithTool] ([k] is [tools]) and
    [updateManifestWithOutput] ([k] is [outputs]) do between their GET and
    their PUT. *)
Definition next_manifest (k : jsstr) (currentManifest : ghjson) (x : json)
  : outcome (json * option jsstr) :=
  match (if gh_truthy currentManifest then
           match parse_content currentManifest with
           | Ok manifest => Ok (manifest, sha_of currentManifest)
           | Throw e => Throw e
           end
         else Ok (JObj [ (js "tools", empty_array); (js "outputs", empty_array) ], None))
  with
  | Throw e => Throw e
  | Ok (manifest, sha) =>
      match ensure_array manifest k with
      | Throw e => Throw e
      | Ok manifest1 =>
          match unshift_in manifest1 k x with
          | Throw e => Throw e
          | Ok manifest2 => Ok (manifest2, sha)
          end
      end
  end.

(** The same for [updateManifest] of the earlier variant. *)
Definition next_manifest_v0 (currentManifest : ghjson) (x : json)
  : outcome (json * option jsstr) :=
  match (if gh_truthy currentManifest then
           match parse_content currentManifest with
           | Ok manifest => Ok (manifest, sha_of currentManifest)
           | Throw e => Throw e
           end
         else Ok (JObj [ (js "tools", empty_array) ], None))
  with
  | Throw e => Throw e
  | Ok (manifest, sha) =>
      match unshift_in manifest (js "tools") x with
      | Throw e => Throw e
      | Ok manifest2 => Ok (manifest2, sha)
      end
  end.

(** A call to the store fails when [fetch] rejects, when the answer has an
    error status, a 404 to a read apart, which tells that there is no file, or
    when its body is not JSON. *)
Definition failed (rq : http_request) (answer : option response) : bool :=
  match answer with
  | None => true
  | Some r =>
      if ok r then
        match resp_body_of r with NotJson => true | JsonBody _ => false end
      else
        match rq_method rq with
        | GET => negb (resp_status r =? 404)%Z
        | PUT => true
        end
  end.

Definition is_fetch (ev : event) : bool :=
  match ev with EvFetch _ _ => true | _ => false end.

Definition is_failure (ev : event) : bool :=
  match ev with EvFetch rq answer => failed rq answer | _ => false end.

Definition has_failure (evs : list event) : bool := existsb is_failure evs.

(** No call to the store follows a failed one. *)
Fixpoint stops_at_failure (evs : list event) : bool :=
  match evs with
  | [] => true
  | ev :: rest =>
      if is_failure ev then negb (existsb is_fetch rest) else stops_at_failure rest
  end.

(** The manifest of the data model: an object whose [tools], when it is
    there, is an array of objects. *)
Definition is_object (v : json) : bool :=
  match v with JObj _ => true | _ => false end.

Definition manifest_shaped (manifest : json) : bool :=
  match manifest with
  | JObj fields =>
      match assoc (js "tools") fields with
      | None => true
      | Some (JArr items _) => forallb is_object items
      | Some _ => false
      end
  | _ => false
  end.

(** The items of the array a manifest holds under [k]; none when there is no
    such array. *)
Definition array_of (manifest : json) (k : jsstr) : list json :=
  match manifest with
  | JObj fields =>
      match assoc k fields with
      | Some (JArr items _) => items
      | _ => []
      end
  | _ => []
  end.

Definition field_of (manifest : json) (k : jsstr) : option json :=
  match manifest with
  | JObj fields => assoc k fields
  | _ => None
  end.

(** The manifest an update starts from: the one that was read, or the empty
    one the worker makes up when there is no file. *)
Definition manifest_read (currentManifest : ghjson) : json :=
  match currentManifest with
  | FileJson (Some manifest) _ => manifest
  | _ => JObj [ (js "tools", empty_array); (js "outputs", empty_array) ]
  end.

Definition has_id (toolId : jsstr) (t : json) : bool :=
  match t with
  | JObj fields => strict_eq_str (assoc (js "id") fields) toolId
  | _ => false
  end.

(** The names a tool upload derives. *)
Definition tool_id (rt : Runtime) (data : UploadInput) : jsstr :=
  sanitizeString (nickname data) 20 ++ js "-"
    ++ sanitizeString (str_replace re_js_suffix false [] (file_name (toolFile data))) 30
    ++ js "-" ++ generateRandomString rt 6.

Definition tool_filename (rt : Runtime) (data : UploadInput) : jsstr :=
  sanitizeString (nickname data) 20 ++ js "-"
    ++ sanitizeString (str_replace re_js_suffix false [] (file_name (toolFile data))) 30
    ++ js "-" ++ generateRandomString rt 6 ++ js ".js".

Definition tool_entry (rt : Runtime) (data : UploadInput) : json :=
  ToolManifestEntry (tool_id rt data) (nickname data) (toolName data)
    (toolDescription data) (modelUsed data)
    (js "tools/" ++ tool_filename rt data) (now_iso rt).

(** The names an output upload derives. *)
Definition output_id (rt : Runtime) (data : UploadOutput) : jsstr :=
  sanitizeString (str_replace re_extension false [] (file_name (outputFile data))) 30
    ++ js "-" ++ generateRandomString rt 6.

Definition output_extension (data : UploadOutput) : jsstr :=
  template (assoc (file_type (outputFile data)) mimeToExt).

Definition output_filename (rt : Runtime) (data : UploadOutput) : jsstr :=
  output_id rt data ++ js "." ++ output_extension data.

Definition output_entry (rt : Runtime) (data : UploadOutput) (toolUrl : option json) : json :=
  OutputManifestEntry (output_id rt data) (toolId data) toolUrl
    (js "outputs/" ++ output_filename rt data) (now_iso rt).

(** The world after a run that left the store in state [st] and added [evs]
    to the trace. *)
Definition after {W : Type} (w : world W) (st : W) (evs : list event) : world W :=
  {| store := st; trace := trace w ++ evs |}.

Definition manifest_path (env : Env) : jsstr :=
  ACTIVE_WORKSHOP_SLUG env ++ js "/manifest.json".

Definition internal_error_reply (corsHeaders : CorsHeaders) : Reply :=
  jsonResponse (MessageBody (js "Internal server error. Please try again."))
    500 corsHeaders.

(** The fields of a tool upload that are not valid, in the order of the
    schema: a text field that is not a string or is the empty string; a
    payload that is not a file or whose name does not end in [.js]. *)
Definition text_field_ok (v : option entry) : bool :=
  match v with
  | Some (FString s) => negb (bool_decide (s = []))
  | _ => false
  end.

Definition script_field_ok (v : option entry) : bool :=
  match v with
  | Some (FFile f) => endsWith (file_name f) (js ".js")
  | _ => false
  end.

Definition failing_fields (formData : FormData) : list jsstr :=
  List.filter (fun k => negb (text_field_ok (form_get formData k)))
    [js "toolName"; js "toolDescription"; js "nickname"; js "modelUsed"]
  ++ List.filter (fun k => negb (script_field_ok (form_get formData k))) [js "toolFile"].

(** The run of [handleToolUpload], written out by cases on the form and on
    the answers of the store. *)
Definition tool_upload_cases {W : Type}
    (remote : http_request -> W -> option response * W)
    (rt : Runtime) (request : Request) (env : Env) (corsHeaders : CorsHeaders)
    (w : world W) : outcome Reply * world W :=
  let token := GITHUB_TOKEN env in
  let owner := GITHUB_OWNER env in
  let repo := GITHUB_REPO env in
  match req_form request with
  | None =>
      (Ok (internal_error_reply corsHeaders),
       after w (store w) [EvFormData; EvConsoleError TypeError])
  | Some formData =>
  match uploadInputSchema formData with
  | inl issues =>
      (Ok (jsonResponse (IssuesBody issues) 400 corsHeaders),
       after w (store w) [EvFormData])
  | inr data =>
  let rq1 := put_request token owner repo
               (ACTIVE_WORKSHOP_SLUG env ++ js "/tools/" ++ tool_filename rt data)
               (js "Add sketch by " ++ nickname data)
               (TextContent (file_text (toolFile data))) None in
  let a1 := (remote rq1 (store w)).1 in
  let st1 := (remote rq1 (store w)).2 in
  match put_result GitHubApiError a1 with
  | Throw e =>
      (Ok (internal_error_reply corsHeaders),
       after w st1 [EvFormData; EvFetch rq1 a1; EvConsoleError e])
  | Ok _ =>
  let rq2 := get_request token owner repo (manifest_path env) in
  let a2 := (remote rq2 st1).1 in
  let st2 := (remote rq2 st1).2 in
  match get_result a2 with
  | Throw e =>
      (Ok (internal_error_reply corsHeaders),
       after w st2 [EvFormData; EvFetch rq1 a1; EvFetch rq2 a2; EvConsoleError e])
  | Ok currentManifest =>
  match next_manifest (js "tools") currentManifest (tool_entry rt data) with
  | Throw e =>
      (Ok (internal_error_reply corsHeaders),
       after w st2 [EvFormData; EvFetch rq1 a1; EvFetch rq2 a2; EvConsoleError e])
  | Ok (manifest, sha) =>
  let rq3 := put_request token owner repo (manifest_path env)
               (js "Update manifest with new tool") (JsonContent manifest) sha in
  let a3 := (remote rq3 st2).1 in
  let st3 := (remote rq3 st2).2 in
  match put_result ManifestUpdateError a3 with
  | Throw e =>
      (Ok (internal_error_reply corsHeaders),
       after w st3 [EvFormData; EvFetch rq1 a1; EvFetch rq2 a2; EvFetch rq3 a3;
                    EvConsoleError e])
  | Ok _ =>
      (Ok (jsonResponse (SuccessBody (tool_filename rt data) (galleryUrl_of env))
             200 corsHeaders),
       after w st3 [EvFormData; EvFetch rq1 a1; EvFetch rq2 a2; EvFetch rq3 a3])
  end end end end end end.

(** [manifest.tools?.find(...)] on what was read. *)
Definition find_tool (currentManifest : ghjson) (toolId : jsstr) : outcome (option json) :=
  match parse_content currentManifest with
  | Throw e => Throw e
  | Ok manifest =>
      match get_prop manifest (js "tools") with
      | Throw e => Throw e
      | Ok tools => opt_find_id tools toolId
      end
  end.

(** The run of [handleOutputUpload], written out in the same way. *)
Definition output_upload_cases {W : Type}
    (remote : http_request -> W -> option response * W)
    (rt : Runtime) (request : Request) (env : Env) (corsHeaders : CorsHeaders)
    (w : world W) : outcome Reply * world W :=
  let token := GITHUB_TOKEN env in
  let owner := GITHUB_OWNER env in
  let repo := GITHUB_REPO env in
  match req_form request with
  | None =>
      (Ok (internal_error_reply corsHeaders),
       after w (store w) [EvFormData; EvConsoleError TypeError])
  | Some formData =>
  match uploadOutputSchema formData with
  | inl issues =>
      (Ok (jsonResponse (IssuesBody issues) 400 corsHeaders),
       after w (store w) [EvFormData])
  | inr data =>
  let rq1 := get_request token owner repo (manifest_path env) in
  let a1 := (remote rq1 (store w)).1 in
  let st1 := (remote rq1 (store w)).2 in
  match get_result a1 with
  | Throw e =>
      (Ok (internal_error_reply corsHeaders),
       after w st1 [EvFormData; EvFetch rq1 a1; EvConsoleError e])
  | Ok currentManifest =>
  if negb (gh_truthy currentManifest) then
    (Ok (jsonResponse (MessageBody (js "Manifest not found")) 404 corsHeaders),
     after w st1 [EvFormData; EvFetch rq1 a1])
  else
  match find_tool currentManifest (toolId data) with
  | Throw e =>
      (Ok (internal_error_reply corsHeaders),
       after w st1 [EvFormData; EvFetch rq1 a1; EvConsoleError e])
  | Ok tool =>
  if negb (truthy tool) then
    (Ok (jsonResponse (MessageBody (js "Tool not found")) 404 corsHeaders),
     after w st1 [EvFormData; EvFetch rq1 a1])
  else
  let rq2 := put_request token owner repo
               (ACTIVE_WORKSHOP_SLUG env ++ js "/outputs/" ++ output_filename rt data)
               (js "Add output for " ++ toolId data)
               (BinaryContent (file_bytes (outputFile data))) None in
  let a2 := (remote rq2 st1).1 in
  let st2 := (remote rq2 st1).2 in
  match put_result GitHubApiError a2 with
  | Throw e =>
      (Ok (internal_error_reply corsHeaders),
       after w st2 [EvFormData; EvFetch rq1 a1; EvFetch rq2 a2; EvConsoleError e])
  | Ok _ =>
  match get_prop_opt tool (js "url") with
  | Throw e =>
      (Ok (internal_error_reply corsHeaders),
       after w st2 [EvFormData; EvFetch rq1 a1; EvFetch rq2 a2; EvConsoleError e])
  | Ok toolUrl =>
  let rq3 := get_request token owner repo (manifest_path env) in
  let a3 := (remote rq3 st2).1 in
  let st3 := (remote rq3 st2).2 in
  match get_result a3 with
  | Throw e =>
      (Ok (internal_error_reply corsHeaders),
       after w st3 [EvFormData; EvFetch rq1 a1; EvFetch rq2 a2; EvFetch rq3 a3;
                    EvConsoleError e])
  | Ok currentManifest' =>
  match next_manifest (js "outputs") currentManifest' (output_entry rt data toolUrl) with
  | Throw e =>
      (Ok (internal_error_reply corsHeaders),
       after w st3 [EvFormData; EvFetch rq1 a1; EvFetch rq2 a2; EvFetch rq3 a3;
                    EvConsoleError e])
  | Ok (manifest, sha) =>
  let rq4 := put_request token owner repo (manifest_path env)
               (js "Update manifest with new output") (JsonContent manifest) sha in
  let a4 := (remote rq4 st3).1 in
  let st4 := (remote rq4 st3).2 in
  match put_result ManifestUpdateError a4 with
  | Throw e =>
      (Ok (internal_error_reply corsHeaders),
       after w st4 [EvFormData; EvFetch rq1 a1; EvFetch rq2 a2; EvFetch rq3 a3;
                    EvFetch rq4 a4; EvConsoleError e])
  | Ok _ =>
      (Ok (jsonResponse (SuccessBody (output_filename rt data) (galleryUrl_of env))
             200 corsHeaders),
       after w st4 [EvFormData; EvFetch rq1 a1; EvFetch rq2 a2; EvFetch rq3 a3;
                    EvFetch rq4 a4])
  end end end end end end end end end.

(** The calls of a trace: method, url and the status of the answer. *)
Definition calls (evs : list event) : list (method * jsstr * option Z) :=
  omap (fun ev => match ev with
                  | EvFetch rq answer =>
                      Some (rq_method rq, rq_url rq, resp_status <$> answer)
                  | _ => None
                  end) evs.

(** ** Sample requests and stores *)
Module Example.

Definition env : Env :=
  {| ALLOWED_ORIGIN := js "https://p5.example";
     GITHUB_TOKEN := js "token";
     GITHUB_OWNER := js "owner";
     GITHUB_REPO := js "gallery";
     ACTIVE_WORKSHOP_SLUG := js "workshop" |}.

Definition rt : Runtime :=
  {| random_index := fun i => ((7 * i + 3) `mod` 36)%nat;
     now_iso := js "2025-01-01T00:00:00.000Z" |}.

Definition sketch : File :=
  {| file_name := js "My Sketch.js"; file_type := js "text/javascript";
     file_text := js "function draw() {}"; file_bytes := [] |}.

Definition tool_form : FormData :=
  [ (js "toolName", FString (js " Brush "));
    (js "toolDescription", FString (js "Paints"));
    (js "nickname", FString (js "Ann B"));
    (js "modelUsed", FString (js "model"));
    (js "toolFile", FFile sketch) ].

Definition post (pathname : string) (formData : FormData) : Request :=
  {| req_method := js "POST"; req_origin := Some (js "https://p5.example");
     req_pathname := js pathname; req_form := Some formData |}.

Definition tool_request : Request := post "/upload/tool" tool_form.

(** No description, an empty nickname and a payload that is not a script. *)
Definition bad_tool_form : FormData :=
  [ (js "toolName", FString (js "Brush"));
    (js "nickname", FString []);
    (js "modelUsed", FString (js "model"));
    (js "toolFile", FFile {| file_name := js "notes.txt"; file_type := js "text/plain";
                             file_text := js "hi"; file_bytes := [] |}) ].


Definition image : File :=
  {| file_name := js "First Run.final.png"; file_type := js "image/png";
     file_text := []; file_bytes := [137; 80; 78; 71] |}.

Definition output_form (toolId : string) : FormData :=
  [ (js "toolId", FString (js toolId)); (js "outputFile", FFile image) ].

Definition empty_store : GitHub.state :=
  {| GitHub.files := ∅; GitHub.commits := 0; GitHub.others := [] |}.

Definition start (st : GitHub.state) : world GitHub.state :=
  {| store := st; trace := [] |}.

Definition manifest_url : jsstr :=
  contents_url (GITHUB_OWNER env) (GITHUB_REPO env) (manifest_path env).

(** A store whose manifest is the given JSON document. *)
Definition store_with (manifest : json) : GitHub.state :=
  GitHub.commit manifest_url (JsonContent manifest) empty_store.

(** The store after one tool upload. *)
Definition store_one_tool : GitHub.state :=
  store (default_fetch GitHub.serve rt tool_request env (start empty_store)).2.

(** A manifest without [tools]: [{"outputs": []}]. *)
Definition store_no_tools : GitHub.state :=
  store_with (JObj [ (js "outputs", JArr [] []) ]).

Definition tool_file_url : jsstr :=
  contents_url (GITHUB_OWNER env) (GITHUB_REPO env)
    (js "workshop/tools/ann-b-my-sketch-dkry5c.js").

Definition old_tool : json :=
  JObj [ (js "id", JStr (js "old-tool-aaaaaa"));
         (js "url", JStr (js "tools/old-tool-aaaaaa.js")) ].

Definition old_manifest : json :=
  JObj [ (js "tools", JArr [old_tool] []); (js "outputs", JArr [] []) ].

(** A store whose manifest lists one tool. *)
Definition store_old : GitHub.state := store_with old_manifest.

Definition other_manifest : json :=
  JObj [ (js "tools", JArr [JObj [ (js "id", JStr (js "other")) ]; old_tool] []);
         (js "outputs", JArr [] []) ].

(** The same store, where another client commits a manifest after the
    second request to come and before the third: between the read and the
    write of the manifest of a tool upload. *)
Definition store_raced : GitHub.state :=
  {| GitHub.files := GitHub.files store_old;
     GitHub.commits := GitHub.commits store_old;
     GitHub.others := [ []; []; [ (manifest_url, JsonContent other_manifest) ] ] |}.

Definition tool_success : Reply :=
  jsonResponse (SuccessBody (js "ann-b-my-sketch-dkry5c.js") (galleryUrl_of env))
    200 (corsHeaders_of env).

Definition tool_data : UploadInput :=
  {| toolName := js "Brush"; toolDescription := js "Paints"; nickname := js "Ann B";
     modelUsed := js "model"; toolFile := sketch |}.

(** A configuration whose allowed origin is the empty string, and a request
    without an Origin header. *)
Definition env_no_origin : Env :=
  {| ALLOWED_ORIGIN := [];
     GITHUB_TOKEN := js "token";
     GITHUB_OWNER := js "owner";
     GITHUB_REPO := js "gallery";
     ACTIVE_WORKSHOP_SLUG := js "workshop" |}.

Definition anonymous_request : Request :=
  {| req_method := js "POST"; req_origin := None;
     req_pathname := js "/upload/tool"; req_form := Some tool_form |}.



End Example.

(** ** Reading a run: more notions *)

(** The fields of an output upload that are not valid, in the order of the
    schema: a tool id that is not a string or is the empty string; a payload
    that is not a file or whose type is not one of the four image types. *)
Definition image_field_ok (v : option entry) : bool :=
  match v with
  | Some (FFile f) => bool_decide (file_type f ∈ image_types)
  | _ => false
  end.

Definition failing_output_fields (formData : FormData) : list jsstr :=
  List.filter (fun k => negb (text_field_ok (form_get formData k))) [js "toolId"]
  ++ List.filter (fun k => negb (image_field_ok (form_get formData k))) [js "outputFile"].


(** What a run wrote.  A write is accepted when the store answers it with a
    status from 200 to 299; its answer is unreadable when it is accepted and
    has a body that is not JSON. *)
Definition accepted (answer : option response) : bool :=
  match answer with Some r => ok r | None => false end.

Definition unreadable (answer : option response) : bool :=
  match answer with
  | Some r => ok r && match resp_body_of r with NotJson => true | JsonBody _ => false end
  | None => false
  end.

Definition is_manifest_write (ev : event) : bool :=
  match ev with
  | EvFetch rq answer =>
      match rq_body rq with
      | Some b =>
          match put_content b with
          | JsonContent _ => accepted answer
          | _ => false
          end
      | None => false
      end
  | _ => false
  end.

Definition is_payload_write (ev : event) : bool :=
  match ev with
  | EvFetch rq answer =>
      match rq_body rq with
      | Some b =>
          match put_content b with
          | JsonContent _ => false
          | _ => accepted answer
          end
      | None => false
      end
  | _ => false
  end.

Definition is_unreadable (ev : event) : bool :=
  match ev with EvFetch _ answer => unreadable answer | _ => false end.

(** The number of manifests and of payloads a run wrote. *)
Definition writes (evs : list event) : nat * nat :=
  (length (List.filter is_manifest_write evs), length (List.filter is_payload_write evs)).

(** What was read is a manifest file whose [tools] is there (is truthy). *)
Definition has_tools (currentManifest : ghjson) : bool :=
  match currentManifest with
  | FileJson (Some manifest) _ =>
      match get_prop manifest (js "tools") with
      | Ok tools => truthy tools
      | Throw _ => false
      end
  | _ => false
  end.

Definition is_console_error (ev : event) : bool :=
  match ev with EvConsoleError _ => true | _ => false end.

(** ** Base64 and UTF-8 ([base64Encode], [base64Decode], and the binary
    upload)

    [TextEncoder], [TextDecoder], [btoa], [atob], [String.fromCodePoint] and
    the iteration of a string belong to the platform.  They are modelled
    after their standards: UTF-8 and its decoder after the WHATWG Encoding
    standard, [atob] after forgiving-base64 of the WHATWG Infra standard,
    the rest after ECMAScript.  A byte is a number below 256, a code unit a
    number below 65536. *)

Module Unicode.
Definition is_high (c : N) : bool := (55296 <=? c) && (c <=? 56319).
Definition is_low (c : N) : bool := (56320 <=? c) && (c <=? 57343).
Definition is_surrogate (c : N) : bool := (55296 <=? c) && (c <=? 57343).
(** A scalar value: a code point that is not a surrogate. *)
Definition is_scalar (cp : N) : bool := (cp <? 1114112) && negb (is_surrogate cp).
Definition replacement : N := 65533.
Definition bom : N := 65279.
End Unicode.

(** The code points the iterator of a string yields: a high surrogate
    followed by a low one is one code point, any other code unit is one by
    itself. *)
Fixpoint string_iterator (s : jsstr) : list N :=
  match s with
  | [] => []
  | c :: s' =>
      match s' with
      | d :: s'' =>
          if Unicode.is_high c && Unicode.is_low d
          then (65536 + (c - 55296) * 1024 + (d - 56320)) :: string_iterator s''
          else c :: string_iterator s'
      | [] => [c]
      end
  end.

(** The conversion to a sequence of scalar values: a surrogate that is not
    part of a pair becomes U+FFFD. *)
Definition to_scalar (cp : N) : N :=
  if Unicode.is_surrogate cp then Unicode.replacement else cp.

Definition scalar_values (s : jsstr) : list N := map to_scalar (string_iterator s).

(** [String.fromCodePoint(cp)], for a code point up to U+10FFFF. *)
Definition fromCodePoint (cp : N) : jsstr :=
  if cp <? 65536 then [cp]
  else [55296 + (cp - 65536) / 1024; 56320 + (cp - 65536) mod 1024].

(** [s.toWellFormed()] *)
Definition toWellFormed (s : jsstr) : jsstr := concat (map fromCodePoint (scalar_values s)).

(** [s.isWellFormed()] *)
Definition isWellFormed (s : jsstr) : bool :=
  forallb (fun cp => negb (Unicode.is_surrogate cp)) (string_iterator s).

(** The UTF-8 encoding of a scalar value. *)
Definition utf8_bytes (cp : N) : list N :=
  if cp <? 128 then [cp]
  else if cp <? 2048 then [192 + cp / 64; 128 + cp mod 64]
  else if cp <? 65536 then
    [224 + cp / 4096; 128 + (cp / 64) mod 64; 128 + cp mod 64]
  else
    [240 + cp / 262144; 128 + (cp / 4096) mod 64; 128 + (cp / 64) mod 64;
     128 + cp mod 64].

(** [new TextEncoder().encode(str)] *)
Definition TextEncoder_encode (str : jsstr) : list N :=
  concat (map utf8_bytes (scalar_values str)).

(** The UTF-8 decoder: the code point under construction, the number of
    bytes it still needs, and the bounds of the next byte. *)
Record utf8_state := {
  utf8_code_point : N;
  utf8_bytes_needed : nat;
  utf8_lower_boundary : N;
  utf8_upper_boundary : N;
}.

Definition utf8_start : utf8_state :=
  {| utf8_code_point := 0; utf8_bytes_needed := 0;
     utf8_lower_boundary := 128; utf8_upper_boundary := 191 |}.

(** A byte read when no bytes are needed: what is emitted, and the next
    state. *)
Definition utf8_lead (byte : N) : list N * utf8_state :=
  if byte <=? 127 then ([byte], utf8_start)
  else if (194 <=? byte) && (byte <=? 223) then
    ([], {| utf8_code_point := byte mod 32; utf8_bytes_needed := 1;
            utf8_lower_boundary := 128; utf8_upper_boundary := 191 |})
  else if (224 <=? byte) && (byte <=? 239) then
    ([], {| utf8_code_point := byte mod 16; utf8_bytes_needed := 2;
            utf8_lower_boundary := if byte =? 224 then 160 else 128;
            utf8_upper_boundary := if byte =? 237 then 159 else 191 |})
  else if (240 <=? byte) && (byte <=? 244) then
    ([], {| utf8_code_point := byte mod 8; utf8_bytes_needed := 3;
            utf8_lower_boundary := if byte =? 240 then 144 else 128;
            utf8_upper_boundary := if byte =? 244 then 143 else 191 |})
  else ([Unicode.replacement], utf8_start).

(** The decoder with replacement as its error mode.  A byte out of the
    bounds ends the sequence with U+FFFD and is read again as a first
    byte; the end of the input inside a sequence gives U+FFFD. *)
Fixpoint utf8_decoder (st : utf8_state) (bytes : list N) : list N :=
  match bytes with
  | [] => match utf8_bytes_needed st with O => [] | S _ => [Unicode.replacement] end
  | byte :: rest =>
      match utf8_bytes_needed st with
      | O => (utf8_lead byte).1 ++ utf8_decoder (utf8_lead byte).2 rest
      | S n =>
          if (utf8_lower_boundary st <=? byte) && (byte <=? utf8_upper_boundary st) then
            let cp := utf8_code_point st * 64 + byte mod 64 in
            match n with
            | O => cp :: utf8_decoder utf8_start rest
            | S _ =>
                utf8_decoder {| utf8_code_point := cp; utf8_bytes_needed := n;
                                utf8_lower_boundary := 128;
                                utf8_upper_boundary := 191 |} rest
            end
          else
            Unicode.replacement
              :: (utf8_lead byte).1 ++ utf8_decoder (utf8_lead byte).2 rest
      end
  end.

(** A byte order mark at the start is not part of the text. *)
Definition drop_bom (cps : list N) : list N :=
  match cps with
  | cp :: rest => if cp =? Unicode.bom then rest else cps
  | [] => []
  end.

(** [new TextDecoder().decode(bytes)] *)
Definition TextDecoder_decode (bytes : list N) : jsstr :=
  concat (map fromCodePoint (drop_bom (utf8_decoder utf8_start bytes))).

(** The base64 alphabet: [A-Z], [a-z], [0-9], [+], [/]. *)
Definition b64_char (i : N) : N :=
  if i <? 26 then 65 + i
  else if i <? 52 then 97 + (i - 26)
  else if i <? 62 then 48 + (i - 52)
  else if i =? 62 then 43
  else 47.

Definition b64_value (c : N) : option N :=
  if (65 <=? c) && (c <=? 90) then Some (c - 65)
  else if (97 <=? c) && (c <=? 122) then Some (c - 97 + 26)
  else if (48 <=? c) && (c <=? 57) then Some (c - 48 + 52)
  else if c =? 43 then Some 62
  else if c =? 47 then Some 63
  else None.

Definition b64_pad : N := 61.

Fixpoint b64_encode (bytes : list N) : jsstr :=
  match bytes with
  | a :: b :: c :: rest =>
      [b64_char (a / 4); b64_char ((a mod 4) * 16 + b / 16);
       b64_char ((b mod 16) * 4 + c / 64); b64_char (c mod 64)]
      ++ b64_encode rest
  | [a; b] =>
      [b64_char (a / 4); b64_char ((a mod 4) * 16 + b / 16);
       b64_char ((b mod 16) * 4); b64_pad]
  | [a] => [b64_char (a / 4); b64_char ((a mod 4) * 16); b64_pad; b64_pad]
  | [] => []
  end.

(** [btoa(s)]: [None] stands for the InvalidCharacterError thrown for a
    code unit above 255. *)
Definition btoa (s : jsstr) : option jsstr :=
  if forallb (fun c => c <? 256) s then Some (b64_encode s) else None.

Definition is_ascii_whitespace (c : N) : bool :=
  (c =? 9) || (c =? 10) || (c =? 12) || (c =? 13) || (c =? 32).

Definition remove_whitespace (data : jsstr) : jsstr :=
  List.filter (fun c => negb (is_ascii_whitespace c)) data.

(** One or two [=] at the end of a text whose length is a multiple of 4
    are removed. *)
Definition strip_padding (data : jsstr) : jsstr :=
  if (length data mod 4 =? 0)%nat then
    match reverse data with
    | c :: r =>
        if c =? b64_pad then
          match r with
          | d :: r' => if d =? b64_pad then reverse r' else reverse r
          | [] => reverse r
          end
        else data
    | [] => data
    end
  else data.

(** Groups of four values of six bits give three bytes; two or three
    values at the end give one or two. *)
Fixpoint octets (values : list N) : list N :=
  match values with
  | a :: b :: c :: d :: rest =>
      [a * 4 + b / 16; (b mod 16) * 16 + c / 4; (c mod 4) * 64 + d] ++ octets rest
  | [a; b; c] => [a * 4 + b / 16; (b mod 16) * 16 + c / 4]
  | [a; b] => [a * 4 + b / 16]
  | _ => []
  end.

(** [atob(data)], forgiving-base64 decode: [None] stands for the
    InvalidCharacterError. *)
Definition atob (data : jsstr) : option jsstr :=
  let data := strip_padding (remove_whitespace data) in
  if (length data mod 4 =? 1)%nat then None
  else octets <$> mapM b64_value data.

(** [Array.from(data, (byte) => String.fromCodePoint(byte)).join('')] *)
Definition binString_of (data : list N) : jsstr := concat (map fromCodePoint data).

(** [Uint8Array.from(binString, (char) => char.codePointAt(0))]: the string
    is iterated by code points, an element is stored modulo 256. *)
Definition bytes_of (binString : jsstr) : list N :=
  map (fun cp => cp mod 256) (string_iterator binString).

Definition base64Encode (str : jsstr) : option jsstr :=
  btoa (binString_of (TextEncoder_encode str)).

Definition base64Decode (str : jsstr) : option jsstr :=
  binString ← atob str;
  Some (TextDecoder_decode (bytes_of binString)).

(** The [content] of the request of [uploadBinaryToGitHub]. *)
Definition binary_base64 (content : list N) : option jsstr :=
  btoa (binString_of content).

(** Auxiliary forms, used to reason about base64. *)
Fixpoint sextets (bytes : list N) : list N :=
  match bytes with
  | a :: b :: c :: rest =>
      [a / 4; (a mod 4) * 16 + b / 16; (b mod 16) * 4 + c / 64; c mod 64]
      ++ sextets rest
  | [a; b] => [a / 4; (a mod 4) * 16 + b / 16; (b mod 16) * 4]
  | [a] => [a / 4; (a mod 4) * 16]
  | [] => []
  end.

Fixpoint pad_count (bytes : list N) : nat :=
  match bytes with
  | _ :: _ :: _ :: rest => pad_count rest
  | [_; _] => 1
  | [_] => 2
  | [] => 0
  end.

(** * Theorems *)

(** ** The regular expressions of the sanitizer *)

Lemma plus_loop_run (p : N -> bool) (s : jsstr) :
  plus_loop p s (fun _ => Some 0%nat) =
  match s with
  | c :: _ => if p c then Some (length (take_while p s)) else None
  | [] => None
  end.
Proof.
  induction s as [|c s IH]; [reflexivity|].
  cbn [plus_loop take_while]. destruct (p c); [|reflexivity].
  rewrite IH. destruct s as [|d s]; [reflexivity|].
  cbn [take_while]. destruct (p d); reflexivity.
Qed.

Lemma drop_take_while (p : N -> bool) (s : jsstr) :
  drop (length (take_while p s)) s = drop_while p s.
Proof.
  induction s as [|c s IH]; [reflexivity|].
  cbn [take_while drop_while]. destruct (p c); [exact IH | reflexivity].
Qed.

Lemma squeeze_in_run (s : jsstr) :
  squeeze true s = squeeze false (drop_while Ch.not_alnum s).
Proof.
  induction s as [|c s IH]; [reflexivity|].
  cbn [squeeze drop_while]. destruct (Ch.not_alnum c) eqn:E; [exact IH|].
  cbn [squeeze]. rewrite E. reflexivity.
Qed.

Lemma replace_not_alnum_loop (s : jsstr) : forall bol skip,
  replace_loop re_not_alnum [Ch.hyphen] true bol skip s = squeeze false (drop skip s).
Proof.
  induction s as [|c s IH]; intros bol skip.
  - destruct skip; reflexivity.
  - destruct skip as [|n]; [|apply IH].
    cbn [replace_loop]. unfold exec, re_not_alnum. cbn [rmatch].
    rewrite plus_loop_run. cbn [take_while drop squeeze].
    destruct (Ch.not_alnum c) eqn:E.
    + cbn [length]. rewrite IH, drop_take_while, squeeze_in_run. reflexivity.
    + rewrite IH. reflexivity.
Qed.

Lemma replace_not_alnum (s : jsstr) :
  str_replace re_not_alnum true [Ch.hyphen] s = squeeze false s.
Proof. unfold str_replace. rewrite replace_not_alnum_loop. reflexivity. Qed.

Lemma plus_loop_to_end (p : N -> bool) (k : jsstr -> option nat) (s : jsstr) :
  (forall t, k t = match t with [] => Some 0%nat | _ :: _ => None end) ->
  plus_loop p s k =
  match s with
  | [] => None
  | _ :: _ => if forallb p s then Some (length s) else None
  end.
Proof.
  intros Hk. induction s as [|c s IH]; [reflexivity|].
  cbn [plus_loop forallb]. destruct (p c); [|reflexivity].
  rewrite IH, Hk. destruct s as [|d s]; [reflexivity|].
  cbn [andb]. destruct (forallb p (d :: s)); reflexivity.
Qed.

Lemma exec_edge_inner (s : jsstr) :
  exec re_edge_hyphens false s =
  match s with
  | [] => None
  | _ :: _ => if forallb Ch.is_hyphen s then Some (length s) else None
  end.
Proof.
  unfold exec, re_edge_hyphens. cbn [rmatch].
  apply plus_loop_to_end. intros [|? ?]; reflexivity.
Qed.

Lemma exec_edge_start (s : jsstr) :
  exec re_edge_hyphens true s =
  match s with
  | c :: _ => if Ch.is_hyphen c then Some (length (take_while Ch.is_hyphen s)) else None
  | [] => None
  end.
Proof.
  unfold exec, re_edge_hyphens. cbn [rmatch].
  rewrite plus_loop_run.
  destruct s as [|c s]; [reflexivity|].
  destruct (Ch.is_hyphen c) eqn:E; [reflexivity|].
  cbn [plus_loop]. rewrite E. reflexivity.
Qed.

Lemma strip_end_all (s : jsstr) :
  forallb Ch.is_hyphen s = true -> strip_end s = [].
Proof. destruct s as [|c s]; [reflexivity|]. intros H. cbn [strip_end]. rewrite H. reflexivity. Qed.

Lemma replace_edge_loop (s : jsstr) : forall skip,
  replace_loop re_edge_hyphens [] true false skip s = strip_end (drop skip s).
Proof.
  induction s as [|c s IH]; intros skip.
  - destruct skip; reflexivity.
  - destruct skip as [|n]; [|apply IH].
    cbn [replace_loop]. rewrite exec_edge_inner. cbn [drop strip_end].
    destruct (forallb Ch.is_hyphen (c :: s)) eqn:E.
    + cbn [length app]. rewrite IH, drop_all. reflexivity.
    + rewrite IH. reflexivity.
Qed.

Lemma replace_edge (s : jsstr) :
  str_replace re_edge_hyphens true [] s = strip_end (drop_while Ch.is_hyphen s).
Proof.
  unfold str_replace. destruct s as [|c s]; [reflexivity|].
  cbn [replace_loop]. rewrite exec_edge_start. cbn [drop_while take_while].
  destruct (Ch.is_hyphen c) eqn:E.
  - cbn [length app]. rewrite replace_edge_loop, drop_take_while. reflexivity.
  - rewrite replace_edge_loop. cbn [drop strip_end forallb]. rewrite E. reflexivity.
Qed.

Lemma drop_while_app_all (p : N -> bool) (l t : jsstr) :
  forallb p l = true -> drop_while p (l ++ t) = drop_while p t.
Proof.
  induction l as [|c l IH]; [reflexivity|].
  cbn [forallb app drop_while]. destruct (p c); [exact IH | discriminate].
Qed.

Lemma drop_while_app_some (p : N -> bool) (l t : jsstr) :
  forallb p l = false -> drop_while p (l ++ t) = drop_while p l ++ t.
Proof.
  induction l as [|c l IH]; [discriminate|].
  cbn [forallb app drop_while]. destruct (p c); [exact IH | reflexivity].
Qed.

Lemma forallb_reverse (p : N -> bool) (l : jsstr) :
  forallb p (reverse l) = forallb p l.
Proof.
  induction l as [|c l IH]; [reflexivity|].
  rewrite reverse_cons, forallb_app, IH. cbn [forallb].
  destruct (p c), (forallb p l); reflexivity.
Qed.

Lemma strip_end_reverse (s : jsstr) :
  strip_end s = reverse (drop_while Ch.is_hyphen (reverse s)).
Proof.
  induction s as [|c s IH]; [reflexivity|].
  rewrite reverse_cons. cbn [strip_end forallb].
  destruct (forallb Ch.is_hyphen s) eqn:E.
  - rewrite drop_while_app_all by (rewrite forallb_reverse; exact E).
    cbn [drop_while]. rewrite andb_true_r.
    destruct (Ch.is_hyphen c); [reflexivity|].
    rewrite strip_end_all by exact E. reflexivity.
  - rewrite drop_while_app_some by (rewrite forallb_reverse; exact E).
    rewrite andb_false_r, reverse_app, IH. reflexivity.
Qed.

(** ** The specification's wording of the sanitizer *)

Lemma runs_head (s : jsstr) :
  match s, Spec.runs s with
  | [], [] => True
  | c :: _, (b, blk) :: _ => b = Ch.not_alnum c
  | _, _ => False
  end.
Proof.
  destruct s as [|c s]; [exact I|].
  cbn [Spec.runs]. destruct (Spec.runs s) as [|[b blk] rest]; [reflexivity|].
  destruct (Bool.eqb b (Ch.not_alnum c)) eqn:E; [|reflexivity].
  apply Bool.eqb_prop in E. exact E.
Qed.

Lemma collapse_runs_cons (c : N) (s : jsstr) :
  Spec.collapse_runs (c :: s) =
  if Ch.not_alnum c then
    match s with
    | d :: _ => if Ch.not_alnum d then Spec.collapse_runs s
                else Ch.hyphen :: Spec.collapse_runs s
    | [] => [Ch.hyphen]
    end
  else c :: Spec.collapse_runs s.
Proof.
  unfold Spec.collapse_runs. cbn [Spec.runs].
  pose proof (runs_head s) as H.
  destruct s as [|d s].
  - destruct (Spec.runs []) eqn:R; [|destruct p; contradiction].
    cbn. destruct (Ch.not_alnum c); reflexivity.
  - destruct (Spec.runs (d :: s)) as [|[b blk] rest]; [contradiction|]. subst b.
    destruct (Ch.not_alnum d), (Ch.not_alnum c); reflexivity.
Qed.

Lemma squeeze_after_hyphen (s : jsstr) :
  Ch.hyphen :: squeeze true s =
  match s with
  | d :: _ => if Ch.not_alnum d then squeeze false s else Ch.hyphen :: squeeze false s
  | [] => [Ch.hyphen]
  end.
Proof.
  destruct s as [|d s]; [reflexivity|]. cbn [squeeze].
  destruct (Ch.not_alnum d); reflexivity.
Qed.

Lemma collapse_runs_squeeze (s : jsstr) : Spec.collapse_runs s = squeeze false s.
Proof.
  induction s as [|c s IH]; [reflexivity|].
  rewrite collapse_runs_cons. cbn [squeeze].
  destruct (Ch.not_alnum c); [|rewrite IH; reflexivity].
  rewrite squeeze_after_hyphen, IH. reflexivity.
Qed.

Lemma sanitize_squeeze (str : jsstr) (maxLength : Z) :
  sanitizeString str maxLength =
  take (Z.to_nat maxLength)
    (strip_end (drop_while Ch.is_hyphen (squeeze false (toLowerCase str)))).
Proof.
  unfold sanitizeString, substring0.
  rewrite replace_not_alnum, replace_edge. reflexivity.
Qed.

Lemma sanitize_refines_spec (str : jsstr) (maxLength : Z) :
  sanitizeString str maxLength = Spec.sanitize str maxLength.
Proof.
  rewrite sanitize_squeeze.
  unfold Spec.sanitize, Spec.truncate, Spec.trim_hyphens.
  rewrite collapse_runs_squeeze, <- strip_end_reverse. reflexivity.
Qed.

(** ** What the sanitizer produces *)

Lemma alnum_not_hyphen (c : N) : Ch.alnum c = true -> Ch.is_hyphen c = false.
Proof.
  unfold Ch.alnum, Ch.is_lower, Ch.is_digit, Ch.is_hyphen, Ch.hyphen.
  destruct (N.eqb_spec c 45) as [->|]; [vm_compute; discriminate | reflexivity].
Qed.

Lemma hyphen_not_alnum (c : N) : Ch.is_hyphen c = true -> Ch.not_alnum c = true.
Proof.
  unfold Ch.not_alnum. destruct (Ch.alnum c) eqn:E; [|reflexivity].
  rewrite (alnum_not_hyphen _ E). discriminate.
Qed.

Lemma squeeze_safe (s : jsstr) : forall b, forallb Ch.safe (squeeze b s) = true.
Proof.
  induction s as [|c s IH]; intros b; [reflexivity|].
  cbn [squeeze]. unfold Ch.not_alnum. destruct (Ch.alnum c) eqn:E; cbn [negb].
  - cbn [forallb]. unfold Ch.safe at 1. rewrite E, IH. reflexivity.
  - destruct b; [apply IH|]. cbn [forallb]. rewrite IH. reflexivity.
Qed.

Lemma no_hh_cons (c : N) (s : jsstr) :
  no_hh (c :: s) = negb (Ch.is_hyphen c && starts_hyphen s) && no_hh s.
Proof. destruct s as [|d s]; [cbn; rewrite andb_false_r|]; reflexivity. Qed.

Lemma squeeze_no_hh (s : jsstr) :
  no_hh (squeeze false s) = true
  /\ no_hh (squeeze true s) = true
  /\ starts_hyphen (squeeze true s) = false.
Proof.
  induction s as [|c s (IH1 & IH2 & IH3)]; [repeat split|].
  cbn [squeeze]. unfold Ch.not_alnum. destruct (Ch.alnum c) eqn:E; cbn [negb].
  - rewrite !no_hh_cons, IH1. cbn [starts_hyphen].
    rewrite (alnum_not_hyphen _ E). repeat split.
  - rewrite !no_hh_cons, IH3, IH2, andb_false_r. repeat split; assumption.
Qed.

Lemma tidy_cons (c : N) (s : jsstr) :
  tidy (c :: s) = true ->
  Ch.alnum c = true /\ forallb Ch.safe s = true /\ no_hh s = true.
Proof.
  unfold tidy. cbn [forallb starts_hyphen]. rewrite no_hh_cons.
  unfold Ch.safe at 1. destruct (Ch.is_hyphen c); [rewrite andb_false_r; discriminate|].
  rewrite orb_false_r. destruct (Ch.alnum c); [|discriminate].
  cbn [andb negb]. rewrite andb_true_r.
  intros [? ?]%andb_true_iff. repeat split; assumption.
Qed.

Lemma forallb_drop_while (p q : N -> bool) (s : jsstr) :
  forallb p s = true -> forallb p (drop_while q s) = true.
Proof.
  induction s as [|c s IH]; [reflexivity|].
  cbn [drop_while]. destruct (q c); [|tauto].
  cbn [forallb]. intros [_ ?]%andb_true_iff. auto.
Qed.

Lemma no_hh_drop_while (q : N -> bool) (s : jsstr) :
  no_hh s = true -> no_hh (drop_while q s) = true.
Proof.
  induction s as [|c s IH]; [reflexivity|].
  cbn [drop_while]. destruct (q c); [|tauto].
  rewrite no_hh_cons. intros [_ ?]%andb_true_iff. auto.
Qed.

Lemma drop_while_starts (s : jsstr) :
  starts_hyphen (drop_while Ch.is_hyphen s) = false.
Proof.
  induction s as [|c s IH]; [reflexivity|].
  cbn [drop_while]. destruct (Ch.is_hyphen c) eqn:E; [exact IH|].
  cbn [starts_hyphen]. exact E.
Qed.

Lemma strip_end_prefix (s : jsstr) : strip_end s = take (length (strip_end s)) s.
Proof.
  induction s as [|c s IH]; [reflexivity|].
  cbn [strip_end]. destruct (forallb Ch.is_hyphen (c :: s)); [reflexivity|].
  cbn [length take]. rewrite <- IH. reflexivity.
Qed.

Lemma tidy_take (n : nat) (s : jsstr) : tidy s = true -> tidy (take n s) = true.
Proof.
  destruct n as [|n]; [reflexivity|].
  destruct s as [|c s]; [reflexivity|].
  intros H. destruct (tidy_cons _ _ H) as (Hc & Hs & Hh).
  unfold tidy. cbn [take forallb starts_hyphen].
  unfold Ch.safe at 1. rewrite Hc, (alnum_not_hyphen _ Hc). cbn [orb andb negb].
  rewrite andb_true_r, no_hh_cons, (alnum_not_hyphen _ Hc). cbn [andb negb].
  clear H Hc c. revert n. induction s as [|d s IH]; intros n.
  - destruct n; reflexivity.
  - destruct n as [|n]; [reflexivity|].
    cbn [forallb] in Hs. apply andb_true_iff in Hs as [Hd Hs].
    rewrite no_hh_cons in Hh. apply andb_true_iff in Hh as [Hh Hh'].
    specialize (IH Hs Hh' n). apply andb_true_iff in IH as [IH1 IH2].
    cbn [take forallb]. rewrite Hd, IH1, no_hh_cons, IH2. cbn [andb].
    rewrite andb_true_r.
    destruct (Ch.is_hyphen d); [|reflexivity].
    destruct s as [|e s]; [destruct n; reflexivity|].
    destruct n as [|n]; [reflexivity|].
    cbn [take starts_hyphen] in *. exact Hh.
Qed.

Lemma untruncated_tidy (str : jsstr) :
  tidy (strip_end (drop_while Ch.is_hyphen (squeeze false (toLowerCase str)))) = true.
Proof.
  rewrite strip_end_prefix. apply tidy_take.
  unfold tidy. rewrite drop_while_starts.
  rewrite forallb_drop_while by apply squeeze_safe.
  rewrite no_hh_drop_while by apply squeeze_no_hh.
  reflexivity.
Qed.

Lemma sanitize_tidy (str : jsstr) (maxLength : Z) :
  tidy (sanitizeString str maxLength) = true.
Proof. rewrite sanitize_squeeze. apply tidy_take, untruncated_tidy. Qed.

Lemma sanitize_length (str : jsstr) (maxLength : Z) :
  (length (sanitizeString str maxLength) <= Z.to_nat maxLength)%nat.
Proof. rewrite sanitize_squeeze. rewrite length_take. lia. Qed.

(** ** Sanitizing a sanitized name *)

Lemma safe_cases (c : N) :
  Ch.safe c = true -> 97 <= c <= 122 \/ 48 <= c <= 57 \/ c = 45.
Proof.
  unfold Ch.safe, Ch.alnum, Ch.is_lower, Ch.is_digit, Ch.is_hyphen, Ch.hyphen.
  rewrite !orb_true_iff, !andb_true_iff, !N.leb_le, N.eqb_eq. lia.
Qed.

Lemma lower_cu_safe (c : N) : Ch.safe c = true -> lower_cu c = [c].
Proof.
  intros H%safe_cases. unfold lower_cu, Ch.is_upper.
  destruct (N.leb_spec 65 c), (N.leb_spec c 90), (N.eqb_spec c 8490),
    (N.eqb_spec c 304); cbn [andb]; try reflexivity; lia.
Qed.

Lemma toLowerCase_safe (s : jsstr) :
  forallb Ch.safe s = true -> toLowerCase s = s.
Proof.
  unfold toLowerCase. induction s as [|c s IH]; [reflexivity|].
  cbn [forallb map concat]. intros [Hc Hs]%andb_true_iff.
  rewrite (lower_cu_safe _ Hc), IH by exact Hs. reflexivity.
Qed.

Lemma squeeze_safe_fix (s : jsstr) :
  forallb Ch.safe s = true -> no_hh s = true ->
  squeeze false s = s /\ (starts_hyphen s = false -> squeeze true s = s).
Proof.
  induction s as [|c s IH]; [split; reflexivity|].
  cbn [forallb]. rewrite no_hh_cons.
  intros [Hc Hs]%andb_true_iff [Hcs Hh]%andb_true_iff.
  destruct (IH Hs Hh) as [IH1 IH2]. clear IH.
  cbn [squeeze starts_hyphen]. unfold Ch.not_alnum.
  destruct (Ch.alnum c) eqn:E; cbn [negb].
  - rewrite IH1. split; reflexivity.
  - unfold Ch.safe in Hc. rewrite E in Hc. cbn [orb] in Hc.
    rewrite Hc in Hcs |- *. cbn [andb] in Hcs.
    apply negb_true_iff in Hcs. rewrite (IH2 Hcs).
    apply N.eqb_eq in Hc. subst c. split; [reflexivity | discriminate].
Qed.

Lemma drop_while_not_starts (s : jsstr) :
  starts_hyphen s = false -> drop_while Ch.is_hyphen s = s.
Proof. destruct s as [|c s]; [reflexivity|]. cbn. intros ->. reflexivity. Qed.

Lemma ends_hyphen_cons (c d : N) (s : jsstr) :
  ends_hyphen (c :: d :: s) = ends_hyphen (d :: s).
Proof. reflexivity. Qed.

Lemma strip_end_no_hh (s : jsstr) :
  no_hh s = true ->
  strip_end s = if ends_hyphen s then take (length s - 1) s else s.
Proof.
  induction s as [|c s IH]; [reflexivity|].
  destruct s as [|d s].
  - intros _. cbn. unfold ends_hyphen. cbn [last]. destruct (Ch.is_hyphen c); reflexivity.
  - rewrite no_hh_cons. intros [Hcd Hh]%andb_true_iff.
    cbn [starts_hyphen] in Hcd. apply negb_true_iff in Hcd.
    change (strip_end (c :: d :: s))
      with (if Ch.is_hyphen c && (Ch.is_hyphen d && forallb Ch.is_hyphen s)
            then [] else c :: strip_end (d :: s)).
    rewrite andb_assoc, Hcd. cbn [andb]. rewrite (IH Hh), ends_hyphen_cons.
    destruct (ends_hyphen (d :: s)); [|reflexivity].
    cbn [length]. rewrite !Nat.sub_succ, !Nat.sub_0_r. reflexivity.
Qed.

Lemma endsWith_hyphen (s : jsstr) : endsWith s [Ch.hyphen] = ends_hyphen s.
Proof.
  unfold endsWith. induction s as [|c s IH]; [reflexivity|].
  destruct s as [|d s].
  - cbn. unfold ends_hyphen, Ch.is_hyphen. cbn [last].
    destruct (N.eqb_spec c Ch.hyphen) as [->|Hne].
    + apply bool_decide_eq_true. reflexivity.
    + apply bool_decide_eq_false. congruence.
  - rewrite ends_hyphen_cons, <- IH. cbn [length].
    rewrite !Nat.sub_succ, !Nat.sub_0_r. reflexivity.
Qed.

Lemma sanitize_of_tidy (r : jsstr) (maxLength : Z) :
  tidy r = true -> (length r <= Z.to_nat maxLength)%nat ->
  sanitizeString r maxLength =
  if endsWith r (js "-") then take (length r - 1) r else r.
Proof.
  intros Ht Hlen. unfold tidy in Ht.
  apply andb_true_iff in Ht as [[Hs Hh]%andb_true_iff Hst].
  apply negb_true_iff in Hst.
  rewrite sanitize_squeeze, (toLowerCase_safe _ Hs).
  rewrite (proj1 (squeeze_safe_fix _ Hs Hh)), (drop_while_not_starts _ Hst).
  rewrite (strip_end_no_hh _ Hh).
  change (js "-") with [Ch.hyphen]. rewrite endsWith_hyphen.
  destruct (ends_hyphen r); apply take_ge; rewrite ?length_take; lia.
Qed.

(** ** The claims about the sanitizer *)

(** C5.  [sanitizeString] is the function the specification describes: lower
    case, every maximal run of characters outside [a-z0-9] replaced by one
    hyphen, leading and trailing hyphens trimmed, and only then truncation to
    [maxLength], with no trim after it; and the three values the
    specification lists.  The last equation shows the hyphen that truncation
    leaves. *)
Theorem sanitize_as_specified :
  (forall (input : jsstr) (maxLength : Z),
      sanitizeString input maxLength = Spec.sanitize input maxLength)
  /\ sanitizeString (js "Hello World!!") 30 = js "hello-world"
  /\ sanitizeString (js "___") 10 = []
  /\ sanitizeString (js "abcdefghij") 5 = js "abcde"
  /\ sanitizeString (js "ab-cd") 3 = js "ab-".
Proof.
  split; [exact sanitize_refines_spec|].
  repeat split; vm_compute; reflexivity.
Qed.

(** C9.  For a [maxLength] that is not negative the result has at most
    [maxLength] code units, all of them in [a-z0-9-], and it does not begin
    with a hyphen.  It can end with one: the last equation is a truncation
    that cuts just after a hyphen. *)
Theorem sanitize_invariants (s : jsstr) (maxLength : Z) (H : (0 <= maxLength)%Z) :
  (Z.of_nat (length (sanitizeString s maxLength)) <= maxLength)%Z
  /\ (forall c, c ∈ sanitizeString s maxLength -> Ch.safe c = true)
  /\ head (sanitizeString s maxLength) <> Some Ch.hyphen
  /\ last (sanitizeString (js "ab-cd") 3) = Some Ch.hyphen.
Proof.
  pose proof (sanitize_length s maxLength) as Hlen.
  pose proof (sanitize_tidy s maxLength) as Ht.
  unfold tidy in Ht. apply andb_true_iff in Ht as [[Hs _]%andb_true_iff Hst].
  repeat split.
  - lia.
  - intros c Hc. rewrite forallb_forall in Hs. apply Hs.
    apply list_elem_of_In. exact Hc.
  - apply negb_true_iff in Hst.
    destruct (sanitizeString s maxLength) as [|c r]; [discriminate|].
    cbn in *. intros [= ->]. discriminate.
Qed.

Lemma sanitize_invariants_witness :
  (Z.of_nat (length (sanitizeString (js "My Sketch (v2)") 9)) <= 9)%Z
  /\ (forall c, c ∈ sanitizeString (js "My Sketch (v2)") 9 -> Ch.safe c = true)
  /\ head (sanitizeString (js "My Sketch (v2)") 9) <> Some Ch.hyphen
  /\ last (sanitizeString (js "ab-cd") 3) = Some Ch.hyphen.
Proof. apply (sanitize_invariants (js "My Sketch (v2)") 9). lia. Defined.

(** C1 as stated fails: truncation can leave a hyphen at the end, and the
    second pass trims it. *)
Lemma sanitize_not_idempotent :
  sanitizeString (js "ab-cd") 3 = js "ab-"
  /\ sanitizeString (sanitizeString (js "ab-cd") 3) 3 = js "ab"
  /\ sanitizeString (sanitizeString (js "ab-cd") 3) 3 <> sanitizeString (js "ab-cd") 3.
Proof. vm_compute. repeat split. discriminate. Qed.

(** C1 (amended).  Sanitizing a sanitized name with the same [maxLength]
    gives the name back when it does not end with a hyphen, and the name
    without its last code unit, the hyphen, when it does. *)
Theorem sanitize_twice (s : jsstr) (n : Z) :
  sanitizeString (sanitizeString s n) n =
  if endsWith (sanitizeString s n) (js "-")
  then take (length (sanitizeString s n) - 1) (sanitizeString s n)
  else sanitizeString s n.
Proof.
  apply sanitize_of_tidy; [apply sanitize_tidy | apply sanitize_length].
Qed.

(** ** The extension of a script and the random part of a name *)

Lemma exec_js_suffix (bol : bool) (s : jsstr) :
  exec re_js_suffix bol s = if bool_decide (s = js ".js") then Some 3%nat else None.
Proof.
  destruct (decide (s = js ".js")) as [->|Hne]; [reflexivity|].
  rewrite (bool_decide_eq_false_2 _ Hne).
  unfold exec, re_js_suffix, Ch.is_dot, Ch.dot. cbn [rmatch].
  destruct s as [|a [|b [|c [|d s]]]]; try reflexivity.
  - destruct (N.eqb_spec a 46); reflexivity.
  - destruct (N.eqb_spec a 46), (N.eqb_spec 106 b); reflexivity.
  - destruct (N.eqb_spec a 46) as [->|Ha]; [|reflexivity].
    destruct (N.eqb_spec 106 b) as [<-|Hb]; [|reflexivity].
    destruct (N.eqb_spec 115 c) as [<-|Hc]; [|reflexivity].
    contradiction Hne. reflexivity.
  - destruct (N.eqb_spec a 46), (N.eqb_spec 106 b), (N.eqb_spec 115 c); reflexivity.
Qed.

Lemma endsWith_cons (c : N) (s suffix : jsstr) :
  c :: s <> suffix -> endsWith (c :: s) suffix = endsWith s suffix.
Proof.
  intros Hne. unfold endsWith. cbn [length].
  destruct (decide (length suffix <= length s)%nat) as [Hle|Hgt].
  - replace (S (length s) - length suffix)%nat with (S (length s - length suffix)) by lia.
    reflexivity.
  - replace (S (length s) - length suffix)%nat with 0%nat by lia.
    replace (length s - length suffix)%nat with 0%nat by lia.
    cbn [drop]. rewrite (bool_decide_eq_false_2 (c :: s = suffix) Hne).
    rewrite (bool_decide_eq_false_2 (s = suffix)); [reflexivity|].
    intros ->. lia.
Qed.

Lemma replace_js_suffix_loop (name : jsstr) : forall bol,
  replace_loop re_js_suffix [] false bol 0 name =
  if endsWith name (js ".js") then take (length name - 3) name else name.
Proof.
  induction name as [|c s IH]; intros bol; [reflexivity|].
  cbn [replace_loop]. rewrite exec_js_suffix.
  destruct (decide (c :: s = js ".js")) as [E|Hne].
  - rewrite (bool_decide_eq_true_2 _ E), E. reflexivity.
  - rewrite (bool_decide_eq_false_2 _ Hne), IH, (endsWith_cons _ _ _ Hne).
    destruct (endsWith s (js ".js")) eqn:Hend; [|reflexivity].
    assert (3 <= length s)%nat as Hlen.
    { unfold endsWith in Hend. apply bool_decide_eq_true_1 in Hend.
      apply (f_equal length) in Hend. rewrite length_drop in Hend.
      change (length (js ".js")) with 3%nat in Hend.
      destruct (decide (3 <= length s)%nat); [assumption|].
      exfalso. revert Hend. change (length (js ".js")) with 3%nat. lia. }
    cbn [length].
    replace (S (length s) - 3)%nat with (S (length s - 3)) by lia. reflexivity.
Qed.

(** [name.replace(/\.js$/, '')] takes the extension off a name that ends in
    [.js], and leaves any other name as it is. *)
Lemma strip_js_suffix (name : jsstr) :
  str_replace re_js_suffix false [] name =
  if endsWith name (js ".js") then take (length name - 3) name else name.
Proof. apply replace_js_suffix_loop. Qed.

Lemma charAt_chars (i : nat) :
  (i < 36)%nat -> exists c, charAt chars i = [c] /\ Ch.alnum c = true.
Proof.
  intros Hi. unfold charAt.
  do 36 (destruct i as [|i]; [eexists; split; vm_compute; reflexivity|]). lia.
Qed.

(** With indices below the length of the alphabet, as
    [Math.floor(Math.random() * chars.length)] gives them, the random part
    has [length] characters, all in [[a-z0-9]]. *)
Lemma generateRandomString_spec (rt : Runtime) (length : nat) :
  (forall i, (random_index rt i < 36)%nat) ->
  List.length (generateRandomString rt length) = length
  /\ forallb Ch.alnum (generateRandomString rt length) = true.
Proof.
  intros Hr. unfold generateRandomString.
  assert (forall l acc,
             List.length (foldl (fun result i => result ++ charAt chars (random_index rt i))
                            acc l) = (List.length acc + List.length l)%nat
             /\ (forallb Ch.alnum acc = true ->
                 forallb Ch.alnum
                   (foldl (fun result i => result ++ charAt chars (random_index rt i))
                      acc l) = true)) as H.
  { induction l as [|i l IH]; intros acc; cbn [foldl].
    - split; [cbn; lia | tauto].
    - destruct (charAt_chars _ (Hr i)) as (c & -> & Hc).
      destruct (IH (acc ++ [c])) as [IH1 IH2]. split.
      + rewrite IH1, length_app. cbn. lia.
      + intros Hacc. apply IH2. rewrite forallb_app, Hacc. cbn. rewrite Hc. reflexivity. }
  destruct (H (seq 0 length) []) as [H1 H2]. split.
  - rewrite H1, length_seq. reflexivity.
  - apply H2. reflexivity.
Qed.

(** ** Runs of the worker *)

Section Runs.
Context {W : Type} (remote : http_request -> W -> option response * W).

Lemma getFromGitHub_run (token owner repo path : jsstr) (w : world W) :
  getFromGitHub remote token owner repo path w =
  let rq := get_request token owner repo path in
  (get_result (remote rq (store w)).1,
   after w (remote rq (store w)).2 [EvFetch rq (remote rq (store w)).1]).
Proof.
  unfold getFromGitHub, bind, fetch, get_request, after. cbn zeta.
  destruct (remote _ (store w)) as [[r|] st]; [|reflexivity].
  cbn [fst snd get_result]. destruct (ok r); cbn [negb].
  - unfold response_json. destruct (resp_body_of r); reflexivity.
  - destruct (resp_status r =? 404)%Z; reflexivity.
Qed.

Lemma put_run (error : Z -> exn) (rq : http_request) (w : world W) :
  bind (fetch remote rq)
    (fun response =>
       if negb (ok response) then throw (error (resp_status response))
       else response_json response) w =
  (put_result error (remote rq (store w)).1,
   after w (remote rq (store w)).2 [EvFetch rq (remote rq (store w)).1]).
Proof.
  unfold bind, fetch, after.
  destruct (remote _ (store w)) as [[r|] st]; [|reflexivity].
  cbn [fst snd put_result]. destruct (ok r); cbn [negb]; [|reflexivity].
  unfold response_json. destruct (resp_body_of r); reflexivity.
Qed.

Lemma uploadToGitHub_run (token owner repo path c message : jsstr) (w : world W) :
  uploadToGitHub remote token owner repo path c message w =
  let rq := put_request token owner repo path message (TextContent c) None in
  (put_result GitHubApiError (remote rq (store w)).1,
   after w (remote rq (store w)).2 [EvFetch rq (remote rq (store w)).1]).
Proof. apply put_run. Qed.

Lemma uploadBinaryToGitHub_run (token owner repo path : jsstr) (c : list N)
    (message : jsstr) (w : world W) :
  uploadBinaryToGitHub remote token owner repo path c message w =
  let rq := put_request token owner repo path message (BinaryContent c) None in
  (put_result GitHubApiError (remote rq (store w)).1,
   after w (remote rq (store w)).2 [EvFetch rq (remote rq (store w)).1]).
Proof. apply put_run. Qed.

Lemma put_manifest_run (token owner repo path message : jsstr) (manifest : json)
    (sha : option jsstr) (w : world W) :
  put_manifest remote token owner repo path message manifest sha w =
  let rq := put_request token owner repo path message (JsonContent manifest) sha in
  (put_result ManifestUpdateError (remote rq (store w)).1,
   after w (remote rq (store w)).2 [EvFetch rq (remote rq (store w)).1]).
Proof. apply put_run. Qed.

(** An update of the manifest: a read, the new manifest, a write. *)
Lemma update_run (k message token owner repo path : jsstr) (x : json)
    (w : world W) :
  (bind (getFromGitHub remote token owner repo path) (fun currentManifest =>
   bind (if gh_truthy currentManifest then
           bind (lift (parse_content currentManifest)) (fun manifest =>
           ret (manifest, sha_of currentManifest))
         else
           ret (JObj [ (js "tools", empty_array); (js "outputs", empty_array) ], None))
     (fun ms =>
   let '(manifest, sha) := ms in
   bind (lift (ensure_array manifest k)) (fun manifest =>
   bind (lift (unshift_in manifest k x)) (fun manifest =>
   put_manifest remote token owner repo path message manifest sha))))) w =
  let rq := get_request token owner repo path in
  let w1 := after w (remote rq (store w)).2 [EvFetch rq (remote rq (store w)).1] in
  match get_result (remote rq (store w)).1 with
  | Throw e => (Throw e, w1)
  | Ok currentManifest =>
      match next_manifest k currentManifest x with
      | Throw e => (Throw e, w1)
      | Ok (manifest, sha) =>
          put_manifest remote token owner repo path message manifest sha w1
      end
  end.
Proof.
  cbn zeta. unfold bind at 1. rewrite getFromGitHub_run. cbn zeta.
  destruct (get_result _) as [cm|e]; [|reflexivity].
  unfold next_manifest, bind, lift, ret.
  destruct (gh_truthy cm).
  - destruct (parse_content cm) as [m|e]; [|reflexivity].
    destruct (ensure_array m k) as [m1|e]; [|reflexivity].
    destruct (unshift_in m1 k x) as [m2|e]; reflexivity.
  - destruct (ensure_array _ k) as [m1|e]; [|reflexivity].
    destruct (unshift_in m1 k x) as [m2|e]; reflexivity.
Qed.

Lemma after_after (w : world W) (st st' : W) (evs evs' : list event) :
  after (after w st evs) st' evs' = after w st' (evs ++ evs').
Proof. unfold after. cbn. rewrite app_assoc. reflexivity. Qed.

Lemma store_after (w : world W) (st : W) (evs : list event) :
  store (after w st evs) = st.
Proof. reflexivity. Qed.

Lemma log_run (ev : event) (w : world W) :
  log ev w = (Ok tt, after w (store w) [ev]).
Proof. reflexivity. Qed.

Lemma internal_error_run (cors : CorsHeaders) (e : exn) (w : world W) :
  internal_error cors e w =
  (Ok (internal_error_reply cors), after w (store w) [EvConsoleError e]).
Proof. reflexivity. Qed.

Lemma handleToolUpload_run (rt : Runtime) (request : Request) (env : Env)
    (cors : CorsHeaders) (w : world W) :
  handleToolUpload remote rt request env cors w =
  tool_upload_cases remote rt request env cors w.
Proof.
  unfold handleToolUpload, tool_upload_cases, try_catch, request_formData.
  unfold bind at 1 2. rewrite log_run.
  destruct (req_form request) as [formData|].
  2:{ unfold throw. rewrite internal_error_run, after_after. reflexivity. }
  unfold ret at 1.
  destruct (uploadInputSchema formData) as [issues|data]; [reflexivity|].
  unfold bind at 1. rewrite uploadToGitHub_run. cbn zeta.
  rewrite !store_after.
  change (sanitizeString (nickname data) 20 ++ js "-"
            ++ sanitizeString (str_replace re_js_suffix false []
                                 (file_name (toolFile data))) 30
            ++ js "-" ++ generateRandomString rt 6 ++ js ".js")
    with (tool_filename rt data).
  set (rq1 := put_request _ _ _ _ _ _ _).
  destruct (put_result GitHubApiError _) as [j1|e].
  2:{ rewrite internal_error_run, !after_after. reflexivity. }
  unfold bind at 1.
  change (updateManifestWithTool remote (GITHUB_TOKEN env) (GITHUB_OWNER env)
            (GITHUB_REPO env) (ACTIVE_WORKSHOP_SLUG env ++ js "/manifest.json")
            ?x)
    with (updateManifestWithTool remote (GITHUB_TOKEN env) (GITHUB_OWNER env)
            (GITHUB_REPO env) (manifest_path env) (tool_entry rt data)).
  unfold updateManifestWithTool. rewrite update_run. cbn zeta.
  rewrite !store_after, !after_after.
  set (rq2 := get_request _ _ _ _).
  destruct (get_result _) as [cm|e].
  2:{ rewrite internal_error_run, !after_after. reflexivity. }
  destruct (next_manifest _ cm _) as [[m sha]|e].
  2:{ rewrite internal_error_run, !after_after. reflexivity. }
  rewrite put_manifest_run. cbn zeta. rewrite !store_after, !after_after.
  set (rq3 := put_request _ _ _ _ _ _ _).
  destruct (put_result ManifestUpdateError _) as [j3|e].
  2:{ rewrite internal_error_run, !after_after. reflexivity. }
  reflexivity.
Qed.

Lemma handleOutputUpload_run (rt : Runtime) (request : Request) (env : Env)
    (cors : CorsHeaders) (w : world W) :
  handleOutputUpload remote rt request env cors w =
  output_upload_cases remote rt request env cors w.
Proof.
  unfold handleOutputUpload, output_upload_cases, try_catch, request_formData.
  unfold bind at 1 2. rewrite log_run.
  destruct (req_form request) as [formData|].
  2:{ unfold throw. rewrite internal_error_run, after_after. reflexivity. }
  unfold ret at 1.
  destruct (uploadOutputSchema formData) as [issues|data]; [reflexivity|].
  unfold bind at 1. rewrite getFromGitHub_run. cbn zeta.
  rewrite !store_after, !after_after.
  change (ACTIVE_WORKSHOP_SLUG env ++ js "/manifest.json") with (manifest_path env).
  set (rq1 := get_request _ _ _ _).
  destruct (get_result _) as [cm|e].
  2:{ rewrite internal_error_run, !after_after. reflexivity. }
  destruct (gh_truthy cm) eqn:Hcm; cbn [negb]; [|reflexivity].
  unfold find_tool, bind at 1, lift at 1.
  destruct (parse_content cm) as [m|e].
  2:{ rewrite internal_error_run, !after_after. reflexivity. }
  unfold bind at 1, lift at 1.
  destruct (get_prop m (js "tools")) as [tools|e].
  2:{ rewrite internal_error_run, !after_after. reflexivity. }
  unfold bind at 1, lift at 1.
  destruct (opt_find_id tools (toolId data)) as [tool|e].
  2:{ rewrite internal_error_run, !after_after. reflexivity. }
  destruct (truthy tool); cbn [negb]; [|reflexivity].
  unfold bind at 1. rewrite uploadBinaryToGitHub_run. cbn zeta.
  rewrite !store_after, !after_after.
  change (sanitizeString (str_replace re_extension false []
                            (file_name (outputFile data))) 30
            ++ js "-" ++ generateRandomString rt 6) with (output_id rt data).
  change (template (assoc (file_type (outputFile data)) mimeToExt))
    with (output_extension data).
  change (output_id rt data ++ js "." ++ output_extension data)
    with (output_filename rt data).
  set (rq2 := put_request _ _ _ _ _ _ _).
  destruct (put_result GitHubApiError _) as [j2|e].
  2:{ rewrite internal_error_run, !after_after. reflexivity. }
  unfold bind at 1, lift at 1.
  destruct (get_prop_opt tool (js "url")) as [toolUrl|e].
  2:{ rewrite internal_error_run, !after_after. reflexivity. }
  unfold bind at 1.
  change (OutputManifestEntry (output_id rt data) (toolId data) toolUrl
            (js "outputs/" ++ output_filename rt data) (now_iso rt))
    with (output_entry rt data toolUrl).
  unfold updateManifestWithOutput. rewrite update_run. cbn zeta.
  rewrite !store_after, !after_after.
  change (get_request (GITHUB_TOKEN env) (GITHUB_OWNER env) (GITHUB_REPO env)
            (manifest_path env)) with rq1.
  destruct (get_result ((remote rq1 (remote rq2 _).2).1)) as [cm'|e].
  2:{ rewrite internal_error_run, !after_after. reflexivity. }
  destruct (next_manifest _ cm' _) as [[m' sha]|e].
  2:{ rewrite internal_error_run, !after_after. reflexivity. }
  rewrite put_manifest_run. cbn zeta. rewrite !store_after, !after_after.
  set (rq4 := put_request _ _ _ _ _ _ _).
  destruct (put_result ManifestUpdateError _) as [j4|e].
  2:{ rewrite internal_error_run, !after_after. reflexivity. }
  reflexivity.
Qed.

End Runs.

(** ** Validation *)

Lemma z_string_min1_trim_cases (path message : string) (v : option entry) :
  (text_field_ok v = true /\ exists x, z_string_min1_trim path message v = inr x)
  \/ (text_field_ok v = false
      /\ exists i, z_string_min1_trim path message v = inl [i] /\ issue_path i = js path).
Proof.
  destruct v as [[s|f]|]; cbn [z_string_min1_trim text_field_ok].
  - destruct s as [|c s]; cbn.
    + right. split; [reflexivity|]. eexists. split; reflexivity.
    + left. split; [reflexivity|]. eexists. reflexivity.
  - right. split; [reflexivity|]. eexists. split; reflexivity.
  - right. split; [reflexivity|]. eexists. split; reflexivity.
Qed.

Lemma z_file_cases (path message message' : string) (check : File -> bool)
    (v : option entry) :
  (exists f, v = Some (FFile f) /\ check f = true
             /\ z_file path message check message' v = inr f)
  \/ ((forall f, v = Some (FFile f) -> check f = false)
      /\ exists i, z_file path message check message' v = inl [i]
                   /\ issue_path i = js path).
Proof.
  destruct v as [[s|f]|]; cbn [z_file].
  - right. split; [discriminate|]. eexists. split; reflexivity.
  - destruct (check f) eqn:E.
    + left. exists f. repeat split. exact E.
    + right. split; [intros ? [= <-]; exact E|]. eexists. split; reflexivity.
  - right. split; [discriminate|]. eexists. split; reflexivity.
Qed.

Lemma script_field_ok_cases (v : option entry) :
  script_field_ok v = true <->
  exists f, v = Some (FFile f) /\ endsWith (file_name f) (js ".js") = true.
Proof.
  destruct v as [[s|f]|]; cbn [script_field_ok]; split;
    try discriminate; try (intros (? & [=] & _); fail).
  - intros H. exists f. split; [reflexivity | exact H].
  - intros (f' & [= <-] & H). exact H.
Qed.

(** The schema accepts a form when no field fails, and otherwise reports the
    failing fields, each once, in the order of the schema. *)
Lemma uploadInputSchema_issues (formData : FormData) :
  match uploadInputSchema formData with
  | inl issues =>
      map issue_path issues = failing_fields formData /\ failing_fields formData <> []
  | inr _ => failing_fields formData = []
  end.
Proof.
  unfold uploadInputSchema, failing_fields. cbn [List.filter].
  destruct (z_string_min1_trim_cases "toolName" "Tool name is required"
              (form_get formData (js "toolName"))) as [[-> [x1 ->]]|[-> (i1 & -> & P1)]];
  destruct (z_string_min1_trim_cases "toolDescription" "Description is required"
              (form_get formData (js "toolDescription"))) as [[-> [x2 ->]]|[-> (i2 & -> & P2)]];
  destruct (z_string_min1_trim_cases "nickname" "Nickname is required"
              (form_get formData (js "nickname"))) as [[-> [x3 ->]]|[-> (i3 & -> & P3)]];
  destruct (z_string_min1_trim_cases "modelUsed" "Model used is required"
              (form_get formData (js "modelUsed"))) as [[-> [x4 ->]]|[-> (i4 & -> & P4)]];
  (destruct (z_file_cases "toolFile" "A JavaScript file is required"
               "File must be a JavaScript file (.js)"
               (fun file => endsWith (file_name file) (js ".js"))
               (form_get formData (js "toolFile")))
     as [(f & Hf & Hc & ->)|[Hno (i5 & -> & P5)]];
   [ assert (script_field_ok (form_get formData (js "toolFile")) = true) as ->
       by (apply script_field_ok_cases; eauto)
   | assert (script_field_ok (form_get formData (js "toolFile")) = false) as ->
       by (destruct (script_field_ok _) eqn:E; [|reflexivity];
           apply script_field_ok_cases in E as (f & Hf & Hc);
           rewrite (Hno f Hf) in Hc; discriminate) ]);
  cbn [negb issues_of app map];
  rewrite ?P1, ?P2, ?P3, ?P4, ?P5;
  first [ reflexivity | split; [reflexivity | discriminate] ].
Qed.

(** ** Dispatch *)

Section Dispatch.
Context {W : Type} (remote : http_request -> W -> option response * W).

Lemma default_fetch_post (rt : Runtime) (request : Request) (env : Env) (w : world W) :
  req_method request = js "POST" ->
  default [] (req_origin request) = ALLOWED_ORIGIN env ->
  default_fetch remote rt request env w =
  if bool_decide (req_pathname request = js "/upload/tool") then
    handleToolUpload remote rt request env (corsHeaders_of env) w
  else if bool_decide (req_pathname request = js "/upload/output") then
    handleOutputUpload remote rt request env (corsHeaders_of env) w
  else
    (Ok (jsonResponse (MessageBody (js "Not found")) 404 (corsHeaders_of env)), w).
Proof.
  intros Hm Ho. unfold default_fetch. rewrite Hm, Ho.
  rewrite (bool_decide_eq_false_2 (js "POST" = js "OPTIONS")) by discriminate.
  rewrite (bool_decide_eq_true_2 (js "POST" = js "POST")) by reflexivity.
  rewrite (bool_decide_eq_true_2 (ALLOWED_ORIGIN env = ALLOWED_ORIGIN env)) by reflexivity.
  cbn [negb].
  destruct (bool_decide (req_pathname request = js "/upload/tool")); [reflexivity|].
  destruct (bool_decide (req_pathname request = js "/upload/output")); reflexivity.
Qed.




End Dispatch.




(** ** Validation failures *)

(** C6.  A tool upload whose form has one or more fields that are not valid
    is answered 400 with a list of issues that names every failing field,
    each once and in the order of the schema; the trace gains the parsing of
    the form and nothing else, and the store is left as it was. *)
Theorem invalid_tool_upload {W : Type}
    (remote : http_request -> W -> option response * W)
    (rt : Runtime) (request : Request) (env : Env) (w : world W)
    (formData : FormData)
    (Hmethod : req_method request = js "POST")
    (Horigin : default [] (req_origin request) = ALLOWED_ORIGIN env)
    (Hpath : req_pathname request = js "/upload/tool")
    (Hform : req_form request = Some formData)
    (Hinvalid : failing_fields formData <> []) :
  exists issues,
    default_fetch remote rt request env w =
    (Ok (jsonResponse (IssuesBody issues) 400 (corsHeaders_of env)),
     after w (store w) [EvFormData])
    /\ map issue_path issues = failing_fields formData.
Proof.
  rewrite (default_fetch_post remote rt request env w Hmethod Horigin).
  rewrite (bool_decide_eq_true_2 _ Hpath), handleToolUpload_run.
  unfold tool_upload_cases. rewrite Hform.
  pose proof (uploadInputSchema_issues formData) as Hv.
  destruct (uploadInputSchema formData) as [issues|data].
  - exists issues. split; [reflexivity | apply Hv].
  - contradiction.
Qed.

Lemma invalid_tool_upload_witness :
  exists issues,
    default_fetch GitHub.serve Example.rt
      (Example.post "/upload/tool" Example.bad_tool_form) Example.env
      (Example.start Example.empty_store) =
    (Ok (jsonResponse (IssuesBody issues) 400 (corsHeaders_of Example.env)),
     after (Example.start Example.empty_store) Example.empty_store [EvFormData])
    /\ map issue_path issues = [js "toolDescription"; js "nickname"; js "toolFile"].
Proof.
  apply (invalid_tool_upload GitHub.serve Example.rt
           (Example.post "/upload/tool" Example.bad_tool_form) Example.env
           (Example.start Example.empty_store) Example.bad_tool_form);
    try reflexivity.
  vm_compute. discriminate.
Defined.

(** ** Properties of objects and the update of the manifest *)

Lemma assoc_set_same {A : Type} (k : jsstr) (v : A) (l : list (jsstr * A)) :
  assoc k (assoc_set k v l) = Some v.
Proof.
  induction l as [|[k' v'] l IH]; cbn [assoc_set assoc].
  - rewrite bool_decide_eq_true_2 by reflexivity. reflexivity.
  - destruct (bool_decide (k' = k)) eqn:E; cbn [assoc].
    + rewrite bool_decide_eq_true_2 by reflexivity. reflexivity.
    + rewrite E. exact IH.
Qed.

Lemma assoc_set_other {A : Type} (k k' : jsstr) (v : A) (l : list (jsstr * A)) :
  k' <> k -> assoc k' (assoc_set k v l) = assoc k' l.
Proof.
  intros Hne. induction l as [|[k0 v0] l IH]; cbn [assoc_set assoc].
  - rewrite bool_decide_eq_false_2 by congruence. reflexivity.
  - destruct (bool_decide (k0 = k)) eqn:E; cbn [assoc].
    + apply bool_decide_eq_true_1 in E. subst k0.
      rewrite !bool_decide_eq_false_2 by congruence. reflexivity.
    + destruct (bool_decide (k0 = k')); [reflexivity | exact IH].
Qed.

Lemma assoc_set_absent {A : Type} (k : jsstr) (v : A) (l : list (jsstr * A)) :
  assoc k l = None -> assoc_set k v l = l ++ [(k, v)].
Proof.
  induction l as [|[k' v'] l IH]; [reflexivity|].
  cbn [assoc assoc_set app]. destruct (bool_decide (k' = k)); [discriminate|].
  intros H. rewrite (IH H). reflexivity.
Qed.

(** The update of an object: the array under [k], made up when [k] holds
    nothing truthy, gets [x] in front; no other field changes. *)
Lemma update_object (k : jsstr) (fields : list (jsstr * json)) (x manifest1 manifest2 : json) :
  ensure_array (JObj fields) k = Ok manifest1 ->
  unshift_in manifest1 k x = Ok manifest2 ->
  is_object manifest2 = true
  /\ array_of manifest2 k = x :: array_of (JObj fields) k
  /\ (forall k', k' <> k -> field_of manifest2 k' = field_of (JObj fields) k').
Proof.
  unfold ensure_array, unshift_in. cbn [get_prop array_of field_of].
  destruct (truthy (assoc k fields)) eqn:Ht; cbn [negb set_prop].
  - intros [= <-]. cbn [get_prop].
    destruct (assoc k fields) as [[| | | |items ps|]|]; cbn [unshift]; try discriminate.
    intros [= <-]. cbn [is_object array_of field_of].
    rewrite assoc_set_same. repeat split.
    intros k' Hne. apply assoc_set_other. exact Hne.
  - intros [= <-]. cbn [get_prop]. rewrite assoc_set_same. cbn [unshift set_prop].
    intros [= <-]. cbn [is_object array_of field_of].
    rewrite assoc_set_same. repeat split.
    + destruct (assoc k fields) as [[| | | |items ps|]|]; try reflexivity; discriminate.
    + intros k' Hne. rewrite !assoc_set_other by exact Hne. reflexivity.
Qed.

Lemma next_manifest_sha (k : jsstr) (cm : ghjson) (x manifest : json)
    (sha : option jsstr) :
  next_manifest k cm x = Ok (manifest, sha) -> sha = sha_of cm.
Proof.
  unfold next_manifest.
  destruct cm as [[m|] s| |]; cbn [gh_truthy parse_content sha_of]; try discriminate.
  - destruct (ensure_array m k) as [m1|]; [|discriminate].
    destruct (unshift_in m1 k x); [|discriminate]. intros [= _ <-]. reflexivity.
  - destruct (ensure_array _ k) as [m1|]; [|discriminate].
    destruct (unshift_in m1 k x); [|discriminate]. intros [= _ <-]. reflexivity.
Qed.

Lemma next_manifest_object (k : jsstr) (cm : ghjson) (x manifest : json)
    (sha : option jsstr) :
  next_manifest k cm x = Ok (manifest, sha) ->
  is_object (manifest_read cm) = true ->
  is_object manifest = true
  /\ array_of manifest k = x :: array_of (manifest_read cm) k
  /\ (forall k', k' <> k -> field_of manifest k' = field_of (manifest_read cm) k').
Proof.
  unfold next_manifest.
  destruct cm as [[m|] s| |]; cbn [gh_truthy parse_content manifest_read];
    try discriminate.
  - destruct m as [| | | | |fields]; try discriminate.
    destruct (ensure_array (JObj fields) k) as [m1|] eqn:E1; [|discriminate].
    destruct (unshift_in m1 k x) as [m2|] eqn:E2; [|discriminate].
    intros [= <- _] _. exact (update_object k fields x m1 m2 E1 E2).
  - destruct (ensure_array _ k) as [m1|] eqn:E1; [|discriminate].
    destruct (unshift_in m1 k x) as [m2|] eqn:E2; [|discriminate].
    intros [= <- _] _. exact (update_object k _ x m1 m2 E1 E2).
Qed.

(** Whatever the manifest is, an update that goes through has put [x] in
    front of the array under [k]. *)
Lemma next_manifest_front (k : jsstr) (cm : ghjson) (x manifest : json)
    (sha : option jsstr) :
  next_manifest k cm x = Ok (manifest, sha) ->
  exists rest props, get_prop manifest k = Ok (Some (JArr (x :: rest) props)).
Proof.
  unfold next_manifest.
  assert (forall m, match ensure_array m k with
                    | Throw e => Throw e
                    | Ok m1 => match unshift_in m1 k x with
                               | Throw e => Throw e
                               | Ok m2 => Ok (m2, sha)
                               end
                    end = Ok (manifest, sha) ->
                    exists rest props,
                      get_prop manifest k = Ok (Some (JArr (x :: rest) props))) as Hgen.
  { intros m. unfold ensure_array, unshift_in.
    destruct m as [| | | |items ps|fields]; cbn [get_prop]; try discriminate.
    - destruct (truthy (assoc k ps)) eqn:Ht; cbn [negb set_prop get_prop].
      + destruct (assoc k ps) as [[| | | |its ps'|]|]; cbn [unshift]; try discriminate.
        cbn [set_prop]. intros [= <-]. cbn [get_prop]. rewrite assoc_set_same. eauto.
      + rewrite assoc_set_same. cbn [unshift set_prop].
        intros [= <-]. cbn [get_prop]. rewrite assoc_set_same. eauto.
    - destruct (truthy (assoc k fields)) eqn:Ht; cbn [negb set_prop get_prop].
      + destruct (assoc k fields) as [[| | | |its ps'|]|]; cbn [unshift]; try discriminate.
        cbn [set_prop]. intros [= <-]. cbn [get_prop]. rewrite assoc_set_same. eauto.
      + rewrite assoc_set_same. cbn [unshift set_prop].
        intros [= <-]. cbn [get_prop]. rewrite assoc_set_same. eauto. }
  destruct cm as [[m|] s| |]; cbn [gh_truthy parse_content]; try discriminate.
  - destruct (ensure_array m k) as [m1|] eqn:E1; [|discriminate].
    intros H. apply (Hgen m). rewrite E1.
    destruct (unshift_in m1 k x); [|discriminate].
    injection H as <- _. reflexivity.
  - set (m0 := JObj _).
    destruct (ensure_array m0 k) as [m1|] eqn:E1; [|discriminate].
    intros H. apply (Hgen m0). rewrite E1.
    destruct (unshift_in m1 k x); [|discriminate].
    injection H as <- _. reflexivity.
Qed.

(** ** Calls that fail *)

Lemma put_result_failed (error : Z -> exn) (rq : http_request) (answer : option response) :
  rq_method rq = PUT ->
  failed rq answer = match put_result error answer with Ok _ => false | Throw _ => true end.
Proof.
  intros Hm. unfold failed, put_result. rewrite Hm.
  destruct answer as [r|]; [|reflexivity].
  destruct (ok r); [|reflexivity]. destruct (resp_body_of r); reflexivity.
Qed.

Lemma get_result_failed (rq : http_request) (answer : option response) :
  rq_method rq = GET ->
  failed rq answer = match get_result answer with Ok _ => false | Throw _ => true end.
Proof.
  intros Hm. unfold failed, get_result. rewrite Hm.
  destruct answer as [r|]; [|reflexivity].
  destruct (ok r); [destruct (resp_body_of r); reflexivity|].
  destruct (resp_status r =? 404)%Z; reflexivity.
Qed.

Lemma put_request_failed (error : Z -> exn) (token owner repo path message : jsstr)
    (c : content) (sha : option jsstr) (answer : option response) :
  failed (put_request token owner repo path message c sha) answer =
  match put_result error answer with Ok _ => false | Throw _ => true end.
Proof. apply put_result_failed. reflexivity. Qed.

Lemma get_request_failed (token owner repo path : jsstr) (answer : option response) :
  failed (get_request token owner repo path) answer =
  match get_result answer with Ok _ => false | Throw _ => true end.
Proof. apply get_result_failed. reflexivity. Qed.

Lemma array_of_field (manifest : json) (k : jsstr) :
  array_of manifest k =
  match field_of manifest k with Some (JArr items _) => items | _ => [] end.
Proof. destruct manifest; reflexivity. Qed.

(** ** A tool upload that succeeds *)

Ltac dead_branch H Hok :=
  injection H as <- _; cbn in Hok; discriminate Hok.

Lemma tool_upload_success {W : Type}
    (remote : http_request -> W -> option response * W)
    (rt : Runtime) (request : Request) (env : Env) (cors : CorsHeaders)
    (w w' : world W) (reply : Reply) :
  handleToolUpload remote rt request env cors w = (Ok reply, w') ->
  reply_status reply = 200%Z ->
  exists formData data a1 a2 currentManifest manifest a3,
    let token := GITHUB_TOKEN env in
    let owner := GITHUB_OWNER env in
    let repo := GITHUB_REPO env in
    let rq1 := put_request token owner repo
                 (ACTIVE_WORKSHOP_SLUG env ++ js "/tools/" ++ tool_filename rt data)
                 (js "Add sketch by " ++ nickname data)
                 (TextContent (file_text (toolFile data))) None in
    let rq2 := get_request token owner repo (manifest_path env) in
    let rq3 := put_request token owner repo (manifest_path env)
                 (js "Update manifest with new tool") (JsonContent manifest)
                 (sha_of currentManifest) in
    req_form request = Some formData
    /\ uploadInputSchema formData = inr data
    /\ trace w' = trace w ++ [EvFormData; EvFetch rq1 a1; EvFetch rq2 a2; EvFetch rq3 a3]
    /\ failed rq1 a1 = false
    /\ get_result a2 = Ok currentManifest
    /\ next_manifest (js "tools") currentManifest (tool_entry rt data)
       = Ok (manifest, sha_of currentManifest)
    /\ failed rq3 a3 = false
    /\ reply = jsonResponse (SuccessBody (tool_filename rt data) (galleryUrl_of env))
                 200 cors.
Proof.
  intros Hrun Hok. rewrite handleToolUpload_run in Hrun.
  unfold tool_upload_cases in Hrun. cbn zeta in Hrun.
  destruct (req_form request) as [formData|]; [|dead_branch Hrun Hok].
  destruct (uploadInputSchema formData) as [issues|data] eqn:Hv;
    [dead_branch Hrun Hok|].
  destruct (put_result GitHubApiError _) as [j1|] eqn:H1; [|dead_branch Hrun Hok].
  destruct (get_result _) as [cm|] eqn:H2; [|dead_branch Hrun Hok].
  destruct (next_manifest _ cm _) as [[m sha]|] eqn:H3; [|dead_branch Hrun Hok].
  destruct (put_result ManifestUpdateError _) as [j3|] eqn:H4; [|dead_branch Hrun Hok].
  injection Hrun as <- <-.
  pose proof (next_manifest_sha _ _ _ _ _ H3) as ->.
  match type of H1 with put_result _ ?a1 = _ =>
  match type of H2 with get_result ?a2 = _ =>
  match type of H4 with put_result _ ?a3 = _ =>
    exists formData, data, a1, a2, cm, m, a3
  end end end.
  cbn zeta. repeat split; try reflexivity.
  - exact Hv.
  - rewrite (put_request_failed GitHubApiError), H1. reflexivity.
  - exact H2.
  - exact H3.
  - rewrite (put_request_failed ManifestUpdateError), H4. reflexivity.
Qed.

(** C3.  A tool upload that is answered 200 has made three calls: the write
    of the payload, the read of the manifest, and the write of the manifest
    with the token that was read.  The entry it adds has the id
    [sanitize(nickname, 20)-sanitize(name without .js, 30)-generateId(6)].
    When what was read is an object, or there was no file, the [tools] array
    that is written is the one that was read (empty when there was none) with
    the new entry in front, and [outputs] and every other field are as they
    were read. *)
Theorem tool_upload_prepends {W : Type}
    (remote : http_request -> W -> option response * W)
    (rt : Runtime) (request : Request) (env : Env) (w w' : world W) (reply : Reply)
    (Hmethod : req_method request = js "POST")
    (Horigin : default [] (req_origin request) = ALLOWED_ORIGIN env)
    (Hpath : req_pathname request = js "/upload/tool")
    (Hrun : default_fetch remote rt request env w = (Ok reply, w'))
    (Hok : reply_status reply = 200%Z) :
  exists formData data rq1 a1 a2 currentManifest manifest a3,
    let rq2 := get_request (GITHUB_TOKEN env) (GITHUB_OWNER env) (GITHUB_REPO env)
                 (manifest_path env) in
    let rq3 := put_request (GITHUB_TOKEN env) (GITHUB_OWNER env) (GITHUB_REPO env)
                 (manifest_path env) (js "Update manifest with new tool")
                 (JsonContent manifest) (sha_of currentManifest) in
    let stored := manifest_read currentManifest in
    let newTool := tool_entry rt data in
    req_form request = Some formData
    /\ uploadInputSchema formData = inr data
    /\ trace w' = trace w ++ [EvFormData; EvFetch rq1 a1; EvFetch rq2 a2; EvFetch rq3 a3]
    /\ get_result a2 = Ok currentManifest
    /\ failed rq3 a3 = false
    /\ field_of newTool (js "id")
       = Some (JStr (sanitizeString (nickname data) 20 ++ js "-"
                       ++ sanitizeString
                            (str_replace re_js_suffix false []
                               (file_name (toolFile data))) 30
                       ++ js "-" ++ generateRandomString rt 6))
    /\ (is_object stored = true ->
        array_of manifest (js "tools") = newTool :: array_of stored (js "tools")
        /\ array_of manifest (js "outputs") = array_of stored (js "outputs")
        /\ forall k, k <> js "tools" -> field_of manifest k = field_of stored k).
Proof.
  rewrite (default_fetch_post remote rt request env w Hmethod Horigin) in Hrun.
  rewrite (bool_decide_eq_true_2 _ Hpath) in Hrun.
  destruct (tool_upload_success remote rt request env _ w w' reply Hrun Hok)
    as (formData & data & a1 & a2 & cm & m & a3 & H).
  cbn zeta in H. destruct H as (Hf & Hv & Ht & _ & Hg & Hn & Hp & _).
  eexists formData, data, _, a1, a2, cm, m, a3. cbn zeta.
  repeat split; try eassumption; try reflexivity.
  - apply (next_manifest_object _ _ _ _ _ Hn H).
  - destruct (next_manifest_object _ _ _ _ _ Hn H) as (_ & _ & Hk).
    rewrite !array_of_field, Hk by discriminate. reflexivity.
  - apply (next_manifest_object _ _ _ _ _ Hn H).
Qed.

(** ** An output upload that succeeds *)

Lemma output_upload_success {W : Type}
    (remote : http_request -> W -> option response * W)
    (rt : Runtime) (request : Request) (env : Env) (cors : CorsHeaders)
    (w w' : world W) (reply : Reply) :
  handleOutputUpload remote rt request env cors w = (Ok reply, w') ->
  reply_status reply = 200%Z ->
  exists formData data a1 found tool a2 toolUrl a3 currentManifest manifest a4,
    let token := GITHUB_TOKEN env in
    let owner := GITHUB_OWNER env in
    let repo := GITHUB_REPO env in
    let rq1 := get_request token owner repo (manifest_path env) in
    let rq2 := put_request token owner repo
                 (ACTIVE_WORKSHOP_SLUG env ++ js "/outputs/" ++ output_filename rt data)
                 (js "Add output for " ++ toolId data)
                 (BinaryContent (file_bytes (outputFile data))) None in
    let rq4 := put_request token owner repo (manifest_path env)
                 (js "Update manifest with new output") (JsonContent manifest)
                 (sha_of currentManifest) in
    req_form request = Some formData
    /\ uploadOutputSchema formData = inr data
    /\ trace w' = trace w ++ [EvFormData; EvFetch rq1 a1; EvFetch rq2 a2;
                              EvFetch rq1 a3; EvFetch rq4 a4]
    /\ get_result a1 = Ok found
    /\ find_tool found (toolId data) = Ok (Some tool)
    /\ failed rq2 a2 = false
    /\ get_prop tool (js "url") = Ok toolUrl
    /\ get_result a3 = Ok currentManifest
    /\ next_manifest (js "outputs") currentManifest (output_entry rt data toolUrl)
       = Ok (manifest, sha_of currentManifest)
    /\ failed rq4 a4 = false
    /\ reply = jsonResponse (SuccessBody (output_filename rt data) (galleryUrl_of env))
                 200 cors.
Proof.
  intros Hrun Hok. rewrite handleOutputUpload_run in Hrun.
  unfold output_upload_cases in Hrun. cbn zeta in Hrun.
  destruct (req_form request) as [formData|]; [|dead_branch Hrun Hok].
  destruct (uploadOutputSchema formData) as [issues|data] eqn:Hv;
    [dead_branch Hrun Hok|].
  destruct (get_result _) as [found|] eqn:H1; [|dead_branch Hrun Hok].
  destruct (gh_truthy found); cbn [negb] in Hrun; [|dead_branch Hrun Hok].
  destruct (find_tool found (toolId data)) as [tool|] eqn:Hfind;
    [|dead_branch Hrun Hok].
  destruct (truthy tool) eqn:Htool; cbn [negb] in Hrun; [|dead_branch Hrun Hok].
  destruct tool as [tool|]; [|discriminate Htool].
  destruct (put_result GitHubApiError _) as [j2|] eqn:H2; [|dead_branch Hrun Hok].
  cbn [get_prop_opt] in Hrun.
  destruct (get_prop tool (js "url")) as [toolUrl|] eqn:Hurl; [|dead_branch Hrun Hok].
  destruct (get_result _) as [cm|] eqn:H3 in Hrun; [|dead_branch Hrun Hok].
  destruct (next_manifest _ cm _) as [[m sha]|] eqn:Hn; [|dead_branch Hrun Hok].
  destruct (put_result ManifestUpdateError _) as [j4|] eqn:H4; [|dead_branch Hrun Hok].
  injection Hrun as <- <-.
  pose proof (next_manifest_sha _ _ _ _ _ Hn) as ->.
  match type of H1 with get_result ?a1 = _ =>
  match type of H2 with put_result _ ?a2 = _ =>
  match type of H3 with get_result ?a3 = _ =>
  match type of H4 with put_result _ ?a4 = _ =>
    exists formData, data, a1, found, tool, a2, toolUrl, a3, cm, m, a4
  end end end end.
  cbn zeta. repeat split; try reflexivity; try assumption.
  - rewrite (put_request_failed GitHubApiError), H2. reflexivity.
  - rewrite (put_request_failed ManifestUpdateError), H4. reflexivity.
Qed.

Lemma validated_extension (formData : FormData) (data : UploadOutput) :
  uploadOutputSchema formData = inr data ->
  exists ext, assoc (file_type (outputFile data)) mimeToExt = Some ext.
Proof.
  unfold uploadOutputSchema.
  destruct (z_string_min1 _ _ _) as [?|a]; [destruct (z_file _ _ _ _ _); discriminate|].
  destruct (z_file_cases "outputFile" "An image file is required"
              "File must be an image (PNG, JPEG, WebP, or GIF)"
              (fun file => bool_decide (file_type file ∈ image_types))
              (form_get formData (js "outputFile")))
    as [(f & _ & Hc & ->)|[_ (i & -> & _)]]; [|discriminate].
  intros [= <-]. cbn [outputFile].
  apply bool_decide_eq_true_1 in Hc. unfold image_types in Hc.
  rewrite !elem_of_cons in Hc.
  destruct Hc as [->|[->|[->|[->|Hc]]]]; [eexists; reflexivity ..|].
  apply elem_of_nil in Hc. contradiction.
Qed.

Lemma tool_filename_id (rt : Runtime) (data : UploadInput) :
  tool_filename rt data = tool_id rt data ++ js ".js".
Proof. unfold tool_filename, tool_id. rewrite <- !app_assoc. reflexivity. Qed.

(** C10.  The names of a successful upload agree.  For a tool, the file name
    in the answer is the id of the manifest entry followed by [.js]; for an
    output, by a dot and the extension the table gives for the media type.
    The entry's url is [tools/] (or [outputs/]) followed by that file name,
    and the payload is stored under the namespace at that same path.  The
    entry is the one the update puts in front of the array. *)
Theorem upload_names_cohere {W : Type}
    (remote : http_request -> W -> option response * W)
    (rt : Runtime) (request : Request) (env : Env) (cors : CorsHeaders)
    (w w' : world W) (reply : Reply)
    (Hok : reply_status reply = 200%Z) :
  (handleToolUpload remote rt request env cors w = (Ok reply, w') ->
   exists id filename newTool rq1 a1 rq2 a2 manifest sha a3 rest props,
     filename = id ++ js ".js"
     /\ reply_body_of reply = SuccessBody filename (galleryUrl_of env)
     /\ field_of newTool (js "id") = Some (JStr id)
     /\ field_of newTool (js "url") = Some (JStr (js "tools/" ++ filename))
     /\ trace w' = trace w ++ [EvFormData; EvFetch rq1 a1; EvFetch rq2 a2;
           EvFetch (put_request (GITHUB_TOKEN env) (GITHUB_OWNER env) (GITHUB_REPO env)
                      (manifest_path env) (js "Update manifest with new tool")
                      (JsonContent manifest) sha) a3]
     /\ rq_method rq1 = PUT
     /\ rq_url rq1 = contents_url (GITHUB_OWNER env) (GITHUB_REPO env)
                       (ACTIVE_WORKSHOP_SLUG env ++ js "/tools/" ++ filename)
     /\ get_prop manifest (js "tools") = Ok (Some (JArr (newTool :: rest) props)))
  /\ (handleOutputUpload remote rt request env cors w = (Ok reply, w') ->
      exists formData data id ext filename newOutput rq1 a1 rq2 a2 rq3 a3
             manifest sha a4 rest props,
        req_form request = Some formData
        /\ uploadOutputSchema formData = inr data
        /\ assoc (file_type (outputFile data)) mimeToExt = Some ext
        /\ filename = id ++ js "." ++ ext
        /\ reply_body_of reply = SuccessBody filename (galleryUrl_of env)
        /\ field_of newOutput (js "id") = Some (JStr id)
        /\ field_of newOutput (js "url") = Some (JStr (js "outputs/" ++ filename))
        /\ trace w' = trace w ++ [EvFormData; EvFetch rq1 a1; EvFetch rq2 a2;
              EvFetch rq3 a3;
              EvFetch (put_request (GITHUB_TOKEN env) (GITHUB_OWNER env)
                         (GITHUB_REPO env) (manifest_path env)
                         (js "Update manifest with new output")
                         (JsonContent manifest) sha) a4]
        /\ rq_method rq2 = PUT
        /\ rq_url rq2 = contents_url (GITHUB_OWNER env) (GITHUB_REPO env)
                          (ACTIVE_WORKSHOP_SLUG env ++ js "/outputs/" ++ filename)
        /\ get_prop manifest (js "outputs") = Ok (Some (JArr (newOutput :: rest) props))).
Proof.
  split; intros Hrun.
  - destruct (tool_upload_success remote rt request env cors w w' reply Hrun Hok)
      as (formData & data & a1 & a2 & cm & m & a3 & H).
    cbn zeta in H. destruct H as (_ & _ & Ht & _ & _ & Hn & _ & ->).
    destruct (next_manifest_front _ _ _ _ _ Hn) as (rest & props & Hfront).
    exists (tool_id rt data), (tool_filename rt data), (tool_entry rt data).
    do 9 eexists.
    split; [apply tool_filename_id|].
    split; [reflexivity|]. split; [reflexivity|]. split; [reflexivity|].
    split; [exact Ht|]. split; [reflexivity|]. split; [reflexivity|]. exact Hfront.
  - destruct (output_upload_success remote rt request env cors w w' reply Hrun Hok)
      as (formData & data & a1 & found & tool & a2 & toolUrl & a3 & cm & m & a4 & H).
    cbn zeta in H.
    destruct H as (Hf & Hv & Ht & _ & _ & _ & _ & _ & Hn & _ & ->).
    destruct (next_manifest_front _ _ _ _ _ Hn) as (rest & props & Hfront).
    destruct (validated_extension _ _ Hv) as [ext Hext].
    exists formData, data, (output_id rt data), ext, (output_filename rt data),
      (output_entry rt data toolUrl).
    do 11 eexists.
    split; [exact Hf|]. split; [exact Hv|]. split; [exact Hext|].
    split; [unfold output_filename, output_extension; rewrite Hext; reflexivity|].
    split; [reflexivity|].
    split; [destruct toolUrl; reflexivity|].
    split; [destruct toolUrl; reflexivity|].
    split; [exact Ht|]. split; [reflexivity|]. split; [reflexivity|]. exact Hfront.
Qed.

(** ** An output upload for a tool that is not there *)

Lemma array_find_id_none (toolId : jsstr) (items : list json) :
  forallb is_object items = true ->
  existsb (has_id toolId) items = false ->
  array_find_id items toolId = Ok None.
Proof.
  induction items as [|t items IH]; [reflexivity|].
  cbn [forallb existsb array_find_id].
  intros [Ht Hits]%andb_true_iff [Hid Hids]%orb_false_iff.
  destruct t as [| | | | |fields]; try discriminate Ht.
  cbn [get_prop has_id] in *. rewrite Hid. exact (IH Hits Hids).
Qed.

Lemma find_tool_none (manifest : json) (sha : option jsstr) (toolId : jsstr) :
  manifest_shaped manifest = true ->
  existsb (has_id toolId) (array_of manifest (js "tools")) = false ->
  find_tool (FileJson (Some manifest) sha) toolId = Ok None.
Proof.
  unfold find_tool. cbn [parse_content].
  destruct manifest as [| | | | |fields]; try discriminate.
  cbn [manifest_shaped array_of get_prop].
  destruct (assoc (js "tools") fields) as [[| | | |items ps|]|]; try discriminate.
  - cbn [opt_find_id]. apply array_find_id_none.
  - reflexivity.
Qed.

(** C4.  An output upload that passes validation reads the manifest first.
    When there is no manifest file (the read is answered 404) the answer is
    404 "Manifest not found"; when the manifest is there and none of its
    tools has the submitted id, the answer is 404 "Tool not found".  In both
    cases the read is the only call made to the store: no payload is
    written and no manifest is written. *)
Theorem output_upload_not_found {W : Type}
    (remote : http_request -> W -> option response * W)
    (rt : Runtime) (request : Request) (env : Env) (w : world W)
    (formData : FormData) (data : UploadOutput)
    (Hmethod : req_method request = js "POST")
    (Horigin : default [] (req_origin request) = ALLOWED_ORIGIN env)
    (Hpath : req_pathname request = js "/upload/output")
    (Hform : req_form request = Some formData)
    (Hvalid : uploadOutputSchema formData = inr data) :
  let rq := get_request (GITHUB_TOKEN env) (GITHUB_OWNER env) (GITHUB_REPO env)
              (manifest_path env) in
  let answer := (remote rq (store w)).1 in
  let w1 := after w (remote rq (store w)).2 [EvFormData; EvFetch rq answer] in
  ((exists r, answer = Some r /\ resp_status r = 404%Z) ->
   default_fetch remote rt request env w =
   (Ok (jsonResponse (MessageBody (js "Manifest not found")) 404 (corsHeaders_of env)),
    w1))
  /\ (forall r manifest sha,
        answer = Some r -> ok r = true ->
        resp_body_of r = JsonBody (FileJson (Some manifest) sha) ->
        manifest_shaped manifest = true ->
        existsb (has_id (toolId data)) (array_of manifest (js "tools")) = false ->
        default_fetch remote rt request env w =
        (Ok (jsonResponse (MessageBody (js "Tool not found")) 404 (corsHeaders_of env)),
         w1)).
Proof.
  cbn zeta.
  assert (Hne : req_pathname request <> js "/upload/tool")
    by (rewrite Hpath; discriminate).
  rewrite (default_fetch_post remote rt request env w Hmethod Horigin).
  rewrite (bool_decide_eq_false_2 _ Hne), (bool_decide_eq_true_2 _ Hpath).
  rewrite handleOutputUpload_run. unfold output_upload_cases.
  rewrite Hform, Hvalid. cbn zeta. split.
  - intros (r & -> & H404). unfold get_result, ok. rewrite H404. reflexivity.
  - intros r manifest sha -> Hok Hbody Hshape Hnone.
    unfold get_result. rewrite Hok, Hbody. cbn [gh_truthy negb].
    rewrite (find_tool_none _ _ _ Hshape Hnone). reflexivity.
Qed.

(** ** Failures *)

Ltac failed_known :=
  repeat match goal with
         | H : put_result ?err ?a = _
           |- context [failed (put_request ?t ?o ?r ?p ?m ?c ?s) ?a] =>
             rewrite (put_request_failed err t o r p m c s a), H
         | H : get_result ?a = _
           |- context [failed (get_request ?t ?o ?r ?p) ?a] =>
             rewrite (get_request_failed t o r p a), H
         end.

Ltac leaf H :=
  match type of H with
  | (Ok ?r, after _ _ ?evs) = _ => injection H as <- <-; exists r, evs
  end;
  split; [reflexivity|]; split; [reflexivity|];
  cbn [stops_at_failure has_failure existsb is_failure is_fetch];
  failed_known; split; [reflexivity | first [discriminate | reflexivity]].

Lemma tool_upload_failure {W : Type}
    (remote : http_request -> W -> option response * W)
    (rt : Runtime) (request : Request) (env : Env) (cors : CorsHeaders)
    (w w' : world W) (o : outcome Reply) :
  handleToolUpload remote rt request env cors w = (o, w') ->
  exists reply evs,
    o = Ok reply /\ trace w' = trace w ++ evs
    /\ stops_at_failure evs = true
    /\ (has_failure evs = true -> reply = internal_error_reply cors).
Proof.
  intros H. rewrite handleToolUpload_run in H.
  unfold tool_upload_cases in H. cbn zeta in H.
  destruct (req_form request) as [formData|]; [|leaf H].
  destruct (uploadInputSchema formData) as [issues|data]; [leaf H|].
  destruct (put_result GitHubApiError _) as [j1|] eqn:H1; [|leaf H].
  destruct (get_result _) as [cm|] eqn:H2; [|leaf H].
  destruct (next_manifest _ cm _) as [[m sha]|] eqn:H3; [|leaf H].
  destruct (put_result ManifestUpdateError _) as [j3|] eqn:H4; leaf H.
Qed.

Lemma output_upload_failure {W : Type}
    (remote : http_request -> W -> option response * W)
    (rt : Runtime) (request : Request) (env : Env) (cors : CorsHeaders)
    (w w' : world W) (o : outcome Reply) :
  handleOutputUpload remote rt request env cors w = (o, w') ->
  exists reply evs,
    o = Ok reply /\ trace w' = trace w ++ evs
    /\ stops_at_failure evs = true
    /\ (has_failure evs = true -> reply = internal_error_reply cors).
Proof.
  intros H. rewrite handleOutputUpload_run in H.
  unfold output_upload_cases in H. cbn zeta in H.
  destruct (req_form request) as [formData|]; [|leaf H].
  destruct (uploadOutputSchema formData) as [issues|data]; [leaf H|].
  destruct (get_result _) as [found|] eqn:H1; [|leaf H].
  destruct (gh_truthy found); cbn [negb] in H; [|leaf H].
  destruct (find_tool found (toolId data)) as [tool|] eqn:Hfind; [|leaf H].
  destruct (truthy tool) eqn:Htool; cbn [negb] in H; [|leaf H].
  destruct (put_result GitHubApiError _) as [j2|] eqn:H2; [|leaf H].
  destruct (get_prop_opt tool (js "url")) as [toolUrl|] eqn:Hurl; [|leaf H].
  destruct (get_result _) as [cm|] eqn:H3 in H; [|leaf H].
  destruct (next_manifest _ cm _) as [[m sha]|] eqn:Hn; [|leaf H].
  destruct (put_result ManifestUpdateError _) as [j4|] eqn:H4; leaf H.
Qed.

(** C7.  In either workflow, once a call to the store has failed, no other
    call is made: the failed call is not tried again and no earlier write is
    undone.  The request is then answered 500 with the fixed message
    "Internal server error. Please try again.", whatever the failure was: a
    rejected [fetch], an error status such as the 409 of a write whose
    version token is out of date, or a body that is not JSON. *)
Theorem failure_is_final {W : Type}
    (remote : http_request -> W -> option response * W)
    (rt : Runtime) (request : Request) (env : Env) (cors : CorsHeaders)
    (w w' : world W) (o : outcome Reply)
    (Hrun : handleToolUpload remote rt request env cors w = (o, w')
            \/ handleOutputUpload remote rt request env cors w = (o, w')) :
  exists reply evs,
    o = Ok reply /\ trace w' = trace w ++ evs
    /\ stops_at_failure evs = true
    /\ (has_failure evs = true ->
        reply = jsonResponse
                  (MessageBody (js "Internal server error. Please try again."))
                  500 cors).
Proof.
  destruct Hrun as [H|H].
  - exact (tool_upload_failure remote rt request env cors w w' o H).
  - exact (output_upload_failure remote rt request env cors w w' o H).
Qed.

(** ** The update of the manifest in the two variants *)

Lemma updateManifestWithTool_run {W : Type}
    (remote : http_request -> W -> option response * W)
    (token owner repo path : jsstr) (x : json) (w : world W) :
  updateManifestWithTool remote token owner repo path x w =
  let rq := get_request token owner repo path in
  let w1 := after w (remote rq (store w)).2 [EvFetch rq (remote rq (store w)).1] in
  match get_result (remote rq (store w)).1 with
  | Throw e => (Throw e, w1)
  | Ok currentManifest =>
      match next_manifest (js "tools") currentManifest x with
      | Throw e => (Throw e, w1)
      | Ok (manifest, sha) =>
          put_manifest remote token owner repo path
            (js "Update manifest with new tool") manifest sha w1
      end
  end.
Proof. unfold updateManifestWithTool. apply update_run. Qed.

Lemma updateManifest_run {W : Type}
    (remote : http_request -> W -> option response * W)
    (token owner repo path : jsstr) (x : json) (w : world W) :
  SingleEndpoint.updateManifest remote token owner repo path x w =
  let rq := get_request token owner repo path in
  let w1 := after w (remote rq (store w)).2 [EvFetch rq (remote rq (store w)).1] in
  match get_result (remote rq (store w)).1 with
  | Throw e => (Throw e, w1)
  | Ok currentManifest =>
      match next_manifest_v0 currentManifest x with
      | Throw e => (Throw e, w1)
      | Ok (manifest, sha) =>
          put_manifest remote token owner repo path
            (js "Update manifest with new tool") manifest sha w1
      end
  end.
Proof.
  unfold SingleEndpoint.updateManifest. cbn zeta.
  unfold bind at 1. rewrite getFromGitHub_run. cbn zeta.
  destruct (get_result _) as [cm|e]; [|reflexivity].
  unfold next_manifest_v0, bind, lift, ret.
  destruct (gh_truthy cm).
  - destruct (parse_content cm) as [m|e]; [|reflexivity].
    destruct (unshift_in m (js "tools") x) as [m2|e]; reflexivity.
  - destruct (unshift_in _ (js "tools") x) as [m2|e]; reflexivity.
Qed.

(** On a manifest of the data model the update of src/index.ts does not
    throw: it goes on to the write, with the new entry in front of [tools]. *)
Lemma update_total_on_manifests (currentManifest : ghjson) (x : json) :
  (currentManifest = Falsy
   \/ exists manifest sha,
        currentManifest = FileJson (Some manifest) sha
        /\ manifest_shaped manifest = true) ->
  exists manifest',
    next_manifest (js "tools") currentManifest x = Ok (manifest', sha_of currentManifest)
    /\ array_of manifest' (js "tools")
       = x :: array_of (manifest_read currentManifest) (js "tools").
Proof.
  intros [->|(m & sha & -> & Hshape)].
  - eexists. split; reflexivity.
  - destruct m as [| | | | |fields]; try discriminate Hshape.
    unfold next_manifest, ensure_array, unshift_in.
    cbn [gh_truthy parse_content sha_of get_prop manifest_read array_of].
    cbn [manifest_shaped] in Hshape.
    destruct (assoc (js "tools") fields) as [[| | | |items ps|]|] eqn:E;
      try discriminate Hshape; cbn [truthy negb set_prop get_prop].
    + rewrite E. cbn [unshift]. eexists. split; [reflexivity|].
      cbn [array_of]. rewrite assoc_set_same. reflexivity.
    + rewrite assoc_set_same. cbn [unshift]. eexists. split; [reflexivity|].
      cbn [array_of]. rewrite assoc_set_same. reflexivity.
Qed.

(** C2, on the two source files.  When there is no manifest file,
    src/index.ts starts from [{tools: [], outputs: []}] and the earlier
    variant from [{tools: []}], both without a version token.  When the
    manifest that is read is an object without [tools], src/index.ts makes
    [tools] an empty array and writes the manifest with the new entry in it;
    the earlier variant calls [unshift] on [undefined] and throws a
    TypeError after the read, without a write. *)
Theorem manifest_update_variants {W : Type}
    (remote : http_request -> W -> option response * W)
    (token owner repo path : jsstr) (newTool : json) (w : world W) (r : response)
    (Hanswer : (remote (get_request token owner repo path) (store w)).1 = Some r) :
  let rq := get_request token owner repo path in
  let w1 := after w (remote rq (store w)).2 [EvFetch rq (Some r)] in
  let message := js "Update manifest with new tool" in
  (resp_status r = 404%Z ->
   updateManifestWithTool remote token owner repo path newTool w =
   put_manifest remote token owner repo path message
     (JObj [ (js "tools", JArr [newTool] []); (js "outputs", JArr [] []) ]) None w1
   /\ SingleEndpoint.updateManifest remote token owner repo path newTool w =
      put_manifest remote token owner repo path message
        (JObj [ (js "tools", JArr [newTool] []) ]) None w1)
  /\ (forall fields sha,
        ok r = true ->
        resp_body_of r = JsonBody (FileJson (Some (JObj fields)) sha) ->
        assoc (js "tools") fields = None ->
        updateManifestWithTool remote token owner repo path newTool w =
        put_manifest remote token owner repo path message
          (JObj (fields ++ [ (js "tools", JArr [newTool] []) ])) sha w1
        /\ SingleEndpoint.updateManifest remote token owner repo path newTool w =
           (Throw TypeError, w1)).
Proof.
  cbn zeta. rewrite updateManifestWithTool_run, updateManifest_run. cbn zeta.
  rewrite Hanswer. split.
  - intros H404. unfold get_result, ok. rewrite H404. split; reflexivity.
  - intros fields sha Hok Hbody Hnone. unfold get_result. rewrite Hok, Hbody.
    unfold next_manifest, next_manifest_v0, ensure_array, unshift_in.
    cbn [gh_truthy parse_content sha_of get_prop]. rewrite Hnone.
    cbn [truthy negb set_prop get_prop unshift]. rewrite assoc_set_same.
    cbn [unshift]. rewrite (assoc_set_absent _ _ _ Hnone).
    unfold empty_array. cbv iota.
    assert (assoc_set (js "tools") (JArr [newTool] [])
              (fields ++ [ (js "tools", JArr [] []) ])
            = fields ++ [ (js "tools", JArr [newTool] []) ]) as ->.
    { clear -Hnone. induction fields as [|[k v] fields IH]; [reflexivity|].
      cbn [assoc app assoc_set] in *.
      destruct (bool_decide (k = js "tools")); [discriminate|].
      rewrite (IH Hnone). reflexivity. }
    split; reflexivity.
Qed.

(** ** Runs against the sample store *)

Lemma manifest_update_variants_witness :
  let w := Example.start Example.store_no_tools in
  let rq := get_request (js "token") (js "owner") (js "gallery")
              (js "workshop/manifest.json") in
  let w1 := after w Example.store_no_tools
              [EvFetch rq (GitHub.answer 200
                             (FileJson (Some (JObj [ (js "outputs", JArr [] []) ]))
                                (Some (GitHub.token_of 1))))] in
  updateManifestWithTool GitHub.serve (js "token") (js "owner") (js "gallery")
    (js "workshop/manifest.json") Example.old_tool w =
  put_manifest GitHub.serve (js "token") (js "owner") (js "gallery")
    (js "workshop/manifest.json") (js "Update manifest with new tool")
    (JObj [ (js "outputs", JArr [] []); (js "tools", JArr [Example.old_tool] []) ])
    (Some (GitHub.token_of 1)) w1
  /\ SingleEndpoint.updateManifest GitHub.serve (js "token") (js "owner") (js "gallery")
       (js "workshop/manifest.json") Example.old_tool w =
     (Throw TypeError, w1).
Proof.
  cbn zeta.
  apply (proj2 (manifest_update_variants GitHub.serve (js "token") (js "owner")
                  (js "gallery") (js "workshop/manifest.json") Example.old_tool
                  (Example.start Example.store_no_tools)
                  {| resp_status := 200;
                     resp_body_of :=
                       JsonBody (FileJson (Some (JObj [ (js "outputs", JArr [] []) ]))
                                   (Some (GitHub.token_of 1))) |}
                  eq_refl)
           [ (js "outputs", JArr [] []) ] (Some (GitHub.token_of 1)));
    reflexivity.
Defined.

(** The earlier variant on a manifest without [tools]: the payload is
    written, the manifest is read, the update throws, and the request is
    answered 500; the payload stays, and the manifest is as it was.
    src/index.ts answers 200 to the same request in the same store. *)
Example variant_fails_without_tools :
  let run := SingleEndpoint.default_fetch GitHub.serve Example.rt Example.tool_request
               Example.env (Example.start Example.store_no_tools) in
  run.1 = Ok (internal_error_reply (corsHeaders_of Example.env))
  /\ calls (trace run.2)
     = [ (PUT, Example.tool_file_url, Some 201%Z);
         (GET, Example.manifest_url, Some 200%Z) ]
  /\ last (trace run.2) = Some (EvConsoleError TypeError)
  /\ fst <$> GitHub.files (store run.2) !! Example.tool_file_url
     = Some (TextContent (js "function draw() {}"))
  /\ GitHub.files (store run.2) !! Example.manifest_url
     = GitHub.files Example.store_no_tools !! Example.manifest_url
  /\ (default_fetch GitHub.serve Example.rt Example.tool_request Example.env
        (Example.start Example.store_no_tools)).1 = Ok Example.tool_success.
Proof.
  cbn zeta. repeat split; vm_compute; reflexivity.
Qed.

Lemma tool_upload_prepends_witness :
  let w := Example.start Example.store_old in
  let w' := (default_fetch GitHub.serve Example.rt Example.tool_request Example.env w).2 in
  exists formData data rq1 a1 a2 currentManifest manifest a3,
    let rq2 := get_request (js "token") (js "owner") (js "gallery")
                 (js "workshop/manifest.json") in
    let rq3 := put_request (js "token") (js "owner") (js "gallery")
                 (js "workshop/manifest.json") (js "Update manifest with new tool")
                 (JsonContent manifest) (sha_of currentManifest) in
    let stored := manifest_read currentManifest in
    let newTool := tool_entry Example.rt data in
    req_form Example.tool_request = Some formData
    /\ uploadInputSchema formData = inr data
    /\ trace w' = trace w ++ [EvFormData; EvFetch rq1 a1; EvFetch rq2 a2; EvFetch rq3 a3]
    /\ get_result a2 = Ok currentManifest
    /\ failed rq3 a3 = false
    /\ field_of newTool (js "id")
       = Some (JStr (sanitizeString (nickname data) 20 ++ js "-"
                       ++ sanitizeString
                            (str_replace re_js_suffix false []
                               (file_name (toolFile data))) 30
                       ++ js "-" ++ generateRandomString Example.rt 6))
    /\ (is_object stored = true ->
        array_of manifest (js "tools") = newTool :: array_of stored (js "tools")
        /\ array_of manifest (js "outputs") = array_of stored (js "outputs")
        /\ forall k, k <> js "tools" -> field_of manifest k = field_of stored k).
Proof.
  cbn zeta.
  apply (tool_upload_prepends GitHub.serve Example.rt Example.tool_request Example.env
           (Example.start Example.store_old) _ Example.tool_success);
    reflexivity.
Defined.

(** What that run leaves in the store: the manifest lists the new tool in
    front of the one that was there. *)
Example tool_upload_on_old_manifest :
  let run := default_fetch GitHub.serve Example.rt Example.tool_request Example.env
               (Example.start Example.store_old) in
  run.1 = Ok Example.tool_success
  /\ fst <$> GitHub.files (store run.2) !! Example.manifest_url
     = Some (JsonContent
               (JObj [ (js "tools",
                        JArr [tool_entry Example.rt Example.tool_data; Example.old_tool] []);
                       (js "outputs", JArr [] []) ])).
Proof. cbn zeta. split; vm_compute; reflexivity. Qed.

Lemma upload_names_cohere_witness :
  let w := Example.start Example.store_old in
  let w' := (handleToolUpload GitHub.serve Example.rt Example.tool_request Example.env
               (corsHeaders_of Example.env) w).2 in
  exists id filename newTool rq1 a1 rq2 a2 manifest sha a3 rest props,
    filename = id ++ js ".js"
    /\ reply_body_of Example.tool_success = SuccessBody filename (galleryUrl_of Example.env)
    /\ field_of newTool (js "id") = Some (JStr id)
    /\ field_of newTool (js "url") = Some (JStr (js "tools/" ++ filename))
    /\ trace w' = trace w ++ [EvFormData; EvFetch rq1 a1; EvFetch rq2 a2;
          EvFetch (put_request (js "token") (js "owner") (js "gallery")
                     (js "workshop/manifest.json") (js "Update manifest with new tool")
                     (JsonContent manifest) sha) a3]
    /\ rq_method rq1 = PUT
    /\ rq_url rq1 = contents_url (js "owner") (js "gallery")
                      (js "workshop" ++ js "/tools/" ++ filename)
    /\ get_prop manifest (js "tools") = Ok (Some (JArr (newTool :: rest) props)).
Proof.
  cbn zeta.
  apply (proj1 (upload_names_cohere GitHub.serve Example.rt Example.tool_request
                  Example.env (corsHeaders_of Example.env)
                  (Example.start Example.store_old) _ Example.tool_success eq_refl)).
  reflexivity.
Defined.

Lemma output_upload_not_found_witness :
  let request := Example.post "/upload/output" (Example.output_form "nope") in
  let w := Example.start Example.store_old in
  let rq := get_request (js "token") (js "owner") (js "gallery")
              (js "workshop/manifest.json") in
  default_fetch GitHub.serve Example.rt request Example.env w =
  (Ok (jsonResponse (MessageBody (js "Tool not found")) 404 (corsHeaders_of Example.env)),
   after w Example.store_old
     [EvFormData;
      EvFetch rq (GitHub.answer 200 (FileJson (Some Example.old_manifest)
                                       (Some (GitHub.token_of 1))))]).
Proof.
  cbn zeta.
  apply (proj2 (output_upload_not_found GitHub.serve Example.rt
                  (Example.post "/upload/output" (Example.output_form "nope"))
                  Example.env (Example.start Example.store_old)
                  (Example.output_form "nope")
                  {| toolId := js "nope"; outputFile := Example.image |}
                  eq_refl eq_refl eq_refl eq_refl eq_refl)
           {| resp_status := 200;
              resp_body_of := JsonBody (FileJson (Some Example.old_manifest)
                                          (Some (GitHub.token_of 1))) |}
           Example.old_manifest (Some (GitHub.token_of 1)));
    reflexivity.
Defined.

(** An output upload for a tool that is listed goes through. *)
Example output_upload_found :
  let request := Example.post "/upload/output" (Example.output_form "old-tool-aaaaaa") in
  let run := default_fetch GitHub.serve Example.rt request Example.env
               (Example.start Example.store_old) in
  run.1 = Ok (jsonResponse
                (SuccessBody (js "first-run-final-dkry5c.png") (galleryUrl_of Example.env))
                200 (corsHeaders_of Example.env))
  /\ map (fun c => c.1.1) (calls (trace run.2)) = [GET; PUT; GET; PUT].
Proof. cbn zeta. split; vm_compute; reflexivity. Qed.

Lemma failure_is_final_witness :
  let w := Example.start Example.store_raced in
  let run := handleToolUpload GitHub.serve Example.rt Example.tool_request Example.env
               (corsHeaders_of Example.env) w in
  exists reply evs,
    run.1 = Ok reply /\ trace run.2 = trace w ++ evs
    /\ stops_at_failure evs = true
    /\ (has_failure evs = true ->
        reply = jsonResponse
                  (MessageBody (js "Internal server error. Please try again."))
                  500 (corsHeaders_of Example.env)).
Proof.
  cbn zeta.
  apply (failure_is_final GitHub.serve Example.rt Example.tool_request Example.env
           (corsHeaders_of Example.env) (Example.start Example.store_raced)).
  left. apply surjective_pairing.
Defined.

(** A write of the manifest that loses a race: between the read and the write
    another client has committed the manifest, the write is refused (409), and
    the request is answered 500.  The payload written before stays in the
    store, and the manifest is the one the other client wrote. *)
Example upload_conflict :
  let run := default_fetch GitHub.serve Example.rt Example.tool_request Example.env
               (Example.start Example.store_raced) in
  run.1 = Ok (internal_error_reply (corsHeaders_of Example.env))
  /\ calls (trace run.2)
     = [ (PUT, Example.tool_file_url, Some 201%Z);
         (GET, Example.manifest_url, Some 200%Z);
         (PUT, Example.manifest_url, Some 409%Z) ]
  /\ has_failure (trace run.2) = true
  /\ fst <$> GitHub.files (store run.2) !! Example.tool_file_url
     = Some (TextContent (js "function draw() {}"))
  /\ fst <$> GitHub.files (store run.2) !! Example.manifest_url
     = Some (JsonContent Example.other_manifest).
Proof. cbn zeta. repeat split; vm_compute; reflexivity. Qed.

(** ** Outside the data model

    What the worker does with a configuration or a manifest that the
    theorems above leave out. *)

(** With the empty string as the allowed origin, a POST without an Origin
    header is let through. *)
Example empty_allowed_origin :
  (default_fetch GitHub.serve Example.rt Example.anonymous_request
     Example.env_no_origin (Example.start Example.empty_store)).1
  = Ok (jsonResponse
          (SuccessBody (js "ann-b-my-sketch-dkry5c.js")
             (galleryUrl_of Example.env_no_origin))
          200 (corsHeaders_of Example.env_no_origin)).
Proof. vm_compute. reflexivity. Qed.

(** A manifest that is an array: the entry goes to a named property of the
    array, which is not part of its JSON text, and the upload is answered
    200; what is read back is the array as it was. *)
Example tool_upload_on_array :
  let run := default_fetch GitHub.serve Example.rt Example.tool_request Example.env
               (Example.start (Example.store_with (JArr [] []))) in
  run.1 = Ok Example.tool_success
  /\ (GitHub.files (store run.2) !! Example.manifest_url) ≫= (GitHub.decode ∘ fst)
     = Some (JArr [] []).
Proof. cbn zeta. split; vm_compute; reflexivity. Qed.

(** A manifest whose [tools] is neither missing nor an array: [unshift] is
    not a function, in both variants. *)
Example tools_not_an_array :
  next_manifest (js "tools")
    (FileJson (Some (JObj [ (js "tools", JNum 1) ])) None) Example.old_tool
  = Throw TypeError
  /\ next_manifest_v0
       (FileJson (Some (JObj [ (js "tools", JNum 1) ])) None) Example.old_tool
     = Throw TypeError.
Proof. split; reflexivity. Qed.

(** A null among the tools: [find] reads [id] of null, and the output upload
    is answered 500 and not 404. *)
Example output_upload_null_tool :
  (default_fetch GitHub.serve Example.rt
     (Example.post "/upload/output" (Example.output_form "nope")) Example.env
     (Example.start (Example.store_with (JObj [ (js "tools", JArr [JNull] []) ])))).1
  = Ok (internal_error_reply (corsHeaders_of Example.env)).
Proof. vm_compute. reflexivity. Qed.

(** ** Sample values of the sanitizer and of the replacements *)

Example sanitize_hello :
  sanitizeString (js "Hello World!!") 30 = js "hello-world".
Proof. vm_compute. reflexivity. Qed.

Example sanitize_edges :
  sanitizeString (js "--a__b--c-") 30 = js "a-b-c".
Proof. vm_compute. reflexivity. Qed.

(** The Kelvin sign lowers to the letter k. *)
Example sanitize_kelvin :
  sanitizeString [8490; 233; 49] 30 = js "k-1".
Proof. vm_compute. reflexivity. Qed.

Example replace_extensions :
  str_replace re_extension false [] (js "my.pic.png") = js "my.pic"
  /\ str_replace re_js_suffix false [] (js "a.js.js") = js "a.js"
  /\ str_replace re_extension false [] (js "noext") = js "noext"
  /\ str_replace re_extension false [] (js ".bashrc") = [].
Proof. vm_compute. repeat split; reflexivity. Qed.

(** * Further properties *)

(** ** More on the sanitizer *)

Lemma no_hh_lookup (s : jsstr) (i : nat) :
  no_hh s = true -> s !! i = Some Ch.hyphen -> s !! S i <> Some Ch.hyphen.
Proof.
  revert i. induction s as [|c s IH]; intros i Hh; [discriminate|].
  rewrite no_hh_cons in Hh. apply andb_true_iff in Hh as [Hcs Hs].
  destruct i as [|i]; cbn [lookup list_lookup].
  - intros [= ->]. destruct s as [|d s]; [discriminate|].
    cbn in Hcs |- *. intros [= ->]. discriminate.
  - apply IH. exact Hs.
Qed.

Lemma strip_end_nil (s : jsstr) : strip_end s = [] -> forallb Ch.is_hyphen s = true.
Proof.
  destruct s as [|c s]; [reflexivity|]. cbn [strip_end].
  destruct (forallb Ch.is_hyphen (c :: s)); [reflexivity | discriminate].
Qed.

Lemma strip_end_last (s : jsstr) : ends_hyphen (strip_end s) = false.
Proof.
  induction s as [|c s IH]; [reflexivity|].
  cbn [strip_end]. destruct (forallb Ch.is_hyphen (c :: s)) eqn:E; [reflexivity|].
  destruct (strip_end s) as [|d t] eqn:Es.
  - unfold ends_hyphen. cbn [last].
    cbn [forallb] in E. rewrite (strip_end_nil _ Es), andb_true_r in E. exact E.
  - rewrite ends_hyphen_cons. exact IH.
Qed.

(** X1.  A sanitized name never has two hyphens in a row, and it ends with a
    hyphen only where truncation has cut it: its length is then
    [maxLength]. *)
Theorem sanitize_hyphens (s : jsstr) (maxLength : Z) :
  (forall i, sanitizeString s maxLength !! i = Some Ch.hyphen ->
             sanitizeString s maxLength !! S i <> Some Ch.hyphen)
  /\ (last (sanitizeString s maxLength) = Some Ch.hyphen ->
      length (sanitizeString s maxLength) = Z.to_nat maxLength).
Proof.
  split.
  - intros i. apply no_hh_lookup.
    pose proof (sanitize_tidy s maxLength) as Ht. unfold tidy in Ht.
    apply andb_true_iff in Ht as [[_ Hh]%andb_true_iff _]. exact Hh.
  - rewrite sanitize_squeeze.
    set (u := strip_end _). intros Hlast.
    destruct (decide (Z.to_nat maxLength < length u)%nat) as [Hlt|Hge].
    + rewrite length_take. lia.
    + rewrite take_ge in Hlast by lia.
      pose proof (strip_end_last (drop_while Ch.is_hyphen
                                    (squeeze false (toLowerCase s)))) as He.
      fold u in He. unfold ends_hyphen in He. rewrite Hlast in He. discriminate.
Qed.

(** X2.  A smaller limit gives a prefix: for [m <= n] the name sanitized
    with the limit [m] is the first [m] code units of the name sanitized with
    the limit [n]. *)
Theorem sanitize_prefix (s : jsstr) (m n : Z) (H : (m <= n)%Z) :
  sanitizeString s m = take (Z.to_nat m) (sanitizeString s n).
Proof.
  rewrite !sanitize_squeeze, take_take. f_equal. lia.
Qed.

Lemma sanitize_prefix_witness :
  sanitizeString (js "My Sketch (v2)") 5
  = take (Z.to_nat 5) (sanitizeString (js "My Sketch (v2)") 30).
Proof. apply sanitize_prefix. lia. Defined.

Lemma squeeze_nil (s : jsstr) :
  forallb Ch.not_alnum s = true ->
  squeeze true s = [] /\ (squeeze false s = [] \/ squeeze false s = [Ch.hyphen]).
Proof.
  induction s as [|c s IH]; [auto|].
  cbn [forallb squeeze]. intros [-> Hs]%andb_true_iff.
  destruct (IH Hs) as [-> _]. auto.
Qed.

Lemma squeeze_keeps (s : jsstr) (b : bool) (c : N) :
  c ∈ s -> Ch.alnum c = true -> c ∈ squeeze b s.
Proof.
  intros Hin Hc. revert b. induction s as [|d s IH]; intros b.
  - inversion Hin.
  - cbn [squeeze]. apply elem_of_cons in Hin as [<-|Hin].
    + unfold Ch.not_alnum. rewrite Hc. cbn. left.
    + destruct (Ch.not_alnum d); [destruct b|]; try right; auto.
Qed.

Lemma drop_while_keeps (p : N -> bool) (s : jsstr) (c : N) :
  c ∈ s -> p c = false -> c ∈ drop_while p s.
Proof.
  intros Hin Hc. induction s as [|d s IH]; [inversion Hin|].
  cbn [drop_while]. destruct (p d) eqn:Hd; [|exact Hin].
  apply elem_of_cons in Hin as [->|Hin]; [congruence | auto].
Qed.

Lemma strip_end_keeps (s : jsstr) (c : N) :
  c ∈ s -> Ch.is_hyphen c = false -> c ∈ strip_end s.
Proof.
  intros Hin Hc. induction s as [|d s IH]; [inversion Hin|].
  cbn [strip_end]. destruct (forallb Ch.is_hyphen (d :: s)) eqn:E.
  - rewrite forallb_forall in E. apply list_elem_of_In in Hin.
    rewrite (E _ Hin) in Hc. discriminate.
  - apply elem_of_cons in Hin as [->|Hin]; [left | right; auto].
Qed.

(** X3.  For a positive limit the sanitized name is empty exactly when the
    input in lower case has no character in [a-z0-9]. *)
Theorem sanitize_empty (s : jsstr) (maxLength : Z) (H : (0 < maxLength)%Z) :
  sanitizeString s maxLength = [] <->
  forallb Ch.not_alnum (toLowerCase s) = true.
Proof.
  rewrite sanitize_squeeze. split.
  - intros He. destruct (forallb Ch.not_alnum (toLowerCase s)) eqn:E; [reflexivity|].
    exfalso.
    assert (exists c, c ∈ toLowerCase s /\ Ch.alnum c = true) as (c & Hin & Hc).
    { clear -E. induction (toLowerCase s) as [|d l IH]; [discriminate|].
      cbn [forallb] in E. apply andb_false_iff in E as [E|E].
      - exists d. split; [left|]. unfold Ch.not_alnum in E.
        apply negb_false_iff in E. exact E.
      - destruct (IH E) as (c & ? & ?). exists c. split; [right|]; assumption. }
    pose proof (alnum_not_hyphen _ Hc) as Hh.
    pose proof (strip_end_keeps _ _
                  (drop_while_keeps _ _ _ (squeeze_keeps _ false _ Hin Hc) Hh) Hh) as Hk.
    destruct (strip_end _) as [|d u]; [inversion Hk|].
    destruct (Z.to_nat maxLength) eqn:En; [lia|]. discriminate He.
  - intros Hall. destruct (squeeze_nil _ Hall) as [_ [-> | ->]];
      cbn; apply take_nil.
Qed.

Lemma sanitize_empty_witness :
  sanitizeString (js "___") 10 = [] <->
  forallb Ch.not_alnum (toLowerCase (js "___")) = true.
Proof. apply sanitize_empty. lia. Defined.

(** ** Random names, extensions and the derived names *)

Lemma charAt_length (s : jsstr) (i : nat) : (length (charAt s i) <= 1)%nat.
Proof. unfold charAt. destruct (s !! i); cbn; lia. Qed.

Lemma random_fold (rt : Runtime) (l : list nat) (acc : jsstr) :
  let f := fun (result : jsstr) (i : nat) => result ++ charAt chars (random_index rt i) in
  (length (foldl f acc l) <= length acc + length l)%nat
  /\ ((forall i, i ∈ l -> (random_index rt i < 36)%nat) ->
      length (foldl f acc l) = (length acc + length l)%nat
      /\ (forallb Ch.alnum acc = true -> forallb Ch.alnum (foldl f acc l) = true)).
Proof.
  cbn zeta. revert acc. induction l as [|i l IH]; intros acc; cbn [foldl].
  - split; [cbn; lia|]. intros _. split; [cbn; lia | tauto].
  - destruct (IH (acc ++ charAt chars (random_index rt i))) as [IH1 IH2]. split.
    + rewrite length_app in IH1. pose proof (charAt_length chars (random_index rt i)).
      cbn [length]. lia.
    + intros Hr.
      destruct (charAt_chars (random_index rt i)) as (c & Hc & Hal);
        [apply Hr; left|].
      destruct IH2 as [IH2 IH3]; [intros j Hj; apply Hr; right; exact Hj|].
      rewrite Hc in *. split.
      * rewrite IH2, length_app. cbn [length]. lia.
      * intros Hacc. apply IH3. rewrite forallb_app, Hacc. cbn. rewrite Hal. reflexivity.
Qed.

(** X4.  [generateRandomString(length)] never has more than [length] code
    units.  When the indices drawn are below the length of the alphabet, as
    [Math.floor(Math.random() * chars.length)] is, it has [length] code
    units, all of them in [a-z0-9]. *)
Theorem random_string_shape (rt : Runtime) (n : nat) :
  (length (generateRandomString rt n) <= n)%nat
  /\ ((forall i, (i < n)%nat -> (random_index rt i < 36)%nat) ->
      length (generateRandomString rt n) = n
      /\ forall c, c ∈ generateRandomString rt n -> Ch.alnum c = true).
Proof.
  unfold generateRandomString.
  destruct (random_fold rt (seq 0 n) []) as [H1 H2].
  rewrite length_seq in H1. split; [exact H1|].
  intros Hr. destruct H2 as [H2 H3].
  { intros i Hi. apply Hr. apply elem_of_seq in Hi. lia. }
  rewrite length_seq in H2. split; [exact H2|].
  intros c Hc. specialize (H3 eq_refl). rewrite forallb_forall in H3.
  apply H3, list_elem_of_In, Hc.
Qed.

Lemma exec_extension (bol : bool) (s : jsstr) :
  exec re_extension bol s =
  match s with
  | c :: t =>
      if Ch.is_dot c then
        match t with
        | [] => None
        | _ :: _ => if forallb Ch.not_slash_dot t then Some (S (length t)) else None
        end
      else None
  | [] => None
  end.
Proof.
  unfold exec, re_extension. cbn [rmatch].
  destruct s as [|c t]; [reflexivity|].
  destruct (Ch.is_dot c); [|reflexivity].
  rewrite (plus_loop_to_end Ch.not_slash_dot _ t).
  - destruct t; [reflexivity|]. destruct (forallb _ _); reflexivity.
  - intros [|? ?]; reflexivity.
Qed.

Lemma dot_is_not_plain : Ch.not_slash_dot Ch.dot = false.
Proof. reflexivity. Qed.

Lemma replace_extension_found (base ext : jsstr) : forall bol,
  ext <> [] -> forallb Ch.not_slash_dot ext = true ->
  replace_loop re_extension [] false bol 0 (base ++ Ch.dot :: ext) = base.
Proof.
  intros bol Hne Hext. revert bol.
  induction base as [|c base IH]; intros bol; cbn [app replace_loop];
    rewrite exec_extension.
  - change (Ch.is_dot Ch.dot) with true. cbv iota.
    destruct ext as [|e ext]; [contradiction|]. rewrite Hext.
    cbn [app drop]. apply drop_all.
  - assert (forallb Ch.not_slash_dot (base ++ Ch.dot :: ext) = false) as Hno.
    { rewrite forallb_app. cbn [forallb]. rewrite dot_is_not_plain.
      apply andb_false_r. }
    rewrite Hno, IH.
    destruct (Ch.is_dot c); [|reflexivity].
    destruct (base ++ Ch.dot :: ext); reflexivity.
Qed.

Lemma replace_extension_none (name : jsstr) : forall bol,
  (forall base ext, name = base ++ Ch.dot :: ext ->
                    ext = [] \/ forallb Ch.not_slash_dot ext = false) ->
  replace_loop re_extension [] false bol 0 name = name.
Proof.
  induction name as [|c t IH]; intros bol Hnone; [reflexivity|].
  cbn [replace_loop]. rewrite exec_extension.
  assert (replace_loop re_extension [] false false 0 t = t) as Ht.
  { apply IH. intros base ext ->. apply (Hnone (c :: base) ext). reflexivity. }
  destruct (Ch.is_dot c) eqn:Hc; [|rewrite Ht; reflexivity].
  apply N.eqb_eq in Hc. subst c.
  destruct (Hnone [] t eq_refl) as [->|Hf]; [reflexivity|].
  rewrite Hf, Ht. destruct t; reflexivity.
Qed.

(** X5.  [name.replace(/\.[^/.]+$/, '')], the base name of an uploaded
    image.  A name that is [base], a dot, and an extension that is not empty
    and has no dot and no slash becomes [base]: only the last extension goes.
    A name that cannot be split in this way (no dot, a dot at the very end, a
    slash after the last dot) is kept as it is. *)
Theorem strip_extension (name : jsstr) :
  (forall base ext,
      name = base ++ js "." ++ ext -> ext <> [] ->
      (forall c, c ∈ ext -> c <> Ch.dot /\ c <> Ch.slash) ->
      str_replace re_extension false [] name = base)
  /\ ((forall base ext,
         name = base ++ js "." ++ ext ->
         ext = [] \/ exists c, c ∈ ext /\ (c = Ch.dot \/ c = Ch.slash)) ->
      str_replace re_extension false [] name = name).
Proof.
  assert (forall ext, forallb Ch.not_slash_dot ext = true <->
                      forall c, c ∈ ext -> c <> Ch.dot /\ c <> Ch.slash) as Hplain.
  { intros ext. rewrite forallb_forall. split.
    - intros H c Hc. apply list_elem_of_In in Hc. specialize (H c Hc).
      unfold Ch.not_slash_dot in H. apply negb_true_iff, orb_false_iff in H as [H1 H2].
      apply N.eqb_neq in H1, H2. auto.
    - intros H c Hc. apply list_elem_of_In in Hc. destruct (H c Hc) as [H1 H2].
      unfold Ch.not_slash_dot. apply negb_true_iff, orb_false_iff.
      split; apply N.eqb_neq; assumption. }
  split.
  - intros base ext -> Hne Hext.
    apply replace_extension_found; [exact Hne | apply Hplain, Hext].
  - intros Hnone. apply replace_extension_none.
    intros base ext E. destruct (Hnone base ext E) as [->|(c & Hc & Hbad)]; [auto|].
    right. destruct (forallb Ch.not_slash_dot ext) eqn:F; [|reflexivity].
    destruct (proj1 (Hplain ext) F c Hc). destruct Hbad; contradiction.
Qed.

(** X6.  The names an upload derives, when the six indices drawn for the
    random part are in range.  The id of a tool has only [a-z0-9-] and from 8
    to 58 code units; the name of its file is the id followed by [.js].  The
    id of an output has only [a-z0-9-] and from 7 to 37 code units. *)
Theorem derived_names_safe (rt : Runtime) (data : UploadInput) (out : UploadOutput)
    (Hr : forall i, (i < 6)%nat -> (random_index rt i < 36)%nat) :
  (forall c, c ∈ tool_id rt data -> Ch.safe c = true)
  /\ (8 <= length (tool_id rt data) <= 58)%nat
  /\ tool_filename rt data = tool_id rt data ++ js ".js"
  /\ (forall c, c ∈ output_id rt out -> Ch.safe c = true)
  /\ (7 <= length (output_id rt out) <= 37)%nat.
Proof.
  destruct (random_fold rt (seq 0 6) []) as [_ Hrand].
  destruct Hrand as [Hlen Hal].
  { intros i Hi. apply Hr. apply elem_of_seq in Hi. lia. }
  specialize (Hal eq_refl).
  change (foldl _ [] (seq 0 6)) with (generateRandomString rt 6) in Hlen, Hal.
  rewrite length_seq in Hlen. cbn [length] in Hlen.
  assert (forall s n c, c ∈ sanitizeString s n -> Ch.safe c = true) as Hsafe.
  { intros s n c Hc. pose proof (sanitize_tidy s n) as Ht. unfold tidy in Ht.
    apply andb_true_iff in Ht as [[Hs _]%andb_true_iff _].
    rewrite forallb_forall in Hs. apply Hs, list_elem_of_In, Hc. }
  assert (forall c, c ∈ generateRandomString rt 6 -> Ch.safe c = true) as Hrs.
  { intros c Hc. rewrite forallb_forall in Hal. unfold Ch.safe.
    rewrite (Hal c) by (apply list_elem_of_In, Hc). reflexivity. }
  assert (forall c, c ∈ js "-" -> Ch.safe c = true) as Hhy.
  { intros c Hc. apply list_elem_of_singleton in Hc. subst c. reflexivity. }
  pose proof (sanitize_length (nickname data) 20) as L1.
  pose proof (sanitize_length
                (str_replace re_js_suffix false [] (file_name (toolFile data))) 30) as L2.
  pose proof (sanitize_length
                (str_replace re_extension false [] (file_name (outputFile out))) 30) as L3.
  unfold tool_id, output_id. repeat split.
  - intros c Hc. rewrite !elem_of_app in Hc.
    destruct Hc as [Hc|[Hc|[Hc|[Hc|Hc]]]]; eauto.
  - rewrite !length_app, Hlen. cbn [length js map list_ascii_of_string]. lia.
  - rewrite !length_app, Hlen. cbn [length js map list_ascii_of_string]. lia.
  - apply tool_filename_id.
  - intros c Hc. rewrite !elem_of_app in Hc. destruct Hc as [Hc|[Hc|Hc]]; eauto.
  - rewrite !length_app, Hlen. cbn [length js map list_ascii_of_string]. lia.
  - rewrite !length_app, Hlen. cbn [length js map list_ascii_of_string]. lia.
Qed.

(** ** Validation of the two forms *)

Lemma z_string_min1_cases (path message : string) (v : option entry) :
  (exists s, v = Some (FString s) /\ s <> [] /\ z_string_min1 path message v = inr s)
  \/ (text_field_ok v = false
      /\ exists i, z_string_min1 path message v = inl [i] /\ issue_path i = js path).
Proof.
  destruct v as [[s|f]|]; cbn [z_string_min1 text_field_ok].
  - destruct s as [|c s]; cbn.
    + right. split; [reflexivity|]. eexists. split; reflexivity.
    + left. exists (c :: s). repeat split. discriminate.
  - right. split; [reflexivity|]. eexists. split; reflexivity.
  - right. split; [reflexivity|]. eexists. split; reflexivity.
Qed.

Lemma text_field_ok_string (s : jsstr) : s <> [] -> text_field_ok (Some (FString s)) = true.
Proof.
  intros H. cbn. rewrite (bool_decide_eq_false_2 _ H). reflexivity.
Qed.

Lemma image_field_ok_cases (v : option entry) :
  image_field_ok v = true <->
  exists f, v = Some (FFile f) /\ bool_decide (file_type f ∈ image_types) = true.
Proof.
  destruct v as [[s|f]|]; cbn [image_field_ok]; split;
    try discriminate; try (intros (? & [=] & _); fail).
  - intros H. exists f. split; [reflexivity | exact H].
  - intros (f' & [= <-] & H). exact H.
Qed.

Lemma uploadOutputSchema_issues (formData : FormData) :
  match uploadOutputSchema formData with
  | inl issues =>
      map issue_path issues = failing_output_fields formData
      /\ failing_output_fields formData <> []
  | inr data =>
      failing_output_fields formData = []
      /\ form_get formData (js "toolId") = Some (FString (toolId data))
      /\ toolId data <> []
      /\ form_get formData (js "outputFile") = Some (FFile (outputFile data))
      /\ file_type (outputFile data) ∈ image_types
  end.
Proof.
  unfold uploadOutputSchema, failing_output_fields. cbn [List.filter].
  destruct (z_string_min1_cases "toolId" "Tool ID is required"
              (form_get formData (js "toolId")))
    as [(s & Hs & Hne & ->)|[-> (i1 & -> & P1)]];
  [assert (text_field_ok (form_get formData (js "toolId")) = true) as ->
     by (rewrite Hs; apply text_field_ok_string, Hne)|];
  (destruct (z_file_cases "outputFile" "An image file is required"
               "File must be an image (PNG, JPEG, WebP, or GIF)"
               (fun file => bool_decide (file_type file ∈ image_types))
               (form_get formData (js "outputFile")))
     as [(f & Hf & Hc & ->)|[Hno (i2 & -> & P2)]];
   [ assert (image_field_ok (form_get formData (js "outputFile")) = true) as ->
       by (apply image_field_ok_cases; eauto)
   | assert (image_field_ok (form_get formData (js "outputFile")) = false) as ->
       by (destruct (image_field_ok _) eqn:E; [|reflexivity];
           apply image_field_ok_cases in E as (f & Hf & Hc);
           rewrite (Hno f Hf) in Hc; discriminate) ]);
  cbn [negb issues_of app map toolId outputFile];
  rewrite ?P1, ?P2;
  try (split; [reflexivity | discriminate]).
  repeat split; try assumption. apply bool_decide_eq_true_1 in Hc. exact Hc.
Qed.

(** X7.  An output upload whose form has a field that is not valid (a tool
    id that is missing, not a string or empty; a payload that is missing, not
    a file, or not of one of the four image types) is answered 400 with a
    list of issues that names every failing field, each once and in the order
    of the schema; the form is parsed, the store is not called. *)
Theorem invalid_output_upload {W : Type}
    (remote : http_request -> W -> option response * W)
    (rt : Runtime) (request : Request) (env : Env) (w : world W)
    (formData : FormData)
    (Hmethod : req_method request = js "POST")
    (Horigin : default [] (req_origin request) = ALLOWED_ORIGIN env)
    (Hpath : req_pathname request = js "/upload/output")
    (Hform : req_form request = Some formData)
    (Hinvalid : failing_output_fields formData <> []) :
  exists issues,
    default_fetch remote rt request env w =
    (Ok (jsonResponse (IssuesBody issues) 400 (corsHeaders_of env)),
     after w (store w) [EvFormData])
    /\ map issue_path issues = failing_output_fields formData.
Proof.
  rewrite (default_fetch_post remote rt request env w Hmethod Horigin).
  rewrite Hpath.
  rewrite (bool_decide_eq_false_2 (js "/upload/output" = js "/upload/tool"))
    by discriminate.
  rewrite (bool_decide_eq_true_2 (js "/upload/output" = js "/upload/output"))
    by reflexivity.
  rewrite handleOutputUpload_run.
  unfold output_upload_cases. rewrite Hform.
  pose proof (uploadOutputSchema_issues formData) as Hv.
  destruct (uploadOutputSchema formData) as [issues|data].
  - exists issues. split; [reflexivity | apply Hv].
  - destruct Hv as [Hv _]. contradiction.
Qed.

Lemma drop_while_all (p : N -> bool) (s : jsstr) :
  forallb p s = true -> drop_while p s = [].
Proof.
  intros H. rewrite <- (app_nil_r s). rewrite drop_while_app_all by exact H. reflexivity.
Qed.

Lemma trim_blank (s : jsstr) : forallb is_space s = true -> trim s = [].
Proof. intros H. unfold trim. rewrite (drop_while_all _ _ H). reflexivity. Qed.

Lemma z_string_min1_trim_value (path message : string) (v : option entry) (x : jsstr) :
  z_string_min1_trim path message v = inr x ->
  exists s, v = Some (FString s) /\ s <> [] /\ x = trim s.
Proof.
  destruct v as [[s|f]|]; cbn [z_string_min1_trim]; try discriminate.
  destruct s as [|c s]; cbn; [discriminate|].
  intros [= <-]. exists (c :: s). repeat split. discriminate.
Qed.

(** X8.  What validation hands to a tool upload: each text field is the
    submitted string, which is not empty, with the white space at both ends
    removed, and the payload is the submitted file, whose name ends in
    [.js].  The length is checked before the trimming: a nickname made of
    blanks only passes validation and is the empty string afterwards. *)
Theorem validated_tool_fields (formData : FormData) (data : UploadInput)
    (Hvalid : uploadInputSchema formData = inr data) :
  (exists a b c d,
      form_get formData (js "toolName") = Some (FString a)
      /\ form_get formData (js "toolDescription") = Some (FString b)
      /\ form_get formData (js "nickname") = Some (FString c)
      /\ form_get formData (js "modelUsed") = Some (FString d)
      /\ a <> [] /\ b <> [] /\ c <> [] /\ d <> []
      /\ toolName data = trim a /\ toolDescription data = trim b
      /\ nickname data = trim c /\ modelUsed data = trim d)
  /\ form_get formData (js "toolFile") = Some (FFile (toolFile data))
  /\ endsWith (file_name (toolFile data)) (js ".js") = true
  /\ (forall s, form_get formData (js "nickname") = Some (FString s) ->
                forallb is_space s = true -> nickname data = []).
Proof.
  unfold uploadInputSchema in Hvalid.
  destruct (z_string_min1_trim "toolName" _ _) as [?|x1] eqn:E1; [discriminate|].
  destruct (z_string_min1_trim "toolDescription" _ _) as [?|x2] eqn:E2; [discriminate|].
  destruct (z_string_min1_trim "nickname" _ _) as [?|x3] eqn:E3; [discriminate|].
  destruct (z_string_min1_trim "modelUsed" _ _) as [?|x4] eqn:E4; [discriminate|].
  destruct (z_file "toolFile" _ _ _ _) as [?|x5] eqn:E5; [discriminate|].
  injection Hvalid as <-. cbn [toolName toolDescription nickname modelUsed toolFile].
  apply z_string_min1_trim_value in E1 as (a & Ha & Na & ->).
  apply z_string_min1_trim_value in E2 as (b & Hb & Nb & ->).
  apply z_string_min1_trim_value in E3 as (c & Hc & Nc & ->).
  apply z_string_min1_trim_value in E4 as (d & Hd & Nd & ->).
  destruct (z_file_cases "toolFile" "A JavaScript file is required"
              "File must be a JavaScript file (.js)"
              (fun file => endsWith (file_name file) (js ".js"))
              (form_get formData (js "toolFile")))
    as [(f & Hf & Hchk & Ef)|[_ (i & Ei & _)]].
  2:{ rewrite Ei in E5. discriminate. }
  rewrite Ef in E5. injection E5 as <-.
  split; [exists a, b, c, d; repeat split; assumption|].
  split; [exact Hf|]. split; [exact Hchk|].
  intros s Hs Hblank. rewrite Hc in Hs. injection Hs as <-. apply trim_blank, Hblank.
Qed.

(** X9.  For a validated tool upload, [toolFile.name.replace(/\.js$/, '')]
    is the name of the file without its last three code units: the name is
    what the replacement gives, followed by [.js]. *)
Theorem script_extension_removed (formData : FormData) (data : UploadInput)
    (Hvalid : uploadInputSchema formData = inr data) :
  str_replace re_js_suffix false [] (file_name (toolFile data)) ++ js ".js"
  = file_name (toolFile data).
Proof.
  pose proof (uploadInputSchema_issues formData) as Hv. rewrite Hvalid in Hv.
  unfold failing_fields in Hv. apply app_eq_nil in Hv as [_ Hv].
  cbn [List.filter] in Hv.
  destruct (script_field_ok (form_get formData (js "toolFile"))) eqn:E;
    [|discriminate Hv].
  apply script_field_ok_cases in E as (f & Hf & Hends).
  assert (toolFile data = f) as ->.
  { unfold uploadInputSchema in Hvalid. rewrite Hf in Hvalid. cbn [z_file] in Hvalid.
    rewrite Hends in Hvalid.
    repeat match type of Hvalid with
           | context [z_string_min1_trim ?p ?m ?v] =>
               destruct (z_string_min1_trim p m v); [discriminate Hvalid|]
           end.
    injection Hvalid as <-. reflexivity. }
  rewrite strip_js_suffix, Hends.
  unfold endsWith in Hends. apply bool_decide_eq_true_1 in Hends.
  change (length (js ".js")) with 3%nat in Hends.
  rewrite <- Hends. apply take_drop.
Qed.

(** ** Every request is answered *)







(** ** The calls to the store *)

(** X11.  [getFromGitHub] makes one call, a GET without body of the
    contents URL of the path, with the token.  A rejected [fetch] is thrown
    on; a 404 is not an error but the result [null], whatever its body; any
    other status outside 200..299 throws the error that carries the status;
    a status in 200..299 gives the JSON of the body, and throws when the body
    is not JSON. *)
Theorem getFromGitHub_answers {W : Type}
    (remote : http_request -> W -> option response * W)
    (token owner repo path : jsstr) (w : world W) :
  let rq := {| rq_method := GET; rq_url := contents_url owner repo path;
               rq_token := token; rq_body := None |} in
  exists o,
    getFromGitHub remote token owner repo path w =
    (o, {| store := (remote rq (store w)).2;
           trace := trace w ++ [EvFetch rq (remote rq (store w)).1] |})
    /\ ((remote rq (store w)).1 = None -> o = Throw NetworkError)
    /\ (forall r, (remote rq (store w)).1 = Some r ->
          (resp_status r = 404%Z -> o = Ok Falsy)
          /\ (ok r = false -> resp_status r <> 404%Z ->
              o = Throw (GitHubApiError (resp_status r)))
          /\ (ok r = true -> forall j, resp_body_of r = JsonBody j -> o = Ok j)
          /\ (ok r = true -> resp_body_of r = NotJson -> o = Throw SyntaxError)).
Proof.
  cbn zeta. rewrite getFromGitHub_run. cbn zeta.
  eexists. split; [reflexivity|].
  unfold get_request.
  destruct (remote _ (store w)).1 as [r|]; cbn [get_result].
  - split; [discriminate|]. intros r' [= <-]. repeat split.
    + intros H404. assert (ok r = false) as ->.
      { unfold ok. rewrite H404. reflexivity. }
      rewrite H404. reflexivity.
    + intros -> Hne. apply Z.eqb_neq in Hne. rewrite Hne. reflexivity.
    + intros -> j ->. reflexivity.
    + intros -> ->. reflexivity.
  - split; [reflexivity|]. discriminate.
Qed.

(** X12.  [uploadToGitHub] and [uploadBinaryToGitHub] make one call each: a
    PUT to the contents URL of the path, to the branch [main], with the
    message and the content and without a version token, so that they can
    create a file and cannot replace one.  Any status outside 200..299, 404
    included, throws the error that carries the status. *)
Theorem payload_uploads {W : Type}
    (remote : http_request -> W -> option response * W)
    (token owner repo path message text : jsstr) (bytes : list N) (w : world W) :
  let rq c := {| rq_method := PUT; rq_url := contents_url owner repo path;
                 rq_token := token;
                 rq_body := Some {| put_message := message; put_content := c;
                                    put_sha := None; put_branch := js "main" |} |} in
  let one_call c (run : outcome ghjson * world W) :=
    run.2 = {| store := (remote (rq c) (store w)).2;
               trace := trace w ++ [EvFetch (rq c) (remote (rq c) (store w)).1] |}
    /\ ((remote (rq c) (store w)).1 = None -> run.1 = Throw NetworkError)
    /\ (forall r, (remote (rq c) (store w)).1 = Some r ->
          (ok r = false -> run.1 = Throw (GitHubApiError (resp_status r)))
          /\ (ok r = true -> forall j, resp_body_of r = JsonBody j -> run.1 = Ok j)
          /\ (ok r = true -> resp_body_of r = NotJson -> run.1 = Throw SyntaxError)) in
  one_call (TextContent text) (uploadToGitHub remote token owner repo path text message w)
  /\ one_call (BinaryContent bytes)
       (uploadBinaryToGitHub remote token owner repo path bytes message w).
Proof.
  cbn zeta.
  assert (forall c,
    let run := (put_result GitHubApiError
                  (remote (put_request token owner repo path message c None) (store w)).1,
                after w
                  (remote (put_request token owner repo path message c None) (store w)).2
                  [EvFetch (put_request token owner repo path message c None)
                     (remote (put_request token owner repo path message c None)
                        (store w)).1]) in
    run.2 = {| store := (remote (put_request token owner repo path message c None)
                           (store w)).2;
               trace := trace w
                 ++ [EvFetch (put_request token owner repo path message c None)
                       (remote (put_request token owner repo path message c None)
                          (store w)).1] |}
    /\ ((remote (put_request token owner repo path message c None) (store w)).1 = None ->
        run.1 = Throw NetworkError)
    /\ (forall r,
          (remote (put_request token owner repo path message c None) (store w)).1
          = Some r ->
          (ok r = false -> run.1 = Throw (GitHubApiError (resp_status r)))
          /\ (ok r = true -> forall j, resp_body_of r = JsonBody j -> run.1 = Ok j)
          /\ (ok r = true -> resp_body_of r = NotJson -> run.1 = Throw SyntaxError)))
    as Hcall.
  { intros c. cbn zeta. cbn [fst snd]. split; [reflexivity|].
    destruct (remote _ (store w)).1 as [r|]; cbn [put_result].
    - split; [discriminate|]. intros r' [= <-]. repeat split.
      + intros ->. reflexivity.
      + intros -> j ->. reflexivity.
      + intros -> ->. reflexivity.
    - split; [reflexivity|]. discriminate. }
  split.
  - rewrite uploadToGitHub_run. apply (Hcall (TextContent text)).
  - rewrite uploadBinaryToGitHub_run. apply (Hcall (BinaryContent bytes)).
Qed.

(** ** An output upload that succeeds: the manifest *)

Lemma strict_eq_str_true (v : option json) (s : jsstr) :
  strict_eq_str v s = true <-> v = Some (JStr s).
Proof.
  destruct v as [[| | |s'| |]|]; cbn [strict_eq_str]; split;
    try discriminate.
  - intros H. apply bool_decide_eq_true_1 in H. subst. reflexivity.
  - intros [= ->]. apply bool_decide_eq_true_2. reflexivity.
Qed.

Lemma array_find_id_some (items : list json) (id : jsstr) (t : json) :
  array_find_id items id = Ok (Some t) ->
  exists pre post,
    items = pre ++ t :: post
    /\ get_prop t (js "id") = Ok (Some (JStr id))
    /\ forall p, p ∈ pre -> get_prop p (js "id") <> Ok (Some (JStr id)).
Proof.
  induction items as [|t0 items IH]; cbn [array_find_id]; [discriminate|].
  destruct (get_prop t0 (js "id")) as [v|e] eqn:E0; [|discriminate].
  destruct (strict_eq_str v id) eqn:Ev.
  - intros [= <-]. exists [], items. apply strict_eq_str_true in Ev. subst v.
    repeat split; [exact E0|]. intros p Hp. apply elem_of_nil in Hp. contradiction.
  - intros H. destruct (IH H) as (pre & post & -> & Hid & Hpre).
    exists (t0 :: pre), post. repeat split; [exact Hid|].
    intros p Hp. apply elem_of_cons in Hp as [->|Hp]; [|apply Hpre, Hp].
    rewrite E0. intros [= ->].
    assert (strict_eq_str (Some (JStr id)) id = true) as Ht
      by (apply strict_eq_str_true; reflexivity).
    congruence.
Qed.

Lemma find_tool_some (found : ghjson) (id : jsstr) (t : json) :
  find_tool found id = Ok (Some t) ->
  exists manifest0 sha0 pre post props,
    found = FileJson (Some manifest0) sha0
    /\ get_prop manifest0 (js "tools") = Ok (Some (JArr (pre ++ t :: post) props))
    /\ get_prop t (js "id") = Ok (Some (JStr id))
    /\ forall p, p ∈ pre -> get_prop p (js "id") <> Ok (Some (JStr id)).
Proof.
  unfold find_tool.
  destruct found as [[manifest0|] sha0| |]; cbn [parse_content]; try discriminate.
  destruct (get_prop manifest0 (js "tools")) as [tools|e] eqn:Et; [|discriminate].
  destruct tools as [[| | | |items props|]|]; cbn [opt_find_id]; try discriminate.
  intros H. destruct (array_find_id_some _ _ _ H) as (pre & post & -> & Hid & Hpre).
  exists manifest0, sha0, pre, post, props. repeat split; assumption.
Qed.

Lemma output_entry_fields (rt : Runtime) (data : UploadOutput) (toolUrl : option json) :
  field_of (output_entry rt data toolUrl) (js "id") = Some (JStr (output_id rt data))
  /\ field_of (output_entry rt data toolUrl) (js "toolId") = Some (JStr (toolId data))
  /\ field_of (output_entry rt data toolUrl) (js "toolUrl") = toolUrl
  /\ field_of (output_entry rt data toolUrl) (js "url")
     = Some (JStr (js "outputs/" ++ output_filename rt data))
  /\ field_of (output_entry rt data toolUrl) (js "createdAt") = Some (JStr (now_iso rt)).
Proof.
  unfold output_entry, OutputManifestEntry, field_of.
  destruct toolUrl; repeat split; reflexivity.
Qed.

(** X13.  An output upload that is answered 200 has made four calls: the
    read of the manifest in which the tool is looked up; the write of the
    image, a PUT of the bytes of the validated file to [outputs/] and the
    derived file name under the workshop, without a version token, that the
    store did not refuse; a second read of the manifest; and the write of
    the manifest with the version token of the second read.  The tool is the first item of
    [tools] in the first read whose [id] is the submitted tool id; the new
    entry carries that id as its [toolId] and the [url] of the tool as its
    [toolUrl].  When the second read is an object, the written manifest has
    the new entry in front of the outputs that were there, and the same
    tools and other fields. *)
Theorem output_upload_prepends {W : Type}
    (remote : http_request -> W -> option response * W)
    (rt : Runtime) (request : Request) (env : Env) (w w' : world W) (reply : Reply)
    (Hmethod : req_method request = js "POST")
    (Horigin : default [] (req_origin request) = ALLOWED_ORIGIN env)
    (Hpath : req_pathname request = js "/upload/output")
    (Hrun : default_fetch remote rt request env w = (Ok reply, w'))
    (Hok : reply_status reply = 200%Z) :
  exists formData data a1 manifest0 sha0 pre tool post props a2 toolUrl a3
         currentManifest manifest a4,
    let rq1 := get_request (GITHUB_TOKEN env) (GITHUB_OWNER env) (GITHUB_REPO env)
                 (manifest_path env) in
    let rq2 := put_request (GITHUB_TOKEN env) (GITHUB_OWNER env) (GITHUB_REPO env)
                 (ACTIVE_WORKSHOP_SLUG env ++ js "/outputs/" ++ output_filename rt data)
                 (js "Add output for " ++ toolId data)
                 (BinaryContent (file_bytes (outputFile data))) None in
    let rq4 := put_request (GITHUB_TOKEN env) (GITHUB_OWNER env) (GITHUB_REPO env)
                 (manifest_path env) (js "Update manifest with new output")
                 (JsonContent manifest) (sha_of currentManifest) in
    let stored := manifest_read currentManifest in
    let newOutput := output_entry rt data toolUrl in
    req_form request = Some formData
    /\ uploadOutputSchema formData = inr data
    /\ trace w' = trace w ++ [EvFormData; EvFetch rq1 a1; EvFetch rq2 a2;
                              EvFetch rq1 a3; EvFetch rq4 a4]
    /\ get_result a1 = Ok (FileJson (Some manifest0) sha0)
    /\ failed rq2 a2 = false
    /\ get_prop manifest0 (js "tools") = Ok (Some (JArr (pre ++ tool :: post) props))
    /\ get_prop tool (js "id") = Ok (Some (JStr (toolId data)))
    /\ (forall p, p ∈ pre -> get_prop p (js "id") <> Ok (Some (JStr (toolId data))))
    /\ get_prop tool (js "url") = Ok toolUrl
    /\ field_of newOutput (js "toolId") = Some (JStr (toolId data))
    /\ field_of newOutput (js "toolUrl") = toolUrl
    /\ get_result a3 = Ok currentManifest
    /\ failed rq4 a4 = false
    /\ (is_object stored = true ->
        array_of manifest (js "outputs") = newOutput :: array_of stored (js "outputs")
        /\ array_of manifest (js "tools") = array_of stored (js "tools")
        /\ forall k, k <> js "outputs" -> field_of manifest k = field_of stored k).
Proof.
  rewrite (default_fetch_post remote rt request env w Hmethod Horigin) in Hrun.
  rewrite Hpath in Hrun.
  rewrite (bool_decide_eq_false_2 (js "/upload/output" = js "/upload/tool")) in Hrun
    by discriminate.
  rewrite (bool_decide_eq_true_2 (js "/upload/output" = js "/upload/output")) in Hrun
    by reflexivity.
  destruct (output_upload_success remote rt request env _ w w' reply Hrun Hok)
    as (formData & data & a1 & found & tool & a2 & toolUrl & a3 & cm & manifest & a4
        & Hform & Hvalid & Htrace & Hget1 & Hfind & Hput2 & Hurl & Hget3 & Hnext
        & Hput4 & Hreply).
  cbn zeta in *.
  destruct (find_tool_some _ _ _ Hfind)
    as (manifest0 & sha0 & pre & post & props & -> & Htools & Hid & Hpre).
  destruct (output_entry_fields rt data toolUrl) as (_ & HtoolId & HtoolUrl & _).
  exists formData, data, a1, manifest0, sha0, pre, tool, post, props, a2,
    toolUrl, a3, cm, manifest, a4.
  cbn zeta.
  split; [exact Hform|]. split; [exact Hvalid|]. split; [exact Htrace|].
  split; [exact Hget1|]. split; [exact Hput2|]. split; [exact Htools|].
  split; [exact Hid|].
  split; [exact Hpre|]. split; [exact Hurl|]. split; [exact HtoolId|].
  split; [exact HtoolUrl|]. split; [exact Hget3|]. split; [exact Hput4|].
  intros Hobj.
  destruct (next_manifest_object _ _ _ _ _ Hnext Hobj) as (_ & Harr & Hrest).
  split; [exact Harr|]. split; [|exact Hrest].
  rewrite !array_of_field, Hrest by discriminate. reflexivity.
Qed.

(** ** What the reply tells about the store *)

Lemma manifest_write_json (token owner repo path message : jsstr) (m : json)
    (sha : option jsstr) (a : option response) :
  is_manifest_write (EvFetch (put_request token owner repo path message (JsonContent m) sha) a)
  = accepted a
  /\ is_payload_write
       (EvFetch (put_request token owner repo path message (JsonContent m) sha) a)
     = false.
Proof. split; reflexivity. Qed.

Lemma payload_write_put (token owner repo path message : jsstr) (c : content)
    (sha : option jsstr) (a : option response) :
  match c with JsonContent _ => False | _ => True end ->
  is_payload_write (EvFetch (put_request token owner repo path message c sha) a)
  = accepted a
  /\ is_manifest_write (EvFetch (put_request token owner repo path message c sha) a)
     = false.
Proof. destruct c; intros []; split; reflexivity. Qed.

Lemma no_write_get (token owner repo path : jsstr) (a : option response) :
  is_manifest_write (EvFetch (get_request token owner repo path) a) = false
  /\ is_payload_write (EvFetch (get_request token owner repo path) a) = false.
Proof. split; reflexivity. Qed.

Lemma accepted_ok (error : Z -> exn) (a : option response) (j : ghjson) :
  put_result error a = Ok j -> accepted a = true.
Proof.
  destruct a as [r|]; cbn; [|discriminate]. destruct (ok r); [reflexivity | discriminate].
Qed.

Lemma accepted_throw (error : Z -> exn) (a : option response) (e : exn) :
  put_result error a = Throw e -> accepted a = unreadable a.
Proof.
  destruct a as [r|]; cbn; [|reflexivity].
  destruct (ok r); [|reflexivity]. destruct (resp_body_of r); [discriminate | reflexivity].
Qed.

Ltac count_writes :=
  unfold writes; cbn [List.filter existsb is_unreadable];
  repeat match goal with
         | |- context [is_manifest_write EvFormData] =>
             change (is_manifest_write EvFormData) with false;
             change (is_payload_write EvFormData) with false
         | |- context [is_manifest_write (EvConsoleError ?e)] =>
             change (is_manifest_write (EvConsoleError e)) with false;
             change (is_payload_write (EvConsoleError e)) with false
         | |- context [is_manifest_write (EvFetch (get_request ?t ?o ?r ?p) ?a)] =>
             rewrite (proj1 (no_write_get t o r p a)), (proj2 (no_write_get t o r p a))
         | |- context [is_manifest_write
                         (EvFetch (put_request ?t ?o ?r ?p ?m (JsonContent ?c) ?s) ?a)] =>
             rewrite (proj1 (manifest_write_json t o r p m c s a)),
               (proj2 (manifest_write_json t o r p m c s a))
         | |- context [is_manifest_write
                         (EvFetch (put_request ?t ?o ?r ?p ?m (TextContent ?c) ?s) ?a)] =>
             rewrite (proj1 (payload_write_put t o r p m (TextContent c) s a I)),
               (proj2 (payload_write_put t o r p m (TextContent c) s a I))
         | |- context [is_manifest_write
                         (EvFetch (put_request ?t ?o ?r ?p ?m (BinaryContent ?c) ?s) ?a)] =>
             rewrite (proj1 (payload_write_put t o r p m (BinaryContent c) s a I)),
               (proj2 (payload_write_put t o r p m (BinaryContent c) s a I))
         end;
  repeat match goal with
         | H : put_result ?err ?a = Ok _ |- context [accepted ?a] =>
             rewrite (accepted_ok err a _ H)
         | H : put_result ?err ?a = Throw _ |- context [accepted ?a] =>
             rewrite (accepted_throw err a _ H)
         end;
  repeat match goal with
         | |- context [unreadable ?a] => destruct (unreadable a)
         end;
  cbn [negb length orb fst snd]; rewrite ?orb_true_r;
  repeat split;
  first [ lia | reflexivity | (intros; lia) | (intros; reflexivity)
        | (intros H; discriminate H)
        | (let H := fresh in intros _ H; exfalso; apply H; reflexivity) ].

Ltac written :=
  eexists _, _, _; split; [reflexivity|]; count_writes.

Lemma tool_upload_writes {W : Type}
    (remote : http_request -> W -> option response * W)
    (rt : Runtime) (request : Request) (env : Env) (cors : CorsHeaders) (w : world W) :
  exists reply st evs,
    handleToolUpload remote rt request env cors w = (Ok reply, after w st evs)
    /\ ((writes evs).1 <= (writes evs).2 <= 1)%nat
    /\ (reply_status reply = 200%Z -> (writes evs).1 = 1%nat)
    /\ ((writes evs).1 = 1%nat -> reply_status reply <> 200%Z ->
        existsb is_unreadable evs = true)
    /\ ((writes evs).1 = 1%nat -> reply_status reply <> 200%Z ->
        reply_status reply = 500%Z).
Proof.
  rewrite handleToolUpload_run. unfold tool_upload_cases. cbn zeta.
  destruct (req_form request) as [formData|]; [|written].
  destruct (uploadInputSchema formData) as [issues|data]; [written|].
  destruct (put_result GitHubApiError _) eqn:H1; [|written].
  destruct (get_result _) as [cm|] eqn:H2; [|written].
  destruct (next_manifest _ cm _) as [[m sha]|] eqn:H3; [|written].
  destruct (put_result ManifestUpdateError _) eqn:H4; written.
Qed.

Lemma output_upload_writes {W : Type}
    (remote : http_request -> W -> option response * W)
    (rt : Runtime) (request : Request) (env : Env) (cors : CorsHeaders) (w : world W) :
  exists reply st evs,
    handleOutputUpload remote rt request env cors w = (Ok reply, after w st evs)
    /\ ((writes evs).1 <= (writes evs).2 <= 1)%nat
    /\ (reply_status reply = 200%Z -> (writes evs).1 = 1%nat)
    /\ ((writes evs).1 = 1%nat -> reply_status reply <> 200%Z ->
        existsb is_unreadable evs = true)
    /\ ((writes evs).1 = 1%nat -> reply_status reply <> 200%Z ->
        reply_status reply = 500%Z).
Proof.
  rewrite handleOutputUpload_run. unfold output_upload_cases. cbn zeta.
  destruct (req_form request) as [formData|]; [|written].
  destruct (uploadOutputSchema formData) as [issues|data]; [written|].
  destruct (get_result _) as [cm|]; [|written].
  destruct (gh_truthy cm); cbn [negb]; [|written].
  destruct (find_tool cm _) as [tool|]; [|written].
  destruct (truthy tool); cbn [negb]; [|written].
  destruct (put_result GitHubApiError _) eqn:H2; [|written].
  destruct (get_prop_opt tool _) as [toolUrl|]; [|written].
  destruct (get_result _) as [cm'|]; [|written].
  destruct (next_manifest _ cm' _) as [[m sha]|]; [|written].
  destruct (put_result ManifestUpdateError _) eqn:H4; written.
Qed.

(** X14.  What the reply tells about the store, in either workflow.  A run
    writes at most one payload and at most one manifest, and no manifest
    without having written the payload.  A reply 200 means that both were
    written.  Any other reply means that the manifest was not written, with
    one exception: the store accepted the write and its answer could not be
    read as JSON; the reply is then 500. *)
Theorem reply_tells_writes {W : Type}
    (remote : http_request -> W -> option response * W)
    (rt : Runtime) (request : Request) (env : Env) (cors : CorsHeaders)
    (w w' : world W) (o : outcome Reply)
    (Hrun : handleToolUpload remote rt request env cors w = (o, w')
            \/ handleOutputUpload remote rt request env cors w = (o, w')) :
  exists reply evs,
    o = Ok reply /\ trace w' = trace w ++ evs
    /\ ((writes evs).1 <= (writes evs).2 <= 1)%nat
    /\ (reply_status reply = 200%Z -> writes evs = (1, 1)%nat)
    /\ ((writes evs).1 = 1%nat -> reply_status reply <> 200%Z ->
        reply_status reply = 500%Z /\ existsb is_unreadable evs = true).
Proof.
  assert (exists reply st evs,
             (o, w') = (Ok reply, after w st evs)
             /\ ((writes evs).1 <= (writes evs).2 <= 1)%nat
             /\ (reply_status reply = 200%Z -> (writes evs).1 = 1%nat)
             /\ ((writes evs).1 = 1%nat -> reply_status reply <> 200%Z ->
                 existsb is_unreadable evs = true)
             /\ ((writes evs).1 = 1%nat -> reply_status reply <> 200%Z ->
                 reply_status reply = 500%Z)) as H.
  { destruct Hrun as [Hrun|Hrun]; rewrite <- Hrun.
    - apply tool_upload_writes.
    - apply output_upload_writes. }
  destruct H as (reply & st & evs & [= -> ->] & Hle & H200 & Hbad & H500).
  exists reply, evs. split; [reflexivity|]. split; [reflexivity|].
  split; [exact Hle|]. split.
  - intros Hs. specialize (H200 Hs). destruct (writes evs) as [m p]. cbn in *.
    f_equal; lia.
  - intros Hm Hs. split; [exact (H500 Hm Hs) | exact (Hbad Hm Hs)].
Qed.

(** ** The earlier variant and the tool endpoint *)

Lemma next_manifest_v0_same (cm : ghjson) (x : json) :
  has_tools cm = true -> next_manifest_v0 cm x = next_manifest (js "tools") cm x.
Proof.
  destruct cm as [[manifest|] sha| |]; cbn [has_tools]; try discriminate.
  destruct (get_prop manifest (js "tools")) as [tools|] eqn:Et; [|discriminate].
  intros Htr. unfold next_manifest_v0, next_manifest.
  cbn [gh_truthy parse_content sha_of]. unfold ensure_array.
  rewrite Et, Htr. reflexivity.
Qed.

(** X15.  The earlier variant (the second source file) and the tool
    endpoint of src/index.ts.  For a POST from the allowed origin, whatever
    its path, the earlier variant does what [handleToolUpload] does, reply,
    calls and store, whenever the manifest that is read during the run is a
    file whose [tools] is there. *)
Theorem variant_agrees {W : Type}
    (remote : http_request -> W -> option response * W)
    (rt : Runtime) (request : Request) (env : Env) (w : world W)
    (Hmethod : req_method request = js "POST")
    (Horigin : default [] (req_origin request) = ALLOWED_ORIGIN env)
    (Hstored : forall formData data,
        req_form request = Some formData ->
        uploadInputSchema formData = inr data ->
        let rq1 := put_request (GITHUB_TOKEN env) (GITHUB_OWNER env) (GITHUB_REPO env)
                     (ACTIVE_WORKSHOP_SLUG env ++ js "/tools/" ++ tool_filename rt data)
                     (js "Add sketch by " ++ nickname data)
                     (TextContent (file_text (toolFile data))) None in
        let rq2 := get_request (GITHUB_TOKEN env) (GITHUB_OWNER env) (GITHUB_REPO env)
                     (manifest_path env) in
        forall cm, get_result (remote rq2 (remote rq1 (store w)).2).1 = Ok cm ->
                   has_tools cm = true) :
  SingleEndpoint.default_fetch remote rt request env w
  = handleToolUpload remote rt request env (corsHeaders_of env) w.
Proof.
  rewrite handleToolUpload_run.
  unfold SingleEndpoint.default_fetch. cbn zeta. rewrite Hmethod, Horigin.
  rewrite (bool_decide_eq_false_2 (js "POST" = js "OPTIONS")) by discriminate.
  rewrite (bool_decide_eq_true_2 (js "POST" = js "POST")) by reflexivity.
  rewrite (bool_decide_eq_true_2 (ALLOWED_ORIGIN env = ALLOWED_ORIGIN env)) by reflexivity.
  cbn [negb].
  unfold tool_upload_cases, try_catch, request_formData.
  unfold bind at 1 2. rewrite log_run.
  destruct (req_form request) as [formData|] eqn:Hform.
  2:{ unfold throw. rewrite internal_error_run, after_after. reflexivity. }
  unfold ret at 1.
  destruct (uploadInputSchema formData) as [issues|data] eqn:Hvalid; [reflexivity|].
  specialize (Hstored formData data eq_refl Hvalid). cbn zeta in Hstored.
  unfold bind at 1. rewrite uploadToGitHub_run. cbn zeta.
  rewrite !store_after.
  change (sanitizeString (nickname data) 20 ++ js "-"
            ++ sanitizeString (str_replace re_js_suffix false []
                                 (file_name (toolFile data))) 30
            ++ js "-" ++ generateRandomString rt 6 ++ js ".js")
    with (tool_filename rt data).
  set (rq1 := put_request _ _ _ _ _ _ _) in *.
  destruct (put_result GitHubApiError _) as [j1|e].
  2:{ rewrite internal_error_run, !after_after. reflexivity. }
  unfold bind at 1.
  change (SingleEndpoint.updateManifest remote (GITHUB_TOKEN env) (GITHUB_OWNER env)
            (GITHUB_REPO env) (ACTIVE_WORKSHOP_SLUG env ++ js "/manifest.json")
            ?x)
    with (SingleEndpoint.updateManifest remote (GITHUB_TOKEN env) (GITHUB_OWNER env)
            (GITHUB_REPO env) (manifest_path env) (tool_entry rt data)).
  rewrite updateManifest_run. cbn zeta.
  rewrite !store_after, !after_after.
  set (rq2 := get_request _ _ _ _) in *.
  destruct (get_result _) as [cm|e].
  2:{ rewrite internal_error_run, !after_after. reflexivity. }
  rewrite (next_manifest_v0_same cm _ (Hstored cm eq_refl)).
  destruct (next_manifest _ cm _) as [[m sha]|e].
  2:{ rewrite internal_error_run, !after_after. reflexivity. }
  rewrite put_manifest_run. cbn zeta. rewrite !store_after, !after_after.
  set (rq3 := put_request _ _ _ _ _ _ _).
  destruct (put_result ManifestUpdateError _) as [j3|e].
  2:{ rewrite internal_error_run, !after_after. reflexivity. }
  reflexivity.
Qed.

(** ** What is stored is what was uploaded *)

Lemma validated_tool_file (formData : FormData) (data : UploadInput) :
  uploadInputSchema formData = inr data ->
  form_get formData (js "toolFile") = Some (FFile (toolFile data)).
Proof.
  intros Hvalid. unfold uploadInputSchema in Hvalid.
  destruct (z_file_cases "toolFile" "A JavaScript file is required"
              "File must be a JavaScript file (.js)"
              (fun file => endsWith (file_name file) (js ".js"))
              (form_get formData (js "toolFile")))
    as [(f & Hf & _ & Ef)|[_ (i & Ei & _)]].
  - rewrite Ef in Hvalid.
    repeat match type of Hvalid with
           | context [z_string_min1_trim ?p ?m ?v] =>
               destruct (z_string_min1_trim p m v); [discriminate Hvalid|]
           end.
    injection Hvalid as <-. exact Hf.
  - rewrite Ei in Hvalid.
    repeat match type of Hvalid with
           | context [z_string_min1_trim ?p ?m ?v] =>
               destruct (z_string_min1_trim p m v); try discriminate Hvalid
           end.
Qed.

Lemma not_failed_accepted (token owner repo path message : jsstr) (c : content)
    (sha : option jsstr) (a : option response) :
  failed (put_request token owner repo path message c sha) a = false ->
  accepted a = true.
Proof.
  destruct a as [r|]; cbn; [|discriminate]. destruct (ok r); [reflexivity | discriminate].
Qed.

(** X16.  What is stored is what was uploaded.  A tool upload that is
    answered 200 has sent, as its first call to the store, the text of the
    file submitted as [toolFile], to [tools/] and the file name of the reply
    under the workshop, with the message that names the validated nickname
    and without a version token; the store accepted it.  An output upload
    that is answered 200 has sent, after the read of the manifest, the bytes
    of the file submitted as [outputFile], to [outputs/] and the file name
    of the reply, with the message that names the submitted tool id. *)
Theorem payload_is_the_upload {W : Type}
    (remote : http_request -> W -> option response * W)
    (rt : Runtime) (request : Request) (env : Env) (cors : CorsHeaders)
    (w w' : world W) (reply : Reply)
    (Hok : reply_status reply = 200%Z) :
  (handleToolUpload remote rt request env cors w = (Ok reply, w') ->
   exists formData data filename a1 rest,
     req_form request = Some formData
     /\ uploadInputSchema formData = inr data
     /\ form_get formData (js "toolFile") = Some (FFile (toolFile data))
     /\ reply_body_of reply = SuccessBody filename (galleryUrl_of env)
     /\ trace w' = trace w
          ++ EvFormData
          :: EvFetch (put_request (GITHUB_TOKEN env) (GITHUB_OWNER env) (GITHUB_REPO env)
                        (ACTIVE_WORKSHOP_SLUG env ++ js "/tools/" ++ filename)
                        (js "Add sketch by " ++ nickname data)
                        (TextContent (file_text (toolFile data))) None) a1
          :: rest
     /\ accepted a1 = true)
  /\ (handleOutputUpload remote rt request env cors w = (Ok reply, w') ->
      exists formData data filename a1 a2 rest,
        req_form request = Some formData
        /\ uploadOutputSchema formData = inr data
        /\ form_get formData (js "toolId") = Some (FString (toolId data))
        /\ form_get formData (js "outputFile") = Some (FFile (outputFile data))
        /\ reply_body_of reply = SuccessBody filename (galleryUrl_of env)
        /\ trace w' = trace w
             ++ EvFormData
             :: EvFetch (get_request (GITHUB_TOKEN env) (GITHUB_OWNER env)
                           (GITHUB_REPO env) (manifest_path env)) a1
             :: EvFetch (put_request (GITHUB_TOKEN env) (GITHUB_OWNER env)
                           (GITHUB_REPO env)
                           (ACTIVE_WORKSHOP_SLUG env ++ js "/outputs/" ++ filename)
                           (js "Add output for " ++ toolId data)
                           (BinaryContent (file_bytes (outputFile data))) None) a2
             :: rest
        /\ accepted a2 = true).
Proof.
  split; intros Hrun.
  - destruct (tool_upload_success remote rt request env cors w w' reply Hrun Hok)
      as (formData & data & a1 & a2 & cm & manifest & a3
          & Hform & Hvalid & Htrace & Hput1 & _ & _ & _ & ->).
    cbn zeta in *.
    exists formData, data, (tool_filename rt data), a1. eexists.
    split; [exact Hform|]. split; [exact Hvalid|].
    split; [exact (validated_tool_file _ _ Hvalid)|].
    split; [reflexivity|]. split; [exact Htrace|].
    exact (not_failed_accepted _ _ _ _ _ _ _ _ Hput1).
  - destruct (output_upload_success remote rt request env cors w w' reply Hrun Hok)
      as (formData & data & a1 & found & tool & a2 & toolUrl & a3 & cm & manifest & a4
          & Hform & Hvalid & Htrace & _ & _ & Hput2 & _ & _ & _ & _ & ->).
    cbn zeta in *.
    pose proof (uploadOutputSchema_issues formData) as Hv. rewrite Hvalid in Hv.
    destruct Hv as (_ & Hid & _ & Hfile & _).
    exists formData, data, (output_filename rt data), a1, a2. eexists.
    split; [exact Hform|]. split; [exact Hvalid|].
    split; [exact Hid|]. split; [exact Hfile|].
    split; [reflexivity|]. split; [exact Htrace|].
    exact (not_failed_accepted _ _ _ _ _ _ _ _ Hput2).
Qed.

Lemma payload_is_the_upload_witness :
  let w := Example.start Example.store_old in
  let w' := (handleToolUpload GitHub.serve Example.rt Example.tool_request Example.env
               (corsHeaders_of Example.env) w).2 in
  exists formData data filename a1 rest,
    req_form Example.tool_request = Some formData
    /\ uploadInputSchema formData = inr data
    /\ form_get formData (js "toolFile") = Some (FFile (toolFile data))
    /\ reply_body_of Example.tool_success = SuccessBody filename (galleryUrl_of Example.env)
    /\ trace w' = trace w
         ++ EvFormData
         :: EvFetch (put_request (js "token") (js "owner") (js "gallery")
                       (js "workshop" ++ js "/tools/" ++ filename)
                       (js "Add sketch by " ++ nickname data)
                       (TextContent (file_text (toolFile data))) None) a1
         :: rest
    /\ accepted a1 = true.
Proof.
  cbn zeta.
  apply (proj1 (payload_is_the_upload GitHub.serve Example.rt Example.tool_request
                  Example.env (corsHeaders_of Example.env)
                  (Example.start Example.store_old) _ Example.tool_success eq_refl)).
  reflexivity.
Defined.

(** ** Errors are logged *)

Ltac logged :=
  eexists _, _, _; split; [reflexivity|];
  split;
  [ first [ (intros H; discriminate H)
          | (intros _; eexists; split; reflexivity) ]
  | first [ (intros _; reflexivity)
          | (intros H; exfalso; apply H; reflexivity) ] ].

(** X17.  Errors are logged.  In either workflow a reply 500 comes with
    one call of [console.error], the last thing the run does; any other
    reply comes with none. *)
Theorem errors_are_logged {W : Type}
    (remote : http_request -> W -> option response * W)
    (rt : Runtime) (request : Request) (env : Env) (cors : CorsHeaders)
    (w w' : world W) (o : outcome Reply)
    (Hrun : handleToolUpload remote rt request env cors w = (o, w')
            \/ handleOutputUpload remote rt request env cors w = (o, w')) :
  exists reply evs,
    o = Ok reply /\ trace w' = trace w ++ evs
    /\ (reply_status reply = 500%Z ->
        exists e, last evs = Some (EvConsoleError e)
                  /\ length (List.filter is_console_error evs) = 1%nat)
    /\ (reply_status reply <> 500%Z -> List.filter is_console_error evs = []).
Proof.
  assert (exists reply st evs,
             (o, w') = (Ok reply, after w st evs)
             /\ (reply_status reply = 500%Z ->
                 exists e, last evs = Some (EvConsoleError e)
                           /\ length (List.filter is_console_error evs) = 1%nat)
             /\ (reply_status reply <> 500%Z -> List.filter is_console_error evs = []))
    as (reply & st & evs & [= -> ->] & H500 & Hother).
  { destruct Hrun as [Hrun|Hrun]; rewrite <- Hrun.
    - rewrite handleToolUpload_run. unfold tool_upload_cases. cbn zeta.
      destruct (req_form request) as [formData|]; [|logged].
      destruct (uploadInputSchema formData) as [issues|data]; [logged|].
      destruct (put_result GitHubApiError _); [|logged].
      destruct (get_result _) as [cm|]; [|logged].
      destruct (next_manifest _ cm _) as [[m sha]|]; [|logged].
      destruct (put_result ManifestUpdateError _); logged.
    - rewrite handleOutputUpload_run. unfold output_upload_cases. cbn zeta.
      destruct (req_form request) as [formData|]; [|logged].
      destruct (uploadOutputSchema formData) as [issues|data]; [logged|].
      destruct (get_result _) as [cm|]; [|logged].
      destruct (gh_truthy cm); cbn [negb]; [|logged].
      destruct (find_tool cm _) as [tool|]; [|logged].
      destruct (truthy tool); cbn [negb]; [|logged].
      destruct (put_result GitHubApiError _); [|logged].
      destruct (get_prop_opt tool _) as [toolUrl|]; [|logged].
      destruct (get_result _) as [cm'|]; [|logged].
      destruct (next_manifest _ cm' _) as [[m sha]|]; [|logged].
      destruct (put_result ManifestUpdateError _); logged. }
  exists reply, evs. repeat split; assumption.
Qed.

Lemma errors_are_logged_witness :
  let w := Example.start Example.store_raced in
  let run := handleToolUpload GitHub.serve Example.rt Example.tool_request Example.env
               (corsHeaders_of Example.env) w in
  exists reply evs,
    run.1 = Ok reply /\ trace run.2 = trace w ++ evs
    /\ (reply_status reply = 500%Z ->
        exists e, last evs = Some (EvConsoleError e)
                  /\ length (List.filter is_console_error evs) = 1%nat)
    /\ (reply_status reply <> 500%Z -> List.filter is_console_error evs = []).
Proof.
  cbn zeta.
  apply (errors_are_logged GitHub.serve Example.rt Example.tool_request Example.env
           (corsHeaders_of Example.env) (Example.start Example.store_raced)).
  left. apply surjective_pairing.
Defined.

(** ** Base64 *)

(** Arithmetic with quotients and remainders. *)
Ltac euclid := zify; Z.to_euclidean_division_equations; lia.

Ltac decide_tests :=
  repeat match goal with
         | |- context [?a <=? ?b] =>
             first [ rewrite (proj2 (N.leb_le a b)) by euclid
                   | rewrite (proj2 (N.leb_gt a b)) by euclid ]
         | |- context [?a <? ?b] =>
             first [ rewrite (proj2 (N.ltb_lt a b)) by euclid
                   | rewrite (proj2 (N.ltb_ge a b)) by euclid ]
         | |- context [?a =? ?b] =>
             first [ rewrite (proj2 (N.eqb_eq a b)) by euclid
                   | rewrite (proj2 (N.eqb_neq a b)) by euclid ]
         end.

Lemma b64_value_char (i : N) : i < 64 -> b64_value (b64_char i) = Some i.
Proof.
  intros Hi. unfold b64_char.
  destruct (N.ltb_spec i 26); [|destruct (N.ltb_spec i 52); [|destruct (N.ltb_spec i 62);
    [|destruct (N.eqb_spec i 62)]]]; unfold b64_value; decide_tests; cbn [andb];
    f_equal; lia.
Qed.

Lemma b64_char_plain (i : N) :
  b64_char i <> b64_pad /\ is_ascii_whitespace (b64_char i) = false.
Proof.
  unfold b64_char, b64_pad, is_ascii_whitespace.
  destruct (N.ltb_spec i 26); [|destruct (N.ltb_spec i 52); [|destruct (N.ltb_spec i 62);
    [|destruct (N.eqb_spec i 62)]]]; (split; [lia|]); decide_tests; reflexivity.
Qed.

(** Induction three items at a time. *)
Lemma triples_ind (P : list N -> Prop) :
  P [] -> (forall a, P [a]) -> (forall a b, P [a; b]) ->
  (forall a b c rest, P rest -> P (a :: b :: c :: rest)) ->
  forall l, P l.
Proof.
  intros H0 H1 H2 H3 l.
  enough (P l /\ (forall a, P (a :: l)) /\ (forall a b, P (a :: b :: l))) by tauto.
  induction l as [|c l (IH0 & IH1 & IH2)]; [auto|].
  split; [apply IH1|]. split; [intros a; apply IH2|]. intros a b. apply H3, IH0.
Qed.

Lemma b64_encode_sextets (bytes : list N) :
  b64_encode bytes = map b64_char (sextets bytes) ++ replicate (pad_count bytes) b64_pad.
Proof.
  induction bytes as [|a|a b|a b c rest IH] using triples_ind; try reflexivity.
  cbn [b64_encode sextets pad_count map app]. rewrite IH. reflexivity.
Qed.

Lemma sextets_small (bytes : list N) :
  Forall (fun b => b < 256) bytes -> Forall (fun v => v < 64) (sextets bytes).
Proof.
  induction bytes as [|a|a b|a b c rest IH] using triples_ind; intros H; cbn [sextets].
  - constructor.
  - apply Forall_cons in H as [Ha _]. repeat constructor; euclid.
  - apply Forall_cons in H as [Ha [Hb _]%Forall_cons]. repeat constructor; euclid.
  - apply Forall_cons in H as [Ha [Hb [Hc Hr]%Forall_cons]%Forall_cons].
    repeat (apply Forall_cons; split; [euclid|]). apply IH, Hr.
Qed.

Lemma octets_sextets (bytes : list N) :
  Forall (fun b => b < 256) bytes -> octets (sextets bytes) = bytes.
Proof.
  induction bytes as [|a|a b|a b c rest IH] using triples_ind; intros H;
    cbn [sextets octets app].
  - reflexivity.
  - apply Forall_cons in H as [Ha _]. f_equal. euclid.
  - apply Forall_cons in H as [Ha [Hb _]%Forall_cons]. f_equal; [|f_equal]; euclid.
  - apply Forall_cons in H as [Ha [Hb [Hc Hr]%Forall_cons]%Forall_cons].
    rewrite (IH Hr). f_equal; [|f_equal; [|f_equal]]; euclid.
Qed.

Lemma sextets_length (bytes : list N) :
  exists k, (length (sextets bytes) + pad_count bytes = 4 * k)%nat
            /\ (pad_count bytes <= 2)%nat
            /\ (length (sextets bytes) = 4 * k - pad_count bytes)%nat.
Proof.
  induction bytes as [|a|a b|a b c rest (k & IH1 & IH2 & IH3)] using triples_ind;
    cbn [sextets pad_count length app].
  - exists 0%nat. lia.
  - exists 1%nat. lia.
  - exists 1%nat. lia.
  - exists (S k). lia.
Qed.

Lemma strip_padding_encoded (values : list N) (p k : nat) :
  (length values + p = 4 * k)%nat -> (p <= 2)%nat ->
  strip_padding (map b64_char values ++ replicate p b64_pad) = map b64_char values.
Proof.
  intros Hlen Hp. unfold strip_padding.
  rewrite length_app, length_map, length_replicate, Hlen.
  replace (4 * k)%nat with (k * 4)%nat by lia. rewrite Nat.Div0.mod_mul.
  cbn [Nat.eqb]. rewrite reverse_app, reverse_replicate.
  assert (match reverse (map b64_char values) with
          | c :: _ => c =? b64_pad
          | [] => false
          end = false) as Hhead.
  { change (map b64_char values) with (b64_char <$> values).
    rewrite <- fmap_reverse. destruct (reverse values) as [|v r]; [reflexivity|].
    cbn. apply N.eqb_neq, b64_char_plain. }
  destruct p as [|[|[|p]]]; [| | |lia]; cbn [replicate app].
  - rewrite app_nil_r.
    destruct (reverse (map b64_char values)) as [|c r] eqn:E; [reflexivity|].
    rewrite Hhead. reflexivity.
  - rewrite N.eqb_refl.
    destruct (reverse (map b64_char values)) as [|c r] eqn:E.
    + rewrite <- E, reverse_involutive. reflexivity.
    + rewrite Hhead, <- E, reverse_involutive. reflexivity.
  - rewrite !N.eqb_refl. apply reverse_involutive.
Qed.

Lemma remove_whitespace_encoded (bytes : list N) :
  remove_whitespace (b64_encode bytes) = b64_encode bytes.
Proof.
  unfold remove_whitespace.
  induction bytes as [|a|a b|a b c rest IH] using triples_ind;
    cbn [b64_encode app List.filter]; rewrite ?(proj2 (b64_char_plain _));
    cbn [negb]; rewrite ?IH; reflexivity.
Qed.

Lemma remove_whitespace_twice (data : jsstr) :
  remove_whitespace (remove_whitespace data) = remove_whitespace data.
Proof.
  unfold remove_whitespace. induction data as [|c data IH]; [reflexivity|].
  cbn [List.filter]. destruct (is_ascii_whitespace c) eqn:E; cbn [negb List.filter].
  - exact IH.
  - rewrite E. cbn [negb]. rewrite IH. reflexivity.
Qed.

Lemma atob_encoded (bytes : list N) (data : jsstr) :
  Forall (fun b => b < 256) bytes ->
  remove_whitespace data = b64_encode bytes ->
  atob data = Some bytes.
Proof.
  intros Hb Hdata. unfold atob. cbn zeta. rewrite Hdata, b64_encode_sextets.
  destruct (sextets_length bytes) as (k & Hk & Hp & Hlen).
  rewrite (strip_padding_encoded _ _ k Hk Hp), length_map.
  assert ((length (sextets bytes) mod 4 =? 1)%nat = false) as ->.
  { apply Nat.eqb_neq. rewrite Hlen.
    destruct (pad_count bytes) as [|[|[|p]]]; [| | |lia].
    - replace (4 * k - 0)%nat with (0 + k * 4)%nat by lia.
      rewrite Nat.Div0.mod_add. discriminate.
    - destruct k as [|k]; [lia|].
      replace (4 * S k - 1)%nat with (3 + k * 4)%nat by lia.
      rewrite Nat.Div0.mod_add. discriminate.
    - destruct k as [|k]; [lia|].
      replace (4 * S k - 2)%nat with (2 + k * 4)%nat by lia.
      rewrite Nat.Div0.mod_add. discriminate. }
  change (map b64_char (sextets bytes)) with (b64_char <$> sextets bytes).
  rewrite mapM_fmap_Forall_Some.
  - cbn. rewrite (octets_sextets _ Hb). reflexivity.
  - eapply Forall_impl; [apply sextets_small, Hb|]. intros v Hv. apply b64_value_char, Hv.
Qed.

Lemma forallb_byte (bytes : list N) :
  forallb (fun c => c <? 256) bytes = true <-> Forall (fun b => b < 256) bytes.
Proof.
  rewrite forallb_forall, Forall_forall. split; intros H c Hc.
  - apply N.ltb_lt, H, list_elem_of_In, Hc.
  - apply N.ltb_lt, H, list_elem_of_In, Hc.
Qed.

Lemma binString_of_units (data : list N) :
  Forall (fun b => b < 65536) data -> binString_of data = data.
Proof.
  unfold binString_of. induction 1 as [|b data Hb _ IH]; [reflexivity|].
  cbn [map concat]. rewrite IH. unfold fromCodePoint.
  rewrite (proj2 (N.ltb_lt _ _) Hb). reflexivity.
Qed.

Lemma bytes_are_units (data : list N) :
  Forall (fun b => b < 256) data -> Forall (fun b => b < 65536) data.
Proof. intros H. eapply Forall_impl; [exact H|]. cbn. intros; lia. Qed.

Lemma b64_encode_alphabet (bytes : list N) :
  Forall (fun c => c = b64_pad \/ exists i, i < 64 /\ c = b64_char i) (b64_encode bytes).
Proof.
  assert (forall i, b64_char i = b64_pad \/ exists j, j < 64 /\ b64_char i = b64_char j) as H.
  { intros i. right. destruct (N.ltb_spec i 64) as [Hi|Hi]; [exists i; auto|].
    exists 63. split; [lia|]. unfold b64_char. decide_tests. reflexivity. }
  induction bytes as [|a|a b|a b c rest IH] using triples_ind; cbn [b64_encode app];
    repeat (apply Forall_cons; split; [first [apply H | left; reflexivity]|]);
    first [exact IH | constructor].
Qed.

(** ** UTF-16 and UTF-8 *)

(** Induction along the iteration of a string. *)
Lemma units_ind (P : jsstr -> Prop) :
  P [] -> (forall c, P [c]) ->
  (forall c d s, Unicode.is_high c && Unicode.is_low d = true -> P s -> P (c :: d :: s)) ->
  (forall c d s, Unicode.is_high c && Unicode.is_low d = false -> P (d :: s) ->
                 P (c :: d :: s)) ->
  forall s, P s.
Proof.
  intros H0 H1 H2 H3 s.
  enough (P s /\ forall c, P (c :: s)) by tauto.
  induction s as [|d s [IH0 IH1]]; [auto|].
  split; [apply IH1|]. intros c.
  destruct (Unicode.is_high c && Unicode.is_low d) eqn:E; [apply H2 | apply H3]; auto.
Qed.

Lemma string_iterator_pair (c d : N) (s : jsstr) :
  Unicode.is_high c && Unicode.is_low d = true ->
  string_iterator (c :: d :: s)
  = (65536 + (c - 55296) * 1024 + (d - 56320)) :: string_iterator s.
Proof. intros E. cbn [string_iterator]. rewrite E. reflexivity. Qed.

Lemma string_iterator_single (c d : N) (s : jsstr) :
  Unicode.is_high c && Unicode.is_low d = false ->
  string_iterator (c :: d :: s) = c :: string_iterator (d :: s).
Proof. intros E. cbn [string_iterator]. rewrite E. reflexivity. Qed.

Lemma surrogate_bounds (c d : N) :
  Unicode.is_high c && Unicode.is_low d = true ->
  55296 <= c <= 56319 /\ 56320 <= d <= 57343.
Proof.
  unfold Unicode.is_high, Unicode.is_low.
  rewrite !andb_true_iff, !N.leb_le. lia.
Qed.

Lemma fromCodePoint_iterator (s : jsstr) :
  Forall (fun c => c < 65536) s -> concat (map fromCodePoint (string_iterator s)) = s.
Proof.
  induction s as [|c|c d s E IH|c d s E IH] using units_ind; intros H.
  - reflexivity.
  - apply Forall_cons in H as [Hc _]. cbn. unfold fromCodePoint.
    rewrite (proj2 (N.ltb_lt _ _) Hc). reflexivity.
  - apply Forall_cons in H as [Hc [Hd Hs]%Forall_cons].
    rewrite (string_iterator_pair _ _ _ E). cbn [map concat]. rewrite (IH Hs).
    apply surrogate_bounds in E. unfold fromCodePoint.
    rewrite (proj2 (N.ltb_ge _ _)) by lia. cbn [app].
    f_equal; [|f_equal]; euclid.
  - apply Forall_cons in H as [Hc Hs].
    rewrite (string_iterator_single _ _ _ E). cbn [map concat]. rewrite (IH Hs).
    unfold fromCodePoint. rewrite (proj2 (N.ltb_lt _ _) Hc). reflexivity.
Qed.

Lemma string_iterator_bounded (s : jsstr) :
  Forall (fun c => c < 65536) s -> Forall (fun cp => cp < 1114112) (string_iterator s).
Proof.
  induction s as [|c|c d s E IH|c d s E IH] using units_ind; intros H.
  - constructor.
  - apply Forall_cons in H as [Hc _]. repeat constructor. lia.
  - apply Forall_cons in H as [Hc [Hd Hs]%Forall_cons].
    rewrite (string_iterator_pair _ _ _ E). apply surrogate_bounds in E.
    apply Forall_cons. split; [lia | apply IH, Hs].
  - apply Forall_cons in H as [Hc Hs].
    rewrite (string_iterator_single _ _ _ E).
    apply Forall_cons. split; [lia | apply IH, Hs].
Qed.

Lemma to_scalar_is_scalar (cp : N) : cp < 1114112 -> Unicode.is_scalar (to_scalar cp) = true.
Proof.
  intros H. unfold to_scalar, Unicode.is_scalar.
  destruct (Unicode.is_surrogate cp) eqn:E.
  - reflexivity.
  - rewrite E, (proj2 (N.ltb_lt _ _) H). reflexivity.
Qed.

Lemma scalar_values_scalar (s : jsstr) :
  Forall (fun c => c < 65536) s ->
  Forall (fun cp => Unicode.is_scalar cp = true) (scalar_values s).
Proof.
  intros H. unfold scalar_values. apply Forall_map.
  eapply Forall_impl; [apply string_iterator_bounded, H|].
  intros cp. apply to_scalar_is_scalar.
Qed.

Lemma scalar_bounds (cp : N) :
  Unicode.is_scalar cp = true -> cp < 1114112 /\ (cp < 55296 \/ 57343 < cp).
Proof.
  unfold Unicode.is_scalar, Unicode.is_surrogate.
  rewrite andb_true_iff, negb_true_iff, andb_false_iff, N.ltb_lt, !N.leb_gt. lia.
Qed.

Lemma utf8_bytes_small (cp : N) :
  Unicode.is_scalar cp = true -> Forall (fun b => b < 256) (utf8_bytes cp).
Proof.
  intros [H _]%scalar_bounds. unfold utf8_bytes.
  destruct (N.ltb_spec cp 128); [|destruct (N.ltb_spec cp 2048);
    [|destruct (N.ltb_spec cp 65536)]];
    repeat (apply Forall_cons; split; [euclid|]); constructor.
Qed.

Ltac leb_true a b := rewrite (proj2 (N.leb_le a b)) by lia.
Ltac leb_false a b := rewrite (proj2 (N.leb_gt a b)) by lia.

Lemma utf8_lead_two (a : N) :
  2 <= a < 32 ->
  utf8_lead (192 + a)
  = ([], {| utf8_code_point := a; utf8_bytes_needed := 1;
            utf8_lower_boundary := 128; utf8_upper_boundary := 191 |}).
Proof.
  intros Ha. unfold utf8_lead.
  leb_false (192 + a) 127. leb_true 194 (192 + a). leb_true (192 + a) 223.
  cbn [andb]. do 2 f_equal. euclid.
Qed.

Lemma utf8_lead_three (a : N) :
  a < 16 ->
  utf8_lead (224 + a)
  = ([], {| utf8_code_point := a; utf8_bytes_needed := 2;
            utf8_lower_boundary := if a =? 0 then 160 else 128;
            utf8_upper_boundary := if a =? 13 then 159 else 191 |}).
Proof.
  intros Ha. unfold utf8_lead.
  leb_false (224 + a) 127. leb_true 194 (224 + a). leb_false (224 + a) 223.
  leb_true 224 (224 + a). leb_true (224 + a) 239. cbn [andb].
  replace (224 + a =? 224) with (a =? 0)
    by (destruct (N.eqb_spec a 0), (N.eqb_spec (224 + a) 224); (reflexivity || lia)).
  replace (224 + a =? 237) with (a =? 13)
    by (destruct (N.eqb_spec a 13), (N.eqb_spec (224 + a) 237); (reflexivity || lia)).
  do 2 f_equal. euclid.
Qed.

Lemma utf8_lead_four (a : N) :
  a <= 4 ->
  utf8_lead (240 + a)
  = ([], {| utf8_code_point := a; utf8_bytes_needed := 3;
            utf8_lower_boundary := if a =? 0 then 144 else 128;
            utf8_upper_boundary := if a =? 4 then 143 else 191 |}).
Proof.
  intros Ha. unfold utf8_lead.
  leb_false (240 + a) 127. leb_true 194 (240 + a). leb_false (240 + a) 223.
  leb_true 224 (240 + a). leb_false (240 + a) 239.
  leb_true 240 (240 + a). leb_true (240 + a) 244. cbn [andb].
  replace (240 + a =? 240) with (a =? 0)
    by (destruct (N.eqb_spec a 0), (N.eqb_spec (240 + a) 240); (reflexivity || lia)).
  replace (240 + a =? 244) with (a =? 4)
    by (destruct (N.eqb_spec a 4), (N.eqb_spec (240 + a) 244); (reflexivity || lia)).
  do 2 f_equal. euclid.
Qed.

(** A byte that continues a sequence. *)
Lemma utf8_decoder_continue (st : utf8_state) (n : nat) (b : N) (rest : list N) :
  utf8_bytes_needed st = S n ->
  utf8_lower_boundary st <= 128 + b <= utf8_upper_boundary st -> b < 64 ->
  utf8_decoder st (128 + b :: rest)
  = match n with
    | O => (utf8_code_point st * 64 + b) :: utf8_decoder utf8_start rest
    | S _ =>
        utf8_decoder {| utf8_code_point := utf8_code_point st * 64 + b;
                        utf8_bytes_needed := n;
                        utf8_lower_boundary := 128;
                        utf8_upper_boundary := 191 |} rest
    end.
Proof.
  intros Hn Hb Hb64. cbn [utf8_decoder]. rewrite Hn.
  leb_true (utf8_lower_boundary st) (128 + b).
  leb_true (128 + b) (utf8_upper_boundary st). cbn [andb].
  replace ((128 + b) mod 64) with b by euclid. reflexivity.
Qed.

Ltac continue_with :=
  erewrite utf8_decoder_continue;
  [ | reflexivity
    | cbn [utf8_lower_boundary utf8_upper_boundary];
      repeat match goal with
             | |- context [?a =? ?b] => destruct (N.eqb_spec a b)
             end; lia
    | lia ];
  cbn [utf8_code_point].

Lemma utf8_decoder_lead (byte : N) (rest : list N) :
  utf8_decoder utf8_start (byte :: rest)
  = (utf8_lead byte).1 ++ utf8_decoder (utf8_lead byte).2 rest.
Proof. reflexivity. Qed.

Lemma utf8_decoder_two (a b : N) (rest : list N) :
  2 <= a < 32 -> b < 64 ->
  utf8_decoder utf8_start (192 + a :: 128 + b :: rest)
  = (a * 64 + b) :: utf8_decoder utf8_start rest.
Proof.
  intros Ha Hb. rewrite utf8_decoder_lead, (utf8_lead_two a Ha). cbn [fst snd app]. continue_with. reflexivity.
Qed.

Lemma utf8_decoder_three (a b c : N) (rest : list N) :
  a < 16 -> b < 64 -> c < 64 -> (a = 0 -> 32 <= b) -> (a = 13 -> b < 32) ->
  utf8_decoder utf8_start (224 + a :: 128 + b :: 128 + c :: rest)
  = ((a * 64 + b) * 64 + c) :: utf8_decoder utf8_start rest.
Proof.
  intros Ha Hb Hc H0 H13. rewrite utf8_decoder_lead, (utf8_lead_three a Ha). cbn [fst snd app].
  continue_with. continue_with. reflexivity.
Qed.

Lemma utf8_decoder_four (a b c d : N) (rest : list N) :
  a <= 4 -> b < 64 -> c < 64 -> d < 64 -> (a = 0 -> 16 <= b) -> (a = 4 -> b < 16) ->
  utf8_decoder utf8_start (240 + a :: 128 + b :: 128 + c :: 128 + d :: rest)
  = (((a * 64 + b) * 64 + c) * 64 + d) :: utf8_decoder utf8_start rest.
Proof.
  intros Ha Hb Hc Hd H0 H4. rewrite utf8_decoder_lead, (utf8_lead_four a Ha). cbn [fst snd app].
  continue_with. continue_with. continue_with. reflexivity.
Qed.

Lemma utf8_decoder_bytes (cp : N) (rest : list N) :
  Unicode.is_scalar cp = true ->
  utf8_decoder utf8_start (utf8_bytes cp ++ rest) = cp :: utf8_decoder utf8_start rest.
Proof.
  intros [H Hs]%scalar_bounds. unfold utf8_bytes.
  destruct (N.ltb_spec cp 128) as [H1|H1];
    [|destruct (N.ltb_spec cp 2048) as [H2|H2];
      [|destruct (N.ltb_spec cp 65536) as [H3|H3]]]; cbn [app].
  - cbn [utf8_decoder utf8_bytes_needed utf8_start]. unfold utf8_lead.
    rewrite (proj2 (N.leb_le cp 127)) by lia. reflexivity.
  - rewrite utf8_decoder_two by euclid. f_equal. euclid.
  - rewrite utf8_decoder_three by euclid. f_equal. euclid.
  - rewrite utf8_decoder_four by euclid. f_equal. euclid.
Qed.

Lemma utf8_decoder_encoded (cps : list N) :
  Forall (fun cp => Unicode.is_scalar cp = true) cps ->
  utf8_decoder utf8_start (concat (map utf8_bytes cps)) = cps.
Proof.
  induction 1 as [|cp cps Hcp _ IH]; [reflexivity|].
  cbn [map concat]. rewrite (utf8_decoder_bytes _ _ Hcp), IH. reflexivity.
Qed.

Lemma encoded_bytes_small (cps : list N) :
  Forall (fun cp => Unicode.is_scalar cp = true) cps ->
  Forall (fun b => b < 256) (concat (map utf8_bytes cps)).
Proof.
  induction 1 as [|cp cps Hcp _ IH]; [constructor|].
  cbn [map concat]. apply Forall_app. split; [apply utf8_bytes_small, Hcp | exact IH].
Qed.

Lemma string_iterator_bytes (s : jsstr) :
  Forall (fun b => b < 256) s -> string_iterator s = s.
Proof.
  induction s as [|c|c d s E IH|c d s E IH] using units_ind; intros H.
  - reflexivity.
  - reflexivity.
  - apply Forall_cons in H as [Hc _]. apply surrogate_bounds in E. lia.
  - apply Forall_cons in H as [Hc Hs].
    rewrite (string_iterator_single _ _ _ E), (IH Hs). reflexivity.
Qed.

Lemma bytes_of_bytes (s : jsstr) : Forall (fun b => b < 256) s -> bytes_of s = s.
Proof.
  intros H. unfold bytes_of. rewrite (string_iterator_bytes _ H).
  induction H as [|b s Hb _ IH]; [reflexivity|].
  cbn [map]. rewrite IH, N.mod_small by exact Hb. reflexivity.
Qed.

Lemma b64_encode_length (bytes : list N) :
  length (b64_encode bytes) = (4 * ((length bytes + 2) / 3))%nat.
Proof.
  induction bytes as [|a|a b|a b c rest IH] using triples_ind; try reflexivity.
  cbn [b64_encode app length]. rewrite IH.
  replace (S (S (S (length rest))) + 2)%nat with (length rest + 2 + 1 * 3)%nat by lia.
  rewrite Nat.div_add by discriminate. lia.
Qed.

(** X18.  The content of a binary upload.  For the bytes of an image,
    [btoa] of the binary string does not throw; the content has four
    characters for every three bytes, rounded up, all of them in the base64
    alphabet or [=]; and [atob] gives the bytes back, also when white space
    (line breaks) has been put into the content. *)
Theorem binary_round_trip (content : list N) (H : Forall (fun b => b < 256) content) :
  binary_base64 content = Some (b64_encode content)
  /\ length (b64_encode content) = (4 * ((length content + 2) / 3))%nat
  /\ Forall (fun c => c = b64_pad \/ exists i, i < 64 /\ c = b64_char i)
       (b64_encode content)
  /\ forall data,
       remove_whitespace data = b64_encode content ->
       bytes_of <$> atob data = Some content.
Proof.
  split; [|split; [apply b64_encode_length|split; [apply b64_encode_alphabet|]]].
  - unfold binary_base64, btoa.
    rewrite (binString_of_units _ (bytes_are_units _ H)).
    rewrite (proj2 (forallb_byte content) H). reflexivity.
  - intros data Hdata. rewrite (atob_encoded content data H Hdata). cbn.
    rewrite (bytes_of_bytes _ H). reflexivity.
Qed.

Lemma base64Decode_encoded (str : jsstr) :
  Forall (fun c => c < 65536) str ->
  base64Encode str = Some (b64_encode (TextEncoder_encode str))
  /\ forall data,
       remove_whitespace data = b64_encode (TextEncoder_encode str) ->
       base64Decode data
       = Some (concat (map fromCodePoint (drop_bom (scalar_values str)))).
Proof.
  intros H.
  pose proof (scalar_values_scalar str H) as Hsc.
  pose proof (encoded_bytes_small _ Hsc) as Hbytes.
  fold (TextEncoder_encode str) in Hbytes.
  split.
  - unfold base64Encode, btoa.
    rewrite (binString_of_units _ (bytes_are_units _ Hbytes)).
    rewrite (proj2 (forallb_byte _) Hbytes). reflexivity.
  - intros data Hdata. unfold base64Decode.
    rewrite (atob_encoded _ data Hbytes Hdata). cbn.
    rewrite (bytes_of_bytes _ Hbytes). unfold TextDecoder_decode, TextEncoder_encode.
    rewrite (utf8_decoder_encoded _ Hsc). reflexivity.
Qed.

(** X19.  [base64Decode] undoes [base64Encode] up to the two things the
    platform does to a text.  For every string [base64Encode] returns a
    content, without white space; [base64Decode] of that content, also with
    white space put into it, is the string with every surrogate that is not
    part of a pair replaced by U+FFFD and without a byte order mark at its
    start. *)
Theorem text_round_trip (str : jsstr) (H : Forall (fun c => c < 65536) str) :
  exists encoded,
    base64Encode str = Some encoded
    /\ remove_whitespace encoded = encoded
    /\ forall data,
         remove_whitespace data = encoded ->
         base64Decode data
         = Some (concat (map fromCodePoint (drop_bom (scalar_values str)))).
Proof.
  exists (b64_encode (TextEncoder_encode str)).
  destruct (base64Decode_encoded str H) as [Henc Hdec].
  split; [exact Henc|]. split; [apply remove_whitespace_encoded | exact Hdec].
Qed.

Lemma to_scalar_plain (cps : list N) :
  forallb (fun cp => negb (Unicode.is_surrogate cp)) cps = true ->
  map to_scalar cps = cps.
Proof.
  induction cps as [|cp cps IH]; [reflexivity|].
  cbn [forallb map]. intros [Hcp Hcps]%andb_true_iff.
  unfold to_scalar at 1. apply negb_true_iff in Hcp. rewrite Hcp, (IH Hcps). reflexivity.
Qed.

Lemma toWellFormed_wellFormed (s : jsstr) :
  Forall (fun c => c < 65536) s -> isWellFormed s = true -> toWellFormed s = s.
Proof.
  intros H Hwf. unfold toWellFormed, scalar_values.
  rewrite (to_scalar_plain _ Hwf). apply fromCodePoint_iterator, H.
Qed.

Lemma string_iterator_head (c : N) (s : jsstr) :
  c < 65536 ->
  exists cp rest, string_iterator (c :: s) = cp :: rest /\ (cp = c \/ 65536 <= cp).
Proof.
  intros Hc. destruct s as [|d s].
  - exists c, []. split; [reflexivity | left; reflexivity].
  - destruct (Unicode.is_high c && Unicode.is_low d) eqn:E.
    + rewrite (string_iterator_pair _ _ _ E). eexists _, _. split; [reflexivity|].
      right. lia.
    + rewrite (string_iterator_single _ _ _ E). eexists _, _.
      split; [reflexivity | left; reflexivity].
Qed.

Lemma drop_bom_none (s : jsstr) :
  Forall (fun c => c < 65536) s -> head s <> Some Unicode.bom ->
  drop_bom (scalar_values s) = scalar_values s.
Proof.
  intros H Hhead. destruct s as [|c s]; [reflexivity|].
  apply Forall_cons in H as [Hc _].
  destruct (string_iterator_head c s Hc) as (cp & rest & E & Hcp).
  unfold scalar_values. rewrite E. cbn [map drop_bom].
  assert (to_scalar cp <> Unicode.bom) as Hne.
  { unfold to_scalar, Unicode.is_surrogate, Unicode.replacement, Unicode.bom.
    destruct ((55296 <=? cp) && (cp <=? 57343)); [lia|].
    destruct Hcp as [->|Hcp]; [|lia]. intros ->. apply Hhead. reflexivity. }
  apply N.eqb_neq in Hne. rewrite Hne. reflexivity.
Qed.

(** X20.  For a well-formed string (every surrogate is part of a pair),
    [base64Decode(base64Encode(str))] is [str] when [str] does not begin
    with U+FEFF, and [str] without its first code unit when it does: a
    manifest that is read back is the text that was written. *)
Theorem text_round_trip_exact (str : jsstr)
    (H : Forall (fun c => c < 65536) str)
    (Hwf : isWellFormed str = true) :
  (head str <> Some Unicode.bom ->
   base64Encode str ≫= base64Decode = Some str)
  /\ (forall rest, str = Unicode.bom :: rest ->
                   base64Encode str ≫= base64Decode = Some rest).
Proof.
  destruct (base64Decode_encoded str H) as [Henc Hdec].
  rewrite Henc. cbn [mbind option_bind].
  rewrite (Hdec _ (remove_whitespace_encoded _)).
  split.
  - intros Hhead. rewrite (drop_bom_none _ H Hhead).
    fold (toWellFormed str). rewrite (toWellFormed_wellFormed _ H Hwf). reflexivity.
  - intros rest ->. f_equal.
    assert (Unicode.is_high Unicode.bom = false) as Hbom by reflexivity.
    assert (string_iterator (Unicode.bom :: rest) = Unicode.bom :: string_iterator rest)
      as E.
    { destruct rest as [|d rest]; [reflexivity|].
      apply string_iterator_single. rewrite Hbom. reflexivity. }
    unfold isWellFormed in Hwf. rewrite E in Hwf. cbn [forallb] in Hwf.
    apply andb_true_iff in Hwf as [_ Hwf].
    unfold scalar_values. rewrite E. cbn [map].
    change (to_scalar Unicode.bom) with Unicode.bom. cbn [drop_bom].
    rewrite N.eqb_refl, (to_scalar_plain _ Hwf).
    apply Forall_cons in H as [_ H]. apply fromCodePoint_iterator, H.
Qed.

(** ** Sample values of the encodings *)

Example base64_samples :
  base64Encode (js "hello") = Some (js "aGVsbG8=")
  /\ base64Encode (js "{}") = Some (js "e30=")
  /\ base64Decode (js "aGVs bG8=") = Some (js "hello")
  /\ base64Decode (js "aGVsbG8") = Some (js "hello")
  /\ atob (js "a") = None
  /\ atob (js "ab=c") = None
  /\ atob (js "ab==") = Some [105]
  /\ btoa [256] = None.
Proof. repeat split; vm_compute; reflexivity. Qed.

Example utf8_samples :
  TextEncoder_encode [233] = [195; 169]
  /\ TextEncoder_encode [8364] = [226; 130; 172]
  /\ TextEncoder_encode [55357; 56832] = [240; 159; 152; 128]
  /\ TextEncoder_encode [56832] = [239; 191; 189]
  /\ TextDecoder_decode [240; 159; 152; 128] = [55357; 56832]
  /\ TextDecoder_decode [192; 128] = [65533; 65533]
  /\ TextDecoder_decode [226; 130] = [65533]
  /\ TextDecoder_decode [237; 160; 128] = [65533; 65533; 65533]
  /\ TextDecoder_decode [226; 104] = [65533; 104]
  /\ TextDecoder_decode [239; 187; 191; 104] = [104].
Proof. repeat split; vm_compute; reflexivity. Qed.


(** ** The further properties on sample values *)

Lemma sample_random_in_range (i : nat) : (random_index Example.rt i < 36)%nat.
Proof. unfold Example.rt, random_index. apply Nat.mod_upper_bound. discriminate. Qed.

Lemma random_string_shape_witness :
  length (generateRandomString Example.rt 6) = 6%nat
  /\ forall c, c ∈ generateRandomString Example.rt 6 -> Ch.alnum c = true.
Proof.
  apply (proj2 (random_string_shape Example.rt 6)).
  intros i _. apply sample_random_in_range.
Defined.

Lemma script_extension_removed_witness :
  str_replace re_js_suffix false [] (js "My Sketch.js") ++ js ".js" = js "My Sketch.js".
Proof.
  apply (script_extension_removed Example.tool_form Example.tool_data). reflexivity.
Defined.

Lemma strip_extension_witness :
  str_replace re_extension false [] (js "First Run.final.png") = js "First Run.final".
Proof.
  apply (proj1 (strip_extension (js "First Run.final.png"))
           (js "First Run.final") (js "png")).
  - reflexivity.
  - discriminate.
  - intros c Hc. apply list_elem_of_In in Hc. vm_compute in Hc.
    destruct Hc as [<-|[<-|[<-|[]]]]; split; discriminate.
Defined.

Lemma sanitize_hyphens_witness :
  length (sanitizeString (js "a b") 2) = Z.to_nat 2.
Proof. apply (proj2 (sanitize_hyphens (js "a b") 2)). reflexivity. Defined.

Lemma derived_names_safe_witness :
  let out := {| toolId := js "old-tool-aaaaaa"; outputFile := Example.image |} in
  (forall c, c ∈ tool_id Example.rt Example.tool_data -> Ch.safe c = true)
  /\ (8 <= length (tool_id Example.rt Example.tool_data) <= 58)%nat
  /\ tool_filename Example.rt Example.tool_data
     = tool_id Example.rt Example.tool_data ++ js ".js"
  /\ (forall c, c ∈ output_id Example.rt out -> Ch.safe c = true)
  /\ (7 <= length (output_id Example.rt out) <= 37)%nat.
Proof.
  cbn zeta. apply derived_names_safe. intros i _. apply sample_random_in_range.
Defined.

Lemma invalid_output_upload_witness :
  let formData := [ (js "toolId", FString []) ] in
  exists issues,
    default_fetch GitHub.serve Example.rt (Example.post "/upload/output" formData)
      Example.env (Example.start Example.empty_store) =
    (Ok (jsonResponse (IssuesBody issues) 400 (corsHeaders_of Example.env)),
     after (Example.start Example.empty_store) Example.empty_store [EvFormData])
    /\ map issue_path issues = [js "toolId"; js "outputFile"].
Proof.
  cbn zeta.
  apply (invalid_output_upload GitHub.serve Example.rt
           (Example.post "/upload/output" [ (js "toolId", FString []) ]) Example.env
           (Example.start Example.empty_store) [ (js "toolId", FString []) ]);
    try reflexivity.
  vm_compute. discriminate.
Defined.

Lemma validated_tool_fields_witness :
  let formData := [ (js "toolName", FString (js "Brush"));
                    (js "toolDescription", FString (js "Paints"));
                    (js "nickname", FString (js "  "));
                    (js "modelUsed", FString (js "model"));
                    (js "toolFile", FFile Example.sketch) ] in
  let data := {| toolName := js "Brush"; toolDescription := js "Paints";
                 nickname := []; modelUsed := js "model";
                 toolFile := Example.sketch |} in
  uploadInputSchema formData = inr data
  /\ endsWith (file_name (toolFile data)) (js ".js") = true
  /\ tool_id Example.rt data = js "-my-sketch-dkry5c".
Proof.
  cbn zeta. split; [reflexivity|]. split; [|reflexivity].
  exact (proj1 (proj2 (proj2
    (validated_tool_fields
       [ (js "toolName", FString (js "Brush"));
         (js "toolDescription", FString (js "Paints"));
         (js "nickname", FString (js "  "));
         (js "modelUsed", FString (js "model"));
         (js "toolFile", FFile Example.sketch) ]
       {| toolName := js "Brush"; toolDescription := js "Paints";
          nickname := []; modelUsed := js "model";
          toolFile := Example.sketch |} eq_refl)))).
Defined.


Lemma getFromGitHub_answers_witness :
  (getFromGitHub GitHub.serve (js "token") (js "owner") (js "gallery")
     (js "workshop/manifest.json") (Example.start Example.empty_store)).1 = Ok Falsy.
Proof.
  destruct (getFromGitHub_answers GitHub.serve (js "token") (js "owner") (js "gallery")
              (js "workshop/manifest.json") (Example.start Example.empty_store))
    as (o & E & _ & H).
  rewrite E. cbn [fst].
  exact (proj1 (H {| resp_status := 404; resp_body_of := JsonBody OtherJson |}
                  eq_refl) eq_refl).
Defined.

Lemma payload_uploads_witness :
  (uploadToGitHub GitHub.serve (js "token") (js "owner") (js "gallery")
     (js "workshop/tools/a.js") (js "draw()") (js "Add sketch by a")
     (Example.start Example.store_old)).1 = Ok OtherJson
  /\ (uploadBinaryToGitHub GitHub.serve (js "token") (js "owner") (js "gallery")
        (js "workshop/manifest.json") [137; 80] (js "Add output for a")
        (Example.start Example.store_old)).1 = Throw (GitHubApiError 422).
Proof.
  destruct (payload_uploads GitHub.serve (js "token") (js "owner") (js "gallery")
              (js "workshop/tools/a.js") (js "Add sketch by a") (js "draw()") []
              (Example.start Example.store_old)) as [(_ & _ & H1) _].
  destruct (payload_uploads GitHub.serve (js "token") (js "owner") (js "gallery")
              (js "workshop/manifest.json") (js "Add output for a") [] [137; 80]
              (Example.start Example.store_old)) as [_ (_ & _ & H2)].
  split.
  - exact (proj1 (proj2 (H1 {| resp_status := 201; resp_body_of := JsonBody OtherJson |}
                             eq_refl)) eq_refl OtherJson eq_refl).
  - exact (proj1 (H2 {| resp_status := 422; resp_body_of := JsonBody OtherJson |}
                    eq_refl) eq_refl).
Defined.

Lemma output_upload_prepends_witness :
  let request := Example.post "/upload/output" (Example.output_form "old-tool-aaaaaa") in
  let w := Example.start Example.store_old in
  let w' := (default_fetch GitHub.serve Example.rt request Example.env w).2 in
  exists formData data a1 manifest0 sha0 pre tool post props a2 toolUrl a3
         currentManifest manifest a4,
    let rq1 := get_request (js "token") (js "owner") (js "gallery")
                 (js "workshop/manifest.json") in
    let rq2 := put_request (js "token") (js "owner") (js "gallery")
                 (js "workshop" ++ js "/outputs/" ++ output_filename Example.rt data)
                 (js "Add output for " ++ toolId data)
                 (BinaryContent (file_bytes (outputFile data))) None in
    let rq4 := put_request (js "token") (js "owner") (js "gallery")
                 (js "workshop/manifest.json") (js "Update manifest with new output")
                 (JsonContent manifest) (sha_of currentManifest) in
    let stored := manifest_read currentManifest in
    let newOutput := output_entry Example.rt data toolUrl in
    req_form request = Some formData
    /\ uploadOutputSchema formData = inr data
    /\ trace w' = trace w ++ [EvFormData; EvFetch rq1 a1; EvFetch rq2 a2;
                              EvFetch rq1 a3; EvFetch rq4 a4]
    /\ get_result a1 = Ok (FileJson (Some manifest0) sha0)
    /\ failed rq2 a2 = false
    /\ get_prop manifest0 (js "tools") = Ok (Some (JArr (pre ++ tool :: post) props))
    /\ get_prop tool (js "id") = Ok (Some (JStr (toolId data)))
    /\ (forall p, p ∈ pre -> get_prop p (js "id") <> Ok (Some (JStr (toolId data))))
    /\ get_prop tool (js "url") = Ok toolUrl
    /\ field_of newOutput (js "toolId") = Some (JStr (toolId data))
    /\ field_of newOutput (js "toolUrl") = toolUrl
    /\ get_result a3 = Ok currentManifest
    /\ failed rq4 a4 = false
    /\ (is_object stored = true ->
        array_of manifest (js "outputs") = newOutput :: array_of stored (js "outputs")
        /\ array_of manifest (js "tools") = array_of stored (js "tools")
        /\ forall k, k <> js "outputs" -> field_of manifest k = field_of stored k).
Proof.
  cbn zeta.
  apply (output_upload_prepends GitHub.serve Example.rt
           (Example.post "/upload/output" (Example.output_form "old-tool-aaaaaa"))
           Example.env (Example.start Example.store_old) _
           (jsonResponse
              (SuccessBody (js "first-run-final-dkry5c.png") (galleryUrl_of Example.env))
              200 (corsHeaders_of Example.env)));
    reflexivity.
Defined.

Lemma reply_tells_writes_witness :
  let w := Example.start Example.store_raced in
  let run := handleToolUpload GitHub.serve Example.rt Example.tool_request Example.env
               (corsHeaders_of Example.env) w in
  exists reply evs,
    run.1 = Ok reply /\ trace run.2 = trace w ++ evs
    /\ ((writes evs).1 <= (writes evs).2 <= 1)%nat
    /\ (reply_status reply = 200%Z -> writes evs = (1, 1)%nat)
    /\ ((writes evs).1 = 1%nat -> reply_status reply <> 200%Z ->
        reply_status reply = 500%Z /\ existsb is_unreadable evs = true).
Proof.
  cbn zeta.
  apply (reply_tells_writes GitHub.serve Example.rt Example.tool_request Example.env
           (corsHeaders_of Example.env) (Example.start Example.store_raced)).
  left. apply surjective_pairing.
Defined.

Lemma variant_agrees_witness :
  SingleEndpoint.default_fetch GitHub.serve Example.rt Example.tool_request Example.env
    (Example.start Example.store_old)
  = handleToolUpload GitHub.serve Example.rt Example.tool_request Example.env
      (corsHeaders_of Example.env) (Example.start Example.store_old).
Proof.
  apply variant_agrees; [reflexivity | reflexivity |].
  intros formData data [= <-] Hvalid.
  assert (uploadInputSchema Example.tool_form = inr Example.tool_data) as E
    by reflexivity.
  rewrite E in Hvalid. injection Hvalid as <-.
  cbn zeta. intros cm Hcm. vm_compute in Hcm. injection Hcm as <-. reflexivity.
Defined.

Lemma binary_round_trip_witness :
  bytes_of <$> atob (js "iVBO Rw==") = Some [137; 80; 78; 71].
Proof.
  apply (proj2 (proj2 (proj2 (binary_round_trip [137; 80; 78; 71]
                                ltac:(repeat constructor))))).
  reflexivity.
Defined.

Lemma text_round_trip_witness :
  exists encoded,
    base64Encode [104; 233; 8364; 55357; 56832; 56832] = Some encoded
    /\ base64Decode encoded = Some [104; 233; 8364; 55357; 56832; 65533].
Proof.
  destruct (text_round_trip [104; 233; 8364; 55357; 56832; 56832]
              ltac:(repeat constructor)) as (encoded & Henc & Hws & Hdec).
  exists encoded. split; [exact Henc|]. rewrite (Hdec encoded Hws). reflexivity.
Defined.

Lemma text_round_trip_exact_witness :
  base64Encode (js "{ }") ≫= base64Decode = Some (js "{ }").
Proof.
  apply (proj1 (text_round_trip_exact (js "{ }") ltac:(repeat constructor) eq_refl)).
  discriminate.
Defined.
